(** * MongoConductor user accounts: a shallow embedding of [lib/users.js]

    The development follows the source file top-down:

    - the JavaScript data the handlers touch (JSON values and dates);
    - the host functions they call ([crypto], [JSON], [Date], [String]), kept
      abstract in a record;
    - the server settings and the two feature flags;
    - the account store, the session and the mail transport as one explicit
      world, threaded through a small state-and-exception monad that also
      records every collaborator call and every response in order;
    - the ten handlers and the route table;
    - an executable host and a small fixture, to run the handlers;
    - the properties of the token mechanism, the login gate, the grants and
      the confirmation flag.

    Conventions.  A JavaScript [Date] is its time value in milliseconds, or
    [None] for an Invalid Date; the range limit of time values and daylight
    saving shifts of the local zone are outside the model.  Text is a byte
    string (UTF-8).  JSON numbers are integers.  A callback that the source
    passes to a collaborator is run in place, once, with the collaborator's
    answer. *)

From Stdlib Require Import ZArith Lia List String Ascii Bool.
From stdpp Require Import gmap strings list fin_maps pretty.

Local Open Scope string_scope.
Local Open Scope Z_scope.
Local Open Scope list_scope.

(** ** JavaScript data *)

(** What [JSON.parse] can return. *)
#[local] Unset Elimination Schemes.
Inductive json : Type :=
| JNull
| JBool (b : bool)
| JNum (n : Z)
| JStr (s : string)
| JArr (items : list json)
| JObj (fields : list (string * json)).
#[local] Set Elimination Schemes.

(** A value read out of a parsed document: [None] is [undefined]. *)
Definition jsval : Type := option json.

(** A [Date]: its time value, [None] when the time value is NaN. *)
Definition Date : Type := option Z.

Inductive Exn : Type :=
| TypeError (msg : string)
| SyntaxError (msg : string)
| CryptoError (msg : string).

Inductive Outcome (A : Type) : Type :=
| Returned (a : A)
| Threw (e : Exn).
Arguments Returned {A} a.
Arguments Threw {A} e.

Fixpoint assoc (k : string) (l : list (string * json)) : jsval :=
  match l with
  | [] => None
  | (k', v) :: l' => if String.eqb k k' then Some v else assoc k l'
  end.

(** [JSON.parse] keeps the last of several equal keys. *)
Definition own_property (k : string) (l : list (string * json)) : jsval :=
  assoc k (rev l).

(** [token.k] for a parsed [token] and a key [k] that is neither an index nor
    a built-in property name: reading a property of [null] throws, a
    primitive or an array has no such property. *)
Definition get_prop (v : json) (k : string) : Outcome jsval :=
  match v with
  | JNull => Threw (TypeError "Cannot read property of null")
  | JObj fields => Returned (own_property k fields)
  | _ => Returned None
  end.

(** ** Host functions

    The built-ins the handlers call.

    - [cipher_hex alg pw text] is [crypto.createCipher(alg, pw)] followed by
      [update(text, 'utf8', 'hex')] and [final('hex')], the two pieces
      concatenated; [None] when one of the calls throws (an unknown
      algorithm, say).
    - [decipher_hex alg pw hex] is [crypto.createDecipher(alg, pw)] followed
      by [update(hex, 'hex', 'utf8')] and [final('utf8')]; [None] when one of
      the calls throws (text that is not hex, a bad final block).
    - [JSON_parse] answers [None] where [JSON.parse] throws.
    - [Date_parse s] is the time value of [new Date(s)] for a string [s];
      [js_toString v] is the string an array or an object converts to.
    - [replace_g p r s] is [s.replace(/p/g, r)] for the literal pattern [p]. *)
Record Host : Type := {
  cipher_hex : string -> string -> string -> option string;
  decipher_hex : string -> string -> string -> option string;
  JSON_stringify : json -> string;
  JSON_parse : string -> option json;
  toISOString : Z -> string;
  Date_parse : string -> Date;
  js_toString : json -> string;
  replace_g : string -> string -> string -> string;
  encodeURIComponent : string -> string
}.

(** ** Server settings *)

Record TokenSettings : Type := {
  timeout : option Z;
  algorithm : string;
  password : string
}.

Record Attachment : Type := {
  alternative : bool;
  data : string
}.

Record MailTemplate : Type := {
  enabled : bool;
  text : string;
  attachment : option (list Attachment)
}.

Record Messages : Type := {
  passwordResetRequest : option MailTemplate;
  confirmEmail_message : option MailTemplate
}.

Record MailSettings : Type := {
  messages : option Messages
}.

Record Authentication : Type := {
  resetPasswordToken : option TokenSettings;
  confirmEmailToken : option TokenSettings
}.

(** ** Accounts *)

Inductive Perm : Type := Read | Write | Delete.

(** A document of the [users] collection.  [credential] stands for the salt
    and hash kept by the credential plugin; [_acl] is the grant table of the
    access-control plugin, keyed by subject key. *)
Record User : Type := {
  _id : string;
  email : string;
  credential : string;
  firstName : option string;
  lastName : option string;
  roles : option (list string);
  isConfirmed : bool;
  _created : option Z;
  _modified : option Z;
  _lastLogin : option Z;
  _acl : gmap string (list Perm)
}.

Definition set_credential (c : string) (u : User) : User :=
  {| _id := _id u; email := email u; credential := c;
     firstName := firstName u; lastName := lastName u; roles := roles u;
     isConfirmed := isConfirmed u; _created := _created u;
     _modified := _modified u; _lastLogin := _lastLogin u; _acl := _acl u |}.

Definition set_isConfirmed (b : bool) (u : User) : User :=
  {| _id := _id u; email := email u; credential := credential u;
     firstName := firstName u; lastName := lastName u; roles := roles u;
     isConfirmed := b; _created := _created u;
     _modified := _modified u; _lastLogin := _lastLogin u; _acl := _acl u |}.

Definition set_created (t : option Z) (u : User) : User :=
  {| _id := _id u; email := email u; credential := credential u;
     firstName := firstName u; lastName := lastName u; roles := roles u;
     isConfirmed := isConfirmed u; _created := t;
     _modified := _modified u; _lastLogin := _lastLogin u; _acl := _acl u |}.

Definition set_modified (t : option Z) (u : User) : User :=
  {| _id := _id u; email := email u; credential := credential u;
     firstName := firstName u; lastName := lastName u; roles := roles u;
     isConfirmed := isConfirmed u; _created := _created u;
     _modified := t; _lastLogin := _lastLogin u; _acl := _acl u |}.

Definition set_lastLogin (t : option Z) (u : User) : User :=
  {| _id := _id u; email := email u; credential := credential u;
     firstName := firstName u; lastName := lastName u; roles := roles u;
     isConfirmed := isConfirmed u; _created := _created u;
     _modified := _modified u; _lastLogin := t; _acl := _acl u |}.

Definition set_acl (a : gmap string (list Perm)) (u : User) : User :=
  {| _id := _id u; email := email u; credential := credential u;
     firstName := firstName u; lastName := lastName u; roles := roles u;
     isConfirmed := isConfirmed u; _created := _created u;
     _modified := _modified u; _lastLogin := _lastLogin u; _acl := a |}.

(** The subject key of the access-control plugin (users.js 32-35). *)
Definition subject_key (u : User) : string := "user:" +:+ _id u.

(** [doc.setAccess(subject, perms)]: the entry of the subject's key is
    overwritten. *)
Definition setAccess (key : string) (perms : list Perm) (u : User) : User :=
  set_acl (<[key := perms]> (_acl u)) u.

Definition full_access : list Perm := [Read; Write; Delete].

(** [server.settings]: the [mail] block may be missing altogether; the
    [authentication] block is always there, its two token entries need not
    be.  [readFilter profile] is the field filter that the collection's
    [filter] entry configures for [applyReadFilter(profile)]. *)
Record Settings : Type := {
  mail : option MailSettings;
  authentication : Authentication;
  readFilter : string -> User -> User
}.

(** ** The two feature flags (users.js 477-490 and 537-550) *)

Section Flags.
Context (cfg : Settings).

Definition template_enabled (t : option MailTemplate) : bool :=
  match t with
  | Some m => enabled m
  | None => false
  end.

Definition resetPasswordEnabled : bool :=
  match mail cfg with
  | Some m =>
      match messages m, resetPasswordToken (authentication cfg) with
      | Some msgs, Some _ => template_enabled (passwordResetRequest msgs)
      | _, _ => false
      end
  | None => false
  end.

Definition confirmEmailEnabled : bool :=
  match mail cfg with
  | Some m =>
      match messages m, confirmEmailToken (authentication cfg) with
      | Some msgs, Some _ => template_enabled (confirmEmail_message msgs)
      | _, _ => false
      end
  | None => false
  end.
End Flags.

(** ** Dates *)

(** [d.setMinutes(d.getMinutes() + timeout)] on [d = new Date()]: a missing
    [timeout] makes the sum NaN and the date invalid. *)
Definition addMinutes (t : Z) (timeout : option Z) : Date :=
  match timeout with
  | Some m => Some (t + m * 60000)
  | None => None
  end.

(** [Date.prototype.toJSON], as [JSON.stringify] applies it: an invalid date
    is written as [null]. *)
Definition date_toJSON (h : Host) (d : Date) : json :=
  match d with
  | Some t => JStr (toISOString h t)
  | None => JNull
  end.

(** The time value of [new Date(v)]. *)
Definition newDate (h : Host) (v : jsval) : Date :=
  match v with
  | None => None
  | Some JNull => Some 0
  | Some (JBool b) => Some (if b then 1 else 0)
  | Some (JNum n) => Some n
  | Some (JStr s) => Date_parse h s
  | Some (JArr l) => Date_parse h (js_toString h (JArr l))
  | Some (JObj l) => Date_parse h (js_toString h (JObj l))
  end.

(** [a >= b] on two dates: a comparison with NaN is false. *)
Definition date_ge (a b : Date) : bool :=
  match a, b with
  | Some x, Some y => (y <=? x)%Z
  | _, _ => false
  end.

(** ** Responses, collaborator calls, the world *)

Inductive Payload : Type :=
| PUser (u : User)
| PBool (b : bool)
| PUndefined.

(** [server.result(request, response, value)] and
    [server.error(request, response, message, status)]. *)
Inductive Response : Type :=
| Result (value : Payload)
| Error (message : string) (status : Z).

Record MailMessage : Type := {
  msg_enabled : bool;
  msg_to : string;
  msg_text : string;
  msg_attachment : option (list Attachment)
}.

(** What a handler does to the outside, in the order it does it.  [EvInsert]
    and [EvSave] carry the document as it is written. *)
Inductive Event : Type :=
| EvFindById (id : jsval)
| EvFindOne (mail_address : string)
| EvInsert (u : User)
| EvSave (u : User)
| EvMailSend (m : MailMessage)
| EvLogout
| EvRespond (r : Response).

(** The [users] collection keyed by [_id], the passport session (the id it
    serialized, users.js 65-67) and the events so far. *)
Record World : Type := {
  users : gmap string User;
  session : option string;
  trace : list Event
}.

Definition log (ev : Event) (w : World) : World :=
  {| users := users w; session := session w; trace := trace w ++ [ev] |}.

Definition with_users (m : gmap string User) (w : World) : World :=
  {| users := m; session := session w; trace := trace w |}.

Definition with_session (s : option string) (w : World) : World :=
  {| users := users w; session := s; trace := trace w |}.

(** What one request meets: the clock, the id the driver gives a new
    document, and the failures of the collaborators (an error answered by a
    query, by a write, by the password hashing, by the mail transport). *)
Record Env : Type := {
  now : Z;
  objectId : string;
  findFault : option string;
  saveFault : option string;
  hashFault : option string;
  mailFault : option string
}.

(** ** The handler monad: state and exceptions *)

Definition M (A : Type) : Type := World -> Outcome A * World.

Definition ret {A : Type} (a : A) : M A := fun w => (Returned a, w).

Definition throw {A : Type} (e : Exn) : M A := fun w => (Threw e, w).

Definition bind {A B : Type} (m : M A) (k : A -> M B) : M B :=
  fun w =>
    match m w with
    | (Returned a, w') => k a w'
    | (Threw e, w') => (Threw e, w')
    end.

Definition lift {A : Type} (o : Outcome A) : M A := fun w => (o, w).

Definition emit (ev : Event) : M unit := fun w => (Returned tt, log ev w).

Notation "'do' x <- m ; k" := (bind m (fun x => k))
  (at level 10, x name, m at level 100, k at level 200).
Notation "'do_' m ; k" := (bind m (fun _ => k))
  (at level 10, m at level 100, k at level 200).

(** The two arguments of a node-style callback: an error, or an answer. *)
Inductive Answer (A : Type) : Type :=
| Err (e : string)
| Ans (a : A).
Arguments Err {A} e.
Arguments Ans {A} a.

Definition respond (r : Response) : M unit := emit (EvRespond r).

(** ** The collaborators

    The account store (mongoose with the credential, timestamp and
    access-control plugins) and the mail transport, as far as the handlers
    use them. *)

Section Collaborators.
Context (env : Env).

(** [UserModel.findById(id, cb)]: only a string names a document (the
    driver's cast errors for other values are not modelled). *)
Definition findById (id : jsval) : M (Answer (option User)) :=
  fun w =>
    let w' := log (EvFindById id) w in
    match findFault env with
    | Some e => (Returned (Err e), w')
    | None =>
        match id with
        | Some (JStr s) => (Returned (Ans (users w !! s)), w')
        | _ => (Returned (Ans None), w')
        end
    end.

Definition has_email (address : string) (u : User) : Prop :=
  email u = address.

#[global] Instance has_email_dec address u : Decision (has_email address u).
Proof. unfold has_email. apply _. Defined.

Definition lookup_email (address : string) (m : gmap string User)
  : option User :=
  snd <$> list_find (has_email address) (snd <$> map_to_list m).

(** [UserModel.findOne({email: address}, undefined, cb)]. *)
Definition findOne (address : string) : M (Answer (option User)) :=
  fun w =>
    let w' := log (EvFindOne address) w in
    match findFault env with
    | Some e => (Returned (Err e), w')
    | None => (Returned (Ans (lookup_email address (users w))), w')
    end.

(** [doc.save(cb)] on a loaded document: the modified paths, given as
    [delta], and the [_modified] stamp of the timestamp plugin are written
    to the stored document. *)
Definition save (u : User) (delta : User -> User) : M (Answer unit) :=
  fun w =>
    match saveFault env with
    | Some e => (Returned (Err e), w)
    | None =>
        let written := fun d => set_modified (Some (now env)) (delta d) in
        (Returned (Ans tt),
         log (EvSave (written u))
             (with_users (alter written (_id u) (users w)) w))
    end.

(** [doc.setPassword(password, cb)] of the credential plugin: an empty
    password is refused, the hashing may fail, otherwise the document
    carries the new credential. *)
Definition setPassword (u : User) (pw : string)
  : M (Answer (option User)) :=
  fun w =>
    if String.eqb pw "" then (Returned (Err "Password argument not set!"), w)
    else
      match hashFault env with
      | Some e => (Returned (Err e), w)
      | None => (Returned (Ans (Some (set_credential pw u))), w)
      end.

(** [doc.authenticate(password, cb)] of the credential plugin.  The
    callback gets [(err)] when the hashing fails, [(null, doc)] when the
    password matches and [(null, false, info)] when it does not: the second
    component is [None] for [false]. *)
Definition authenticate (u : User) (pw : string)
  : M (option string * option User) :=
  fun w =>
    match hashFault env with
    | Some e => (Returned (Some e, None), w)
    | None =>
        if String.eqb pw (credential u) then (Returned (None, Some u), w)
        else (Returned (None, None), w)
    end.

(** [UserModel.register(doc, password, cb)] of the credential plugin: the
    address must be free, the password is set, and the new document is
    inserted with the stamps of the timestamp plugin.  The driver refuses
    a second document under one [_id]. *)
Definition register (a : User) (pw : string) : M (Answer User) :=
  do r <- findOne (email a);
  match r with
  | Err e => ret (Err e)
  | Ans (Some _) => ret (Err "User already exists")
  | Ans None =>
      do r <- setPassword a pw;
      match r with
      | Err e => ret (Err e)
      | Ans None => throw (TypeError "Cannot call method 'save' of null")
      | Ans (Some a') =>
          fun w =>
            match saveFault env with
            | Some e => (Returned (Err e), w)
            | None =>
                match users w !! _id a' with
                | Some _ => (Returned (Err "E11000 duplicate key error"), w)
                | None =>
                    let doc := set_modified (Some (now env))
                                 (set_created (Some (now env)) a') in
                    (Returned (Ans doc),
                     log (EvInsert doc)
                         (with_users (<[_id doc := doc]> (users w)) w))
                end
            end
      end
  end.

(** [server.mail.send(message, cb)]: the callback's error. *)
Definition mail_send (m : MailMessage) : M (option string) :=
  fun w => (Returned (mailFault env), log (EvMailSend m) w).

(** [request.logout()]. *)
Definition logout_session : M unit :=
  fun w => (Returned tt, log EvLogout (with_session None w)).
End Collaborators.

(** ** Requests *)

(** The body of a registration request, as far as the schema takes it up. *)
Record Body : Type := {
  body_id : option string;
  body_email : string;
  body_password : string;
  body_firstName : option string;
  body_lastName : option string;
  body_roles : option (list string);
  body_isConfirmed : bool
}.

(** ** The handlers (users.js 131-601) *)

Section Handlers.
Context (host : Host) (cfg : Settings) (env : Env).

(** *** Tokens *)

(** Lines 496-507 and 556-568: the token for the account [id], minted at
    [now env] under the settings [ts] of its class. *)
Definition mintToken (ts : TokenSettings) (id : string) : Outcome string :=
  let expiration := addMinutes (now env) (timeout ts) in
  let token := JObj [("_id", JStr id);
                     ("expiration", date_toJSON host expiration)] in
  match cipher_hex host (algorithm ts) (password ts)
          (JSON_stringify host token) with
  | Some hex => Returned hex
  | None => Threw (CryptoError "createCipher")
  end.

(** Lines 221-226 and 319-324: the settings of the class are read, the
    text is deciphered and parsed. *)
Definition decodeToken (class : option TokenSettings) (token : string)
  : Outcome json :=
  match class with
  | None => Threw (TypeError "Cannot read property 'algorithm' of undefined")
  | Some ts =>
      match decipher_hex host (algorithm ts) (password ts) token with
      | None => Threw (CryptoError "createDecipher")
      | Some plain =>
          match JSON_parse host plain with
          | None => Threw (SyntaxError "JSON.parse")
          | Some v => Returned v
          end
      end
  end.

(** Lines 228 and 327: [new Date() >= new Date(token.expiration)]. *)
Definition expired (expiration : jsval) : bool :=
  date_ge (Some (now env)) (newDate host expiration).

(** *** Mail messages *)

Definition or_empty (o : option string) : string := default "" o.

Definition fill (u : User) (token : string) (body : string) : string :=
  replace_g host "{token}" (encodeURIComponent host token)
    (replace_g host "{lastName}" (or_empty (lastName u))
       (replace_g host "{firstName}" (or_empty (firstName u)) body)).

Definition fill_attachment (u : User) (token : string) (a : Attachment)
  : Attachment :=
  if alternative a then
    {| alternative := alternative a;
       data := replace_g host "{token}" "" (fill u token (data a)) |}
  else a.

(** Lines 510-526 and 571-587. *)
Definition formatMessage (t : MailTemplate) (u : User) (token : string)
  : MailMessage :=
  {| msg_enabled := enabled t;
     msg_to := or_empty (firstName u) +:+ " " +:+ or_empty (lastName u)
               +:+ " <" +:+ email u +:+ ">";
     msg_text := fill u token (text t);
     msg_attachment :=
       option_map (List.map (fill_attachment u token)) (attachment t) |}.

(** [server.settings.mail.messages.<name>], read where the flag has
    already been tested; copying an [undefined] template through JSON
    throws. *)
Definition template (pick : Messages -> option MailTemplate)
  : Outcome MailTemplate :=
  match mail cfg with
  | None => Threw (TypeError "Cannot read property 'messages' of undefined")
  | Some m =>
      match messages m with
      | None => Threw (TypeError "Cannot read property of undefined")
      | Some msgs =>
          match pick msgs with
          | None => Threw (SyntaxError "JSON.parse")
          | Some t => Returned t
          end
      end
  end.

Definition token_settings (class : option TokenSettings)
  : Outcome TokenSettings :=
  match class with
  | None => Threw (TypeError "Cannot read property 'timeout' of undefined")
  | Some ts => Returned ts
  end.

(** Lines 492-535.  The answer is the error handed to the callback. *)
Definition sendResetPassword (user : User) : M (option string) :=
  if confirmEmailEnabled cfg then
    do ts <- lift (token_settings (resetPasswordToken (authentication cfg)));
    do token <- lift (mintToken ts (_id user));
    do t <- lift (template passwordResetRequest);
    mail_send env (formatMessage t user token)
  else ret (Some "Password reset is not enabled.").

(** Lines 552-601. *)
Definition sendConfirmEmail (user : User) : M (option string) :=
  if confirmEmailEnabled cfg then
    if negb (isConfirmed user) then
      do ts <- lift (token_settings (confirmEmailToken (authentication cfg)));
      do token <- lift (mintToken ts (_id user));
      do t <- lift (template confirmEmail_message);
      mail_send env (formatMessage t user token)
    else ret (Some "Email already confirmed.")
  else ret (Some "Email confirmation is not enabled.").

(** *** login (lines 131-173) *)

(** Lines 138: [timeout ? timeout : 1440]. *)
Definition grace_minutes (ts : TokenSettings) : Z :=
  match timeout ts with
  | Some t => if (t =? 0)%Z then 1440 else t
  | None => 1440
  end.

(** Lines 133-149: the value of [emailConfirmed]. *)
Definition emailConfirmed (user : User) : Outcome bool :=
  if confirmEmailEnabled cfg then
    match _created user with
    | Some created =>
        if negb (isConfirmed user) then
          match confirmEmailToken (authentication cfg) with
          | None =>
              Threw (TypeError "Cannot read property 'timeout' of undefined")
          | Some ts =>
              let timeoutDate := (created + grace_minutes ts * 60000)%Z in
              Returned (now env <=? timeoutDate)%Z
          end
        else Returned true
    | None => Returned true
    end
  else Returned true.

Definition login (user : User) : M unit :=
  do ok <- lift (emailConfirmed user);
  if ok : bool then
    let user := set_lastLogin (Some (now env)) user in
    do_ save env user (set_lastLogin (Some (now env)));
    respond (Result (PUser (readFilter cfg "owner" user)))
  else
    do_ logout_session;
    respond (Error "Forbidden" 403).

(** *** logout (lines 175-178) *)

Definition logout : M unit :=
  do_ logout_session;
  respond (Result (PBool true)).

(** *** create (lines 180-217) *)

(** [new module.exports.UserModel(request.body)]: the driver supplies the
    [_id] unless the body brings one. *)
Definition new_UserModel (body : Body) : User :=
  {| _id := default (objectId env) (body_id body);
     email := body_email body;
     credential := "";
     firstName := body_firstName body;
     lastName := body_lastName body;
     roles := body_roles body;
     isConfirmed := body_isConfirmed body;
     _created := None;
     _modified := None;
     _lastLogin := None;
     _acl := ∅ |}.

Definition create (body : Body) : M unit :=
  let a := new_UserModel body in
  let a := setAccess (subject_key a) full_access a in
  let a := setAccess "role:admin" full_access a in
  do r <- register env a (body_password body);
  match r with
  | Err e => respond (Error e 500)
  | Ans user =>
      let user := readFilter cfg "owner" user in
      if confirmEmailEnabled cfg then
        do error <- sendConfirmEmail user;
        match error with
        | Some e => respond (Error e 500)
        | None => respond (Result (PUser user))
        end
      else respond (Result (PUser user))
  end.

(** *** resetPassword (lines 219-280) *)

(** Lines 236-279, from the lookup on. *)
Definition resetPassword_lookup (token : json) (new_password : string)
  : M unit :=
  do id <- lift (get_prop token "_id");
  do r <- findById env id;
  match r with
  | Err e => respond (Error e 500)
  | Ans None => respond (Error "Not Found." 404)
  | Ans (Some user) =>
      do r <- setPassword env user new_password;
      match r with
      | Err e => respond (Error e 500)
      | Ans None => respond (Error "Not Found." 404)
      | Ans (Some user) =>
          do r <- save env user (set_credential new_password);
          match r with
          | Err e => respond (Error e 500)
          | Ans _ => respond (Result (PBool true))
          end
      end
  end.

Definition resetPassword (token new_password : string) : M unit :=
  do token <- lift (decodeToken
                      (resetPasswordToken (authentication cfg)) token);
  do expiration <- lift (get_prop token "expiration");
  if expired expiration then respond (Error "Bad Request" 400)
  else resetPassword_lookup token new_password.

(** *** resetPasswordRequest (lines 282-315) *)

Definition resetPasswordRequest (address : string) : M unit :=
  do r <- findOne env address;
  match r with
  | Err e => respond (Error e 500)
  | Ans None => respond (Error "Not Found" 404)
  | Ans (Some user) =>
      do error <- sendResetPassword user;
      match error with
      | Some e => respond (Error e 500)
      | None => respond (Result (PBool true))
      end
  end.

(** *** confirmEmail (lines 317-368) *)

(** Lines 332-367, from the lookup on. *)
Definition confirmEmail_lookup (token : json) : M unit :=
  do id <- lift (get_prop token "_id");
  do r <- findById env id;
  match r with
  | Err e => respond (Error e 500)
  | Ans None => respond (Error "Not Found" 404)
  | Ans (Some user) =>
      let user := set_isConfirmed true user in
      do r <- save env user (set_isConfirmed true);
      match r with
      | Err e => respond (Error e 500)
      | Ans _ => respond (Result (PBool true))
      end
  end.

Definition confirmEmail (token : string) : M unit :=
  do token <- lift (decodeToken
                      (confirmEmailToken (authentication cfg)) token);
  do expiration <- lift (get_prop token "expiration");
  if expired expiration then respond (Error "Bad Request" 400)
  else confirmEmail_lookup token.

(** *** confirmEmailRequest (lines 370-403) *)

Definition confirmEmailRequest (address : string) : M unit :=
  do r <- findOne env address;
  match r with
  | Err e => respond (Error e 500)
  | Ans None => respond (Error "Not Found" 404)
  | Ans (Some user) =>
      do error <- sendConfirmEmail user;
      match error with
      | Some e => respond (Error e 500)
      | None => respond (Result (PBool true))
      end
  end.

(** *** current and currentIsInRole (lines 405-433) *)

Definition current (request_user : option User) : M unit :=
  match request_user with
  | Some user => respond (Result (PUser (readFilter cfg "owner" user)))
  | None => respond (Result PUndefined)
  end.

Definition currentIsInRole (request_user : option User) (role : string)
  : M unit :=
  match request_user with
  | None => respond (Result (PBool false))
  | Some user =>
      let isInRole :=
        match roles user with
        | Some rs => existsb (String.eqb role) rs
        | None => false
        end in
      respond (Result (PBool isInRole))
  end.

(** *** changePassword (lines 435-475) *)

Definition changePassword (request_user : option User)
    (oldPassword newPassword : string) : M unit :=
  match request_user with
  | None =>
      throw (TypeError "Cannot call method 'authenticate' of undefined")
  | Some me =>
      do answer <- authenticate env me oldPassword;
      match answer with
      | (Some e, _) => respond (Error e 500)
      | (None, None) =>
          throw (TypeError "Object false has no method 'setPassword'")
      | (None, Some user) =>
          do r <- setPassword env user newPassword;
          match r with
          | Err e => respond (Error e 500)
          | Ans None => respond (Error "Not Found" 404)
          | Ans (Some user) =>
              do r <- save env user (set_credential newPassword);
              match r with
              | Err e => respond (Error e 500)
              | Ans _ => respond (Result (PBool true))
              end
          end
      end
  end.
End Handlers.

(** ** The routes (users.js 61-124) *)

Inductive Request : Type :=
| PostLogin (address pw : string)
| GetLogout
| PostUsers (body : Body)
| PostResetPassword (token pw : string)
| PostResetPasswordRequest (address : string)
| PostConfirmEmail (token : string)
| PostConfirmEmailRequest (address : string)
| GetCurrent
| PostCurrentIsInRole (role : string)
| PostChangePassword (oldPassword newPassword : string).

Section Routes.
Context (host : Host) (cfg : Settings) (env : Env).

(** [passport.session()] with [deserializeUser] (lines 69-74):
    [request.user] is the stored document of the session's id. *)
Definition request_user (w : World) : option User :=
  match session w with
  | Some id => users w !! id
  | None => None
  end.

(** [passport.authenticate('local')] with the strategy of the credential
    plugin (line 62): the account of the address is looked up and its
    password checked; on success the session is established. *)
Definition passport_authenticate (address pw : string) : M (option User) :=
  fun w =>
    match lookup_email address (users w) with
    | Some u =>
        if String.eqb pw (credential u)
        then (Returned (Some u), with_session (Some (_id u)) w)
        else (Returned None, w)
    | None => (Returned None, w)
    end.

Definition route (r : Request) : M unit :=
  match r with
  | PostLogin address pw =>
      do u <- passport_authenticate address pw;
      match u with
      | Some user => login cfg env user
      | None => respond (Error "Unauthorized" 401)
      end
  | GetLogout => logout
  | PostUsers body => create host cfg env body
  | PostResetPassword token pw => resetPassword host cfg env token pw
  | PostResetPasswordRequest address =>
      resetPasswordRequest host cfg env address
  | PostConfirmEmail token => confirmEmail host cfg env token
  | PostConfirmEmailRequest address =>
      confirmEmailRequest host cfg env address
  | GetCurrent => fun w => current cfg (request_user w) w
  | PostCurrentIsInRole role =>
      fun w => currentIsInRole (request_user w) role w
  | PostChangePassword oldPassword newPassword =>
      fun w => changePassword env (request_user w) oldPassword newPassword w
  end.
End Routes.

(** The world after one request, and after a sequence of requests, each met
    with its own environment. *)
Definition step (host : Host) (cfg : Settings) (w : World)
    (er : Env * Request) : World :=
  snd (route host cfg (fst er) (snd er) w).

Definition run (host : Host) (cfg : Settings) (rs : list (Env * Request))
    (w : World) : World :=
  fold_left (step host cfg) rs w.

(** ** An executable host

    One concrete set of host functions, to run the handlers on concrete
    requests: a repeating-key XOR cipher written as hex, a JSON printer and
    parser for text without escapes, ISO 8601 dates for the years 0000-9999,
    literal replacement and percent encoding. *)
Module RefHost.

Definition hex_digit (n : N) : ascii :=
  if (n <? 10)%N then ascii_of_N (48 + n) else ascii_of_N (87 + n).

Definition hex_value (c : ascii) : option N :=
  let n := N_of_ascii c in
  if ((48 <=? n) && (n <=? 57))%N then Some (n - 48)%N
  else if ((97 <=? n) && (n <=? 102))%N then Some (n - 87)%N
  else if ((65 <=? n) && (n <=? 70))%N then Some (n - 55)%N
  else None.

Fixpoint to_hex (s : string) : string :=
  match s with
  | EmptyString => EmptyString
  | String c s' =>
      let n := N_of_ascii c in
      String (hex_digit (n / 16)) (String (hex_digit (n mod 16)) (to_hex s'))
  end.

Fixpoint of_hex (s : string) : option string :=
  match s with
  | EmptyString => Some EmptyString
  | String _ EmptyString => None
  | String a (String b s') =>
      match hex_value a, hex_value b, of_hex s' with
      | Some h, Some l, Some r => Some (String (ascii_of_N (16 * h + l)) r)
      | _, _, _ => None
      end
  end.

Definition xor_ascii (a b : ascii) : ascii :=
  ascii_of_N (N.lxor (N_of_ascii a) (N_of_ascii b)).

Fixpoint xor_with (key rest s : string) : string :=
  match s with
  | EmptyString => EmptyString
  | String c s' =>
      match rest with
      | String k rest' => String (xor_ascii c k) (xor_with key rest' s')
      | EmptyString =>
          match key with
          | String k rest' => String (xor_ascii c k) (xor_with key rest' s')
          | EmptyString => String c (xor_with key EmptyString s')
          end
      end
  end.

Definition cipher (alg pw plain : string) : option string :=
  if String.eqb alg "xor" then Some (to_hex (xor_with pw pw plain))
  else None.

Definition decipher (alg pw hex : string) : option string :=
  if String.eqb alg "xor" then xor_with pw pw <$> of_hex hex
  else None.

Definition dquote : ascii := ascii_of_N 34.

Definition quote (s : string) : string :=
  String dquote (s +:+ String dquote EmptyString).

Fixpoint join (sep : string) (l : list string) : string :=
  match l with
  | [] => ""
  | [x] => x
  | x :: l' => x +:+ sep +:+ join sep l'
  end.

Fixpoint print (v : json) : string :=
  match v with
  | JNull => "null"
  | JBool b => if b then "true" else "false"
  | JNum n => pretty n
  | JStr s => quote s
  | JArr l => "[" +:+ join "," (List.map print l) +:+ "]"
  | JObj l =>
      "{" +:+ join "," (List.map (fun kv => quote (fst kv) +:+ ":" +:+ print (snd kv)) l)
      +:+ "}"
  end.

(** The text up to the next double quote, and what follows the quote. *)
Fixpoint until_quote (s : string) : option (string * string) :=
  match s with
  | EmptyString => None
  | String c s' =>
      if Ascii.eqb c dquote then Some (EmptyString, s')
      else if Ascii.eqb c "\"%char then None
      else
        match until_quote s' with
        | Some (a, rest) => Some (String c a, rest)
        | None => None
        end
  end.

Definition is_digit (c : ascii) : bool :=
  ((48 <=? N_of_ascii c) && (N_of_ascii c <=? 57))%N.

Fixpoint digits (acc : Z) (s : string) : Z * string :=
  match s with
  | String c s' =>
      if is_digit c
      then digits (10 * acc + Z.of_N (N_of_ascii c - 48)) s'
      else (acc, s)
  | EmptyString => (acc, s)
  end.

Definition strip (p s : string) : option string :=
  if String.prefix p s
  then Some (String.substring (String.length p)
               (String.length s - String.length p) s)
  else None.

Fixpoint value (fuel : nat) (s : string) : option (json * string) :=
  match fuel with
  | O => None
  | S fuel =>
      match s with
      | String "n" _ => pair JNull <$> strip "null" s
      | String "t" _ => pair (JBool true) <$> strip "true" s
      | String "f" _ => pair (JBool false) <$> strip "false" s
      | String "-" (String c s') =>
          if is_digit c
          then let '(n, rest) := digits 0 (String c s') in
               Some (JNum (- n), rest)
          else None
      | String "[" (String "]" rest) => Some (JArr [], rest)
      | String "[" s' =>
          (fix items (k : nat) (acc : list json) (s : string) :=
             match k with
             | O => None
             | S k =>
                 match value fuel s with
                 | Some (v, String "," rest) => items k (acc ++ [v])%list rest
                 | Some (v, String "]" rest) => Some (JArr (acc ++ [v])%list, rest)
                 | _ => None
                 end
             end) fuel [] s'
      | String "{" (String "}" rest) => Some (JObj [], rest)
      | String "{" s' =>
          (fix members (k : nat) (acc : list (string * json)) (s : string) :=
             match k with
             | O => None
             | S k =>
                 match s with
                 | String c s1 =>
                     match until_quote s1 with
                     | Some (key, String ":" s2) =>
                         match value fuel s2 with
                         | Some (v, String "," rest) =>
                             if Ascii.eqb c dquote
                             then members k (acc ++ [(key, v)])%list rest
                             else None
                         | Some (v, String "}" rest) =>
                             if Ascii.eqb c dquote
                             then Some (JObj (acc ++ [(key, v)])%list, rest)
                             else None
                         | _ => None
                         end
                     | _ => None
                     end
                 | _ => None
                 end
             end) fuel [] s'
      | String c s' =>
          if is_digit c
          then let '(n, rest) := digits 0 s in Some (JNum n, rest)
          else if Ascii.eqb c dquote then
            match until_quote s' with
            | Some (a, rest) => Some (JStr a, rest)
            | None => None
            end
          else None
      | EmptyString => None
      end
  end.

Definition parse (s : string) : option json :=
  match value (S (String.length s)) s with
  | Some (v, EmptyString) => Some v
  | _ => None
  end.
(** Days since 1970-01-01 to a civil date and back (proleptic Gregorian
    calendar). *)
Definition civil_from_days (z : Z) : Z * Z * Z :=
  let z := z + 719468 in
  let era := z / 146097 in
  let doe := z - era * 146097 in
  let yoe := (doe - doe / 1460 + doe / 36524 - doe / 146096) / 365 in
  let doy := doe - (365 * yoe + yoe / 4 - yoe / 100) in
  let mp := (5 * doy + 2) / 153 in
  let d := doy - (153 * mp + 2) / 5 + 1 in
  let m := if mp <? 10 then mp + 3 else mp - 9 in
  (yoe + era * 400 + (if m <=? 2 then 1 else 0), m, d).

Definition days_from_civil (y m d : Z) : Z :=
  let y := if m <=? 2 then y - 1 else y in
  let era := y / 400 in
  let yoe := y - era * 400 in
  let doy := (153 * (if 2 <? m then m - 3 else m + 9) + 2) / 5 + d - 1 in
  let doe := yoe * 365 + yoe / 4 - yoe / 100 + doy in
  era * 146097 + doe - 719468.

Fixpoint zeros (k : nat) : string :=
  match k with
  | O => ""
  | S k => String "0" (zeros k)
  end.

Definition pad (width : nat) (n : Z) : string :=
  let s := pretty n in
  zeros (width - String.length s) +:+ s.

Definition iso (t : Z) : string :=
  let '(y, m, d) := civil_from_days (t / 86400000) in
  let ms := t mod 86400000 in
  pad 4 y +:+ "-" +:+ pad 2 m +:+ "-" +:+ pad 2 d +:+ "T"
  +:+ pad 2 (ms / 3600000) +:+ ":" +:+ pad 2 (ms / 60000 mod 60) +:+ ":"
  +:+ pad 2 (ms / 1000 mod 60) +:+ "." +:+ pad 3 (ms mod 1000) +:+ "Z".

Definition number (s : string) : option Z :=
  match s with
  | EmptyString => None
  | _ =>
      match digits 0 s with
      | (n, EmptyString) => Some n
      | _ => None
      end
  end.

Definition field (from len : nat) (s : string) : option Z :=
  number (String.substring from len s).

Definition is_text (from : nat) (sep s : string) : bool :=
  String.eqb (String.substring from (String.length sep) s) sep.

Definition date_parse (s : string) : Date :=
  if Nat.eqb (String.length s) 24
     && is_text 4 "-" s && is_text 7 "-" s && is_text 10 "T" s
     && is_text 13 ":" s && is_text 16 ":" s && is_text 19 "." s
     && is_text 23 "Z" s
  then
    match field 0 4 s, field 5 2 s, field 8 2 s,
          field 11 2 s, field 14 2 s, field 17 2 s, field 20 3 s with
    | Some y, Some m, Some d, Some h, Some mi, Some sec, Some ms =>
        Some (days_from_civil y m d * 86400000
              + h * 3600000 + mi * 60000 + sec * 1000 + ms)
    | _, _, _, _, _, _, _ => None
    end
  else None.

(** [s.replace(/p/g, r)] for literal text: left to right, no overlap. *)
Fixpoint replace_from (p r : string) (skip : nat) (s : string) : string :=
  match s with
  | EmptyString => EmptyString
  | String c s' =>
      match skip with
      | S k => replace_from p r k s'
      | O =>
          if String.prefix p s && negb (String.eqb p "")
          then r +:+ replace_from p r (String.length p - 1) s'
          else String c (replace_from p r O s')
      end
  end.

Definition unreserved (c : ascii) : bool :=
  let n := N_of_ascii c in
  (((48 <=? n) && (n <=? 57)) || ((65 <=? n) && (n <=? 90))
   || ((97 <=? n) && (n <=? 122)))%N
  || existsb (Ascii.eqb c)
       ["-"; "_"; "."; "!"; "~"; "*"; "'"; "("; ")"]%char.

Definition upper_hex_digit (n : N) : ascii :=
  if (n <? 10)%N then ascii_of_N (48 + n) else ascii_of_N (55 + n).

Fixpoint percent_encode (s : string) : string :=
  match s with
  | EmptyString => EmptyString
  | String c s' =>
      if unreserved c then String c (percent_encode s')
      else
        let n := N_of_ascii c in
        String "%" (String (upper_hex_digit (n / 16))
                      (String (upper_hex_digit (n mod 16))
                         (percent_encode s')))
  end.

Definition to_string (v : json) : string :=
  match v with
  | JStr s => s
  | JObj _ => "[object Object]"
  | _ => print v
  end.

Definition host : Host :=
  {| cipher_hex := cipher;
     decipher_hex := decipher;
     JSON_stringify := print;
     JSON_parse := parse;
     toISOString := iso;
     Date_parse := date_parse;
     js_toString := to_string;
     replace_g := fun p r s => replace_from p r O s;
     encodeURIComponent := percent_encode |}.
End RefHost.

(** ** Fixtures *)

Module Fixture.

Definition reset_class : TokenSettings :=
  {| timeout := Some 60; algorithm := "xor"; password := "reset-secret" |}.

Definition confirm_class : TokenSettings :=
  {| timeout := None; algorithm := "xor"; password := "confirm-secret" |}.

Definition reset_template : MailTemplate :=
  {| enabled := true;
     text := "Hello {firstName} {lastName}, reset: /reset/{token}";
     attachment :=
       Some [{| alternative := true; data := "<a href=/reset/{token}>" |}] |}.

Definition confirm_template : MailTemplate :=
  {| enabled := true;
     text := "Hello {firstName}, confirm: /confirm/{token}";
     attachment := None |}.

(** Both features configured and enabled; the confirm-email class has no
    timeout entry. *)
Definition cfg : Settings :=
  {| mail := Some {| messages :=
       Some {| passwordResetRequest := Some reset_template;
               confirmEmail_message := Some confirm_template |} |};
     authentication :=
       {| resetPasswordToken := Some reset_class;
          confirmEmailToken := Some confirm_class |};
     readFilter := fun _ u => set_credential "" u |}.

(** Password reset configured and enabled, no confirm-email template. *)
Definition cfg_reset_only : Settings :=
  {| mail := Some {| messages :=
       Some {| passwordResetRequest := Some reset_template;
               confirmEmail_message := None |} |};
     authentication :=
       {| resetPasswordToken := Some reset_class;
          confirmEmailToken := Some confirm_class |};
     readFilter := fun _ u => set_credential "" u |}.

Definition at_time (t : Z) : Env :=
  {| now := t; objectId := "507f1f77bcf86cd799439099";
     findFault := None; saveFault := None;
     hashFault := None; mailFault := None |}.

(** An unconfirmed account created at time 1000. *)
Definition alice : User :=
  {| _id := "507f1f77bcf86cd799439011";
     email := "alice@example.org";
     credential := "correct horse";
     firstName := Some "Alice"; lastName := None;
     roles := Some ["editor"];
     isConfirmed := false;
     _created := Some 1000; _modified := Some 1000; _lastLogin := None;
     _acl := ∅ |}.

(** A confirmed account. *)
Definition bob : User :=
  {| _id := "507f1f77bcf86cd799439012";
     email := "bob@example.org";
     credential := "battery staple";
     firstName := Some "Bob"; lastName := Some "Builder";
     roles := None;
     isConfirmed := true;
     _created := Some 2000; _modified := Some 2000; _lastLogin := None;
     _acl := ∅ |}.

(** An unconfirmed account without a creation stamp. *)
Definition carol : User :=
  {| _id := "507f1f77bcf86cd799439013";
     email := "carol@example.org";
     credential := "hunter2";
     firstName := None; lastName := None;
     roles := None;
     isConfirmed := false;
     _created := None; _modified := None; _lastLogin := None;
     _acl := ∅ |}.

Definition world : World :=
  {| users := <[_id alice := alice]> (<[_id bob := bob]>
                (<[_id carol := carol]> ∅));
     session := Some (_id bob);
     trace := [] |}.

(** A reset token for alice minted at time 5000 (it lasts 60 minutes), and
    a confirm token for her minted under the class without a timeout. *)
Definition reset_token : string :=
  Eval vm_compute in
    match mintToken RefHost.host (at_time 5000) reset_class (_id alice) with
    | Returned hex => hex
    | Threw _ => ""
    end.

Definition confirm_token : string :=
  Eval vm_compute in
    match mintToken RefHost.host (at_time 5000) confirm_class (_id alice) with
    | Returned hex => hex
    | Threw _ => ""
    end.

(** The same settings with a confirm-email class that has a timeout, and
    a confirm token for alice minted under it at time 5000. *)
Definition confirm_class_timed : TokenSettings :=
  {| timeout := Some 30; algorithm := "xor"; password := "confirm-secret" |}.

Definition cfg_timed : Settings :=
  {| mail := mail cfg;
     authentication :=
       {| resetPasswordToken := Some reset_class;
          confirmEmailToken := Some confirm_class_timed |};
     readFilter := readFilter cfg |}.

Definition confirm_token_timed : string :=
  Eval vm_compute in
    match mintToken RefHost.host (at_time 5000) confirm_class_timed
            (_id alice) with
    | Returned hex => hex
    | Threw _ => ""
    end.

(** A visit: alice confirms her address and logs in, Dave registers, bob
    changes his password, a stale token and a malformed one come in, and
    bob logs out. *)
Definition visit : list (Env * Request) :=
  [ (at_time 6000, PostConfirmEmail confirm_token_timed);
    (at_time 7000, PostLogin "alice@example.org" "correct horse");
    (at_time 8000, PostUsers
       {| body_id := None; body_email := "dave@example.org";
          body_password := "swordfish"; body_firstName := Some "Dave";
          body_lastName := None; body_roles := None;
          body_isConfirmed := false |});
    (at_time 9000, PostChangePassword "correct horse" "tr0ub4dor");
    (at_time 9000000, PostConfirmEmail confirm_token_timed);
    (at_time 9000001, PostResetPassword reset_token "late");
    (at_time 9000002, PostResetPasswordRequest "bob@example.org");
    (at_time 9000003, GetLogout) ].

Definition newcomer : Body :=
  {| body_id := None;
     body_email := "dave@example.org";
     body_password := "swordfish";
     body_firstName := Some "Dave"; body_lastName := None;
     body_roles := None;
     body_isConfirmed := false |}.
End Fixture.

(** ** Worlds and predicates the properties speak of *)

(** The world after a login that passes the gate: the stamp is written
    (unless the store fails, which [request.user.save()] ignores) and the
    filtered account is the response. *)
Definition logged_in (cfg : Settings) (env : Env) (user : User) (w : World)
  : World :=
  let stamped := set_lastLogin (Some (now env)) user in
  let written := fun d =>
    set_modified (Some (now env)) (set_lastLogin (Some (now env)) d) in
  log (EvRespond (Result (PUser (readFilter cfg "owner" stamped))))
    match saveFault env with
    | Some _ => w
    | None =>
        log (EvSave (written stamped))
          (with_users (alter written (_id user) (users w)) w)
    end.

(** The world after a login that the gate refuses: the session is torn
    down, then the 403 goes out. *)
Definition refused (w : World) : World :=
  log (EvRespond (Error "Forbidden" 403)) (log EvLogout (with_session None w)).

(** The grace period of the login gate, in minutes, for a confirm-email
    class: its [timeout] entry, 1440 when the entry is missing or zero. *)
Definition grace_of (ts : TokenSettings) : Z :=
  match timeout ts with
  | Some t => if t =? 0 then 1440 else t
  | None => 1440
  end.

(** The response a handler run ended with, if it ended with one. *)
Definition response_of {A : Type} (r : Outcome A * World) : option Response :=
  match fst r, last (trace (snd r)) with
  | Returned _, Some (EvRespond resp) => Some resp
  | _, _ => None
  end.

(** What a token minted at [minted] for [id] holds once it is parsed: the
    expiry is the ISO text of a valid date and [null] for an invalid one. *)
Definition payload (host : Host) (id : string) (expiration : Date) : json :=
  JObj [("_id", JStr id); ("expiration", date_toJSON host expiration)].

(** The host's decipher undoes its cipher on the text [plain] under the
    settings [ts]. *)
Definition deciphers (host : Host) (ts : TokenSettings) (plain : string)
  : Prop :=
  forall hex,
    cipher_hex host (algorithm ts) (password ts) plain = Some hex ->
    decipher_hex host (algorithm ts) (password ts) hex = Some plain.

(** The run [m] from [w] starts with the lookup of the account [id]. *)
Definition looks_up {A : Type} (id : jsval) (m : M A) (w : World) : Prop :=
  exists rest, trace (snd (m w)) = trace w ++ EvFindById id :: rest.

(** The events that write to the store. *)
Definition is_write (ev : Event) : bool :=
  match ev with
  | EvInsert _ | EvSave _ => true
  | _ => false
  end.

(** The two grants of a new account: the account itself and the admin role
    hold read, write and delete on it. *)
Definition has_grants (u : User) : Prop :=
  _acl u !! subject_key u = Some full_access
  /\ _acl u !! "role:admin" = Some full_access.

(** Nothing is written between [w] and [w']: same accounts, and no write
    among the new events. *)
Definition quiet (w w' : World) : Prop :=
  users w' = users w
  /\ exists evs, trace w' = trace w ++ evs
                /\ existsb is_write evs = false.

(** The account [id] exists and is confirmed. *)
Definition confirmed (w : World) (id : string) : Prop :=
  exists u, users w !! id = Some u /\ isConfirmed u = true.

(** From [w] to [w'] every account stays, with its confirmation flag as it
    was. *)
Definition flag_kept (w w' : World) : Prop :=
  forall id u, users w !! id = Some u ->
    exists u', users w' !! id = Some u' /\ isConfirmed u' = isConfirmed u.

(** From [w] to [w'] every account stays, and stays confirmed if it was. *)
Definition flag_grows (w w' : World) : Prop :=
  forall id u, users w !! id = Some u ->
    exists u', users w' !! id = Some u'
               /\ (isConfirmed u = true -> isConfirmed u' = true).

(** The world after [m] is related by [R] to the world before. *)
Definition keeps (R : World -> World -> Prop) {A : Type} (m : M A) : Prop :=
  forall w, R w (snd (m w)).

(** From [w] to [w'] the trace only grows. *)
Definition grows (w w' : World) : Prop :=
  exists evs, trace w' = trace w ++ evs.

(** The world after the answer 400. *)
Definition bad_request (w : World) : World :=
  log (EvRespond (Error "Bad Request" 400)) w.

(** [u'] is [u] in all but the credential, the confirmation flag and the
    stamps of the last login and of the last change. *)
Definition same_identity (u u' : User) : Prop :=
  _id u' = _id u /\ email u' = email u
  /\ firstName u' = firstName u /\ lastName u' = lastName u
  /\ roles u' = roles u /\ _created u' = _created u /\ _acl u' = _acl u.

(** From [w] to [w'] every account stays, the same in all but those four
    fields. *)
Definition frozen (w w' : World) : Prop :=
  forall id u, users w !! id = Some u ->
    exists u', users w' !! id = Some u' /\ same_identity u u'.

(** The store is keyed by the documents' own [_id], and no two accounts
    have one address. *)
Definition store_ok (w : World) : Prop :=
  (forall k u, users w !! k = Some u -> _id u = k)
  /\ (forall k1 k2 u1 u2,
        users w !! k1 = Some u1 -> users w !! k2 = Some u2 ->
        email u1 = email u2 -> k1 = k2).

Definition store_stays_ok (w w' : World) : Prop := store_ok w -> store_ok w'.

Definition is_response (ev : Event) : bool :=
  match ev with
  | EvRespond _ => true
  | _ => false
  end.

Definition is_mail (ev : Event) : bool :=
  match ev with
  | EvMailSend _ => true
  | _ => false
  end.

(** From [w] to [w'] events are added, none of them a response. *)
Definition unanswered (w w' : World) : Prop :=
  exists evs, trace w' = trace w ++ evs /\ existsb is_response evs = false.

(** The run of [m] from any world adds events of which the last one, and
    only the last one, is a response when [m] returns, and none is when [m]
    throws. *)
Definition answers_once {A : Type} (m : M A) : Prop :=
  forall w, exists evs,
    trace (snd (m w)) = trace w ++ evs
    /\ match fst (m w) with
       | Returned _ =>
           exists before r,
             evs = before ++ [EvRespond r]
             /\ existsb is_response before = false
       | Threw _ => existsb is_response evs = false
       end.

(** The world after a lookup by id that finds [account] and a write of
    [delta] to it, answered [true]. *)
Definition found_and_saved (env : Env) (id : string) (account : User)
    (delta : User -> User) (w : World) : World :=
  let written := fun d => set_modified (Some (now env)) (delta d) in
  log (EvRespond (Result (PBool true)))
    (log (EvSave (written (delta account)))
       (with_users (alter written (_id account) (users w))
          (log (EvFindById (Some (JStr id))) w))).

(** No collaborator fails. *)
Definition no_fault (env : Env) : Prop :=
  findFault env = None /\ saveFault env = None
  /\ hashFault env = None /\ mailFault env = None.

(** More fixtures: tokens that are not what the handlers mint. *)
Module Scenario.

(** A token of the reset class that names alice and has no expiration. *)
Definition timeless_token : string :=
  Eval vm_compute in
    default ""
      (RefHost.cipher "xor" "reset-secret"
         (RefHost.print (JObj [("_id", JStr (_id Fixture.alice))]))).

(** A token of the confirm class of [Fixture.cfg_timed] that names alice
    and whose expiration is text that is no date. *)
Definition unreadable_token : string :=
  Eval vm_compute in
    default ""
      (RefHost.cipher "xor" "confirm-secret"
         (RefHost.print
            (JObj [("_id", JStr (_id Fixture.alice));
                   ("expiration", JStr "yesterday")]))).

(** A well-formed reset token for an id no account has. *)
Definition stranger_token : string :=
  Eval vm_compute in
    match mintToken RefHost.host (Fixture.at_time 5000) Fixture.reset_class
            "000000000000000000000000" with
    | Returned hex => hex
    | Threw _ => ""
    end.

(** Dave, claiming to be confirmed already. *)
Definition confirmed_newcomer : Body :=
  {| body_id := None;
     body_email := "dave@example.org";
     body_password := "swordfish";
     body_firstName := Some "Dave"; body_lastName := None;
     body_roles := None;
     body_isConfirmed := true |}.

(** A second registration under alice's address. *)
Definition alice_again : Body :=
  {| body_id := None;
     body_email := "alice@example.org";
     body_password := "x";
     body_firstName := None; body_lastName := None;
     body_roles := None;
     body_isConfirmed := false |}.

(** The mail transport fails. *)
Definition mail_down (t : Z) : Env :=
  {| now := t; objectId := "507f1f77bcf86cd799439099";
     findFault := None; saveFault := None;
     hashFault := None; mailFault := Some "connection refused" |}.

(** Nothing is configured. *)
Definition cfg_plain : Settings :=
  {| mail := None;
     authentication :=
       {| resetPasswordToken := None; confirmEmailToken := None |};
     readFilter := fun _ u => set_credential "" u |}.
End Scenario.

(** The document that a registration stores for [body], and the world
    right after it is stored. *)
Definition new_account (env : Env) (body : Body) : User :=
  set_modified (Some (now env))
    (set_created (Some (now env))
       (set_credential (body_password body)
          (setAccess "role:admin" full_access
             (setAccess (subject_key (new_UserModel env body)) full_access
                (new_UserModel env body))))).

Definition registered (env : Env) (body : Body) (w : World) : World :=
  log (EvInsert (new_account env body))
    (with_users (<[_id (new_account env body) := new_account env body]>
                   (users w))
       (log (EvFindOne (body_email body)) w)).

(** The number of mails among some events, and the worlds that are at
    most [n] mails apart. *)
Definition mails (evs : list Event) : nat :=
  length (List.filter is_mail evs).

Definition mails_at_most (n : nat) (w w' : World) : Prop :=
  exists evs, trace w' = trace w ++ evs /\ (mails evs <= n)%nat.

(** The routes that may mail. *)
Definition may_mail (r : Request) : bool :=
  match r with
  | PostUsers _ | PostResetPasswordRequest _ | PostConfirmEmailRequest _ =>
      true
  | _ => false
  end.

(** ** The mail utilities of [lib/email.js]

    [Email.send], [Email.sendResetPassword], [Email.sendConfirmEmail] and
    [Email.getEnvOrProperty].  The modules [./db], [./property] and
    [./token] and the SMTP client are not part of the sources: what they
    answer is given, in [Surroundings].  A promise is what it settles to:
    the returned promises are only ever resolved, and the first call of
    [resolve] decides; a callback that throws, or a promise that never
    resolves, leaves them pending. *)
Module Email.

(** What the promises resolve with. *)
Inductive Value : Type :=
| VUndefined
| VNull
| VText (s : string)
| VError (e : string)
| VMessage (m : MailMessage).

Inductive Settled : Type :=
| Pending
| Fulfilled (v : Value).

(** The static state of the class: whether [this.smtpServer] is set, and
    the messages handed to the SMTP server so far. *)
Record Mailer : Type := {
  connected : bool;
  outbox : list MailMessage
}.

(** - [process_env]: the environment variables;
    - [property key]: what [Property.getValue(key)] resolves with ([None]:
      it does not resolve);
    - [email_enabled]: whether [Property.getValue('backrest.email.enabled',
      true)] resolves with a truthy value ([None]: it does not resolve);
    - [emails name]: what the query of [getEmail(name)] answers ([None]: an
      error, [Some None]: no document);
    - [generate timeout algorithm password id]: [Token.generate] ([None]:
      it throws);
    - [transport]: the error the SMTP server hands to the callback of
      [send] ([None]: [null]). *)
Record Surroundings : Type := {
  process_env : gmap string string;
  property : string -> option string;
  email_enabled : option bool;
  emails : string -> option (option MailTemplate);
  generate : string -> string -> string -> string -> option string;
  transport : option string
}.

Definition first_of (early late : Settled) : Settled :=
  match early with
  | Pending => late
  | Fulfilled _ => early
  end.

Definition handed_over (s : Surroundings) : Value :=
  match transport s with
  | Some e => VError e
  | None => VNull
  end.

Definition truthy (o : option string) : option string :=
  match o with
  | Some "" => None
  | _ => o
  end.

(** Lines 79-85. *)
Definition getEnvOrProperty (s : Surroundings) (envKey propertyKey : string)
  : option string :=
  match truthy (process_env s !! envKey) with
  | Some name =>
      match truthy (process_env s !! name) with
      | Some v => Some v
      | None => property s propertyKey
      end
  | None => property s propertyKey
  end.

Definition server_settings (s : Surroundings) : option (list string) :=
  match getEnvOrProperty s "BACKREST_EMAIL_SERVER_USER_KEY"
          "backrest.email.server.user",
        getEnvOrProperty s "BACKREST_EMAIL_SERVER_PASSWORD_KEY"
          "backrest.email.server.password",
        getEnvOrProperty s "BACKREST_EMAIL_SERVER_HOST_KEY"
          "backrest.email.server.host",
        getEnvOrProperty s "BACKREST_EMAIL_SERVER_PORT_KEY"
          "backrest.email.server.port",
        getEnvOrProperty s "BACKREST_EMAIL_SERVER_SSL_KEY"
          "backrest.email.server.ssl" with
  | Some a, Some b, Some c, Some d, Some e => Some [a; b; c; d; e]
  | _, _, _, _, _ => None
  end.

Definition hand_over (s : Surroundings) (m : MailMessage) (st : Mailer)
  : Settled * Mailer :=
  (Fulfilled (handed_over s),
   {| connected := true; outbox := outbox st ++ [m] |}).

(** Lines 39-70. *)
Definition send (s : Surroundings) (m : MailMessage) (st : Mailer)
  : Settled * Mailer :=
  if connected st then hand_over s m st
  else
    match email_enabled s with
    | None => (Pending, st)
    | Some false => (Fulfilled (VMessage m), st)
    | Some true =>
        match server_settings s with
        | Some _ => hand_over s m st
        | None => (Pending, st)
        end
    end.

(** The three properties of a token class, and the token. *)
Definition token_for (s : Surroundings) (class : string) (id : string)
  : option string :=
  match property s ("backrest.authentication." +:+ class +:+ ".timeout"),
        property s ("backrest.authentication." +:+ class +:+ ".algorithm"),
        property s ("backrest.authentication." +:+ class +:+ ".password") with
  | Some timeout, Some alg, Some pw => generate s timeout alg pw id
  | _, _, _ => None
  end.

(** Lines 92-134. *)
Definition sendResetPassword (host : Host) (s : Surroundings) (user : User)
    (st : Mailer) : Settled * Mailer :=
  match emails s "passwordResetRequest" with
  | None | Some None => (Pending, st)
  | Some (Some t) =>
      let early := if enabled t then Pending else Fulfilled VUndefined in
      match token_for s "resetPasswordToken" (_id user) with
      | None => (early, st)
      | Some token =>
          let sent := send s (formatMessage host t user token) st in
          (first_of early (fst sent), snd sent)
      end
  end.

(** Lines 169-182: the loop over the attachments runs once for every
    attachment, each time over all of them. *)
Definition formatConfirmation (host : Host) (t : MailTemplate) (u : User)
    (token : string) : MailMessage :=
  let m := formatMessage host t u token in
  {| msg_enabled := msg_enabled m;
     msg_to := msg_to m;
     msg_text := msg_text m;
     msg_attachment :=
       option_map
         (fun l => Nat.iter (length l)
                     (List.map (fill_attachment host u token)) l)
         (attachment t) |}.

(** Lines 141-189. *)
Definition sendConfirmEmail (host : Host) (s : Surroundings) (user : User)
    (st : Mailer) : Settled * Mailer :=
  if isConfirmed user then (Fulfilled (VText "Email already confirmed."), st)
  else
    match emails s "confirmEmail" with
    | None | Some None => (Pending, st)
    | Some (Some t) =>
        let early := if enabled t then Pending else Fulfilled VUndefined in
        match token_for s "confirmEmailToken" (_id user) with
        | None => (early, st)
        | Some token =>
            let sent := send s (formatConfirmation host t user token) st in
            (first_of early (fst sent), snd sent)
        end
    end.

(** A mailer that is connected, with a reset template that is switched
    off, and the global switch off as well. *)
Definition quiet_template : MailTemplate :=
  {| enabled := false;
     text := "reset: {token}";
     attachment := None |}.

Definition surroundings : Surroundings :=
  {| process_env := ∅;
     property := fun key => Some "x";
     email_enabled := Some false;
     emails := fun _ => Some (Some quiet_template);
     generate := fun _ _ _ id => Some ("token-for-" +:+ id);
     transport := None |}.

Definition online : Mailer := {| connected := true; outbox := [] |}.
End Email.

(** * Properties *)

Ltac monad := unfold bind, lift, ret, throw, respond, emit; simpl.

(** ** Login *)

Lemma login_passes (cfg : Settings) (env : Env) (user : User) (w : World) :
  emailConfirmed cfg env user = Returned true ->
  login cfg env user w = (Returned tt, logged_in cfg env user w).
Proof.
  intros H. unfold login, logged_in. monad. rewrite H. unfold save.
  destruct (saveFault env); reflexivity.
Qed.

Lemma login_refuses (cfg : Settings) (env : Env) (user : User) (w : World) :
  emailConfirmed cfg env user = Returned false ->
  login cfg env user w = (Returned tt, refused w).
Proof.
  intros H. unfold login, refused. monad. rewrite H. reflexivity.
Qed.

(** What [logged_in] holds: the response is the owner-filtered account with
    the stamp, the session is as it was, and, the store accepting the
    write, the stored account carries the stamp. *)
Lemma logged_in_spec (cfg : Settings) (env : Env) (user : User) (w : World) :
  last (trace (logged_in cfg env user w))
  = Some (EvRespond (Result (PUser (readFilter cfg "owner"
            (set_lastLogin (Some (now env)) user)))))
  /\ session (logged_in cfg env user w) = session w
  /\ (saveFault env = None ->
      forall d, users w !! _id user = Some d ->
        exists d', users (logged_in cfg env user w) !! _id user = Some d'
                   /\ _lastLogin d' = Some (now env)).
Proof.
  unfold logged_in. split; [|split].
  - simpl. apply last_snoc.
  - destruct (saveFault env); reflexivity.
  - intros -> d Hd. simpl. rewrite lookup_alter_eq, Hd. simpl.
    eexists. split; reflexivity.
Qed.

(** C10. For an account whose [_created] field is absent, login succeeds
    whatever the confirmation state, the clock and the confirm-email
    settings are: the answer is the owner-filtered account with
    [_lastLogin] stamped, the session stays, and the stamp is written to the
    stored account. *)
Theorem login_without_created (cfg : Settings) (env : Env) (user : User)
    (w : World) :
  _created user = None ->
  login cfg env user w = (Returned tt, logged_in cfg env user w)
  /\ response_of (login cfg env user w)
     = Some (Result (PUser (readFilter cfg "owner"
               (set_lastLogin (Some (now env)) user))))
  /\ session (snd (login cfg env user w)) = session w
  /\ (saveFault env = None ->
      forall d, users w !! _id user = Some d ->
        exists d', users (snd (login cfg env user w)) !! _id user = Some d'
                   /\ _lastLogin d' = Some (now env)).
Proof.
  intros H.
  assert (E : login cfg env user w = (Returned tt, logged_in cfg env user w)).
  { apply login_passes. unfold emailConfirmed. rewrite H.
    destruct (confirmEmailEnabled cfg); reflexivity. }
  destruct (logged_in_spec cfg env user w) as (Hr & Hs & Hw).
  split; [exact E|]. unfold response_of. rewrite E. cbn [fst snd].
  rewrite Hr. auto.
Qed.

Lemma login_without_created_witness :
  login Fixture.cfg (Fixture.at_time 999999999999) Fixture.carol Fixture.world
  = (Returned tt,
     logged_in Fixture.cfg (Fixture.at_time 999999999999) Fixture.carol
       Fixture.world)
  /\ response_of (login Fixture.cfg (Fixture.at_time 999999999999)
                    Fixture.carol Fixture.world)
     = Some (Result (PUser (readFilter Fixture.cfg "owner"
               (set_lastLogin (Some 999999999999) Fixture.carol))))
  /\ session (snd (login Fixture.cfg (Fixture.at_time 999999999999)
                     Fixture.carol Fixture.world))
     = session Fixture.world
  /\ (saveFault (Fixture.at_time 999999999999) = None ->
      forall d, users Fixture.world !! _id Fixture.carol = Some d ->
        exists d',
          users (snd (login Fixture.cfg (Fixture.at_time 999999999999)
                        Fixture.carol Fixture.world)) !! _id Fixture.carol
          = Some d'
          /\ _lastLogin d' = Some (now (Fixture.at_time 999999999999))).
Proof.
  apply (login_without_created Fixture.cfg (Fixture.at_time 999999999999)
           Fixture.carol Fixture.world).
  reflexivity.
Defined.

(** C3, as the code has it. For an unconfirmed account created at [created],
    with email confirmation enabled, login passes exactly while the clock is
    not past [created] plus the grace period (the class's timeout in
    minutes, 1440 when that is missing or zero), the bound included; past
    the bound the session is torn down and then a 403 is answered. *)
Theorem login_grace_period (cfg : Settings) (env : Env) (user : User)
    (w : World) (ts : TokenSettings) (created : Z) :
  confirmEmailEnabled cfg = true ->
  confirmEmailToken (authentication cfg) = Some ts ->
  isConfirmed user = false ->
  _created user = Some created ->
  (now env <= created + grace_of ts * 60000 ->
   login cfg env user w = (Returned tt, logged_in cfg env user w)) /\
  (created + grace_of ts * 60000 < now env ->
   login cfg env user w = (Returned tt, refused w)
   /\ session (refused w) = None
   /\ trace (refused w)
      = trace w ++ [EvLogout; EvRespond (Error "Forbidden" 403)]).
Proof.
  intros Hen Hts Hc Hcr.
  assert (E : emailConfirmed cfg env user
              = Returned (now env <=? created + grace_of ts * 60000)).
  { unfold emailConfirmed. rewrite Hen, Hcr, Hc, Hts. reflexivity. }
  split; intros Hle.
  - apply login_passes. rewrite E. f_equal. apply Z.leb_le. exact Hle.
  - split; [|split].
    + apply login_refuses. rewrite E. f_equal. apply Z.leb_gt. exact Hle.
    + reflexivity.
    + unfold refused, log. simpl. rewrite <- app_assoc. reflexivity.
Qed.

Lemma login_grace_period_witness :
  login Fixture.cfg (Fixture.at_time (1000 + 1440 * 60000))
    Fixture.alice Fixture.world
  = (Returned tt,
     logged_in Fixture.cfg (Fixture.at_time (1000 + 1440 * 60000))
       Fixture.alice Fixture.world)
  /\ login Fixture.cfg (Fixture.at_time (1000 + 1440 * 60000 + 1))
       Fixture.alice Fixture.world
     = (Returned tt, refused Fixture.world).
Proof.
  split.
  - apply (proj1 (login_grace_period Fixture.cfg
                    (Fixture.at_time (1000 + 1440 * 60000))
                    Fixture.alice Fixture.world Fixture.confirm_class 1000
                    eq_refl eq_refl eq_refl eq_refl)).
    vm_compute. discriminate.
  - apply (proj2 (login_grace_period Fixture.cfg
                    (Fixture.at_time (1000 + 1440 * 60000 + 1))
                    Fixture.alice Fixture.world Fixture.confirm_class 1000
                    eq_refl eq_refl eq_refl eq_refl)).
    vm_compute. reflexivity.
Defined.

(** C3, as stated, fails at the bound itself: one day (1440 minutes, the
    default) after its creation to the millisecond, the unconfirmed account
    still logs in, although the clock is not before the bound. *)
Lemma login_at_grace_bound :
  confirmEmailEnabled Fixture.cfg = true
  /\ isConfirmed Fixture.alice = false
  /\ _created Fixture.alice = Some 1000
  /\ timeout Fixture.confirm_class = None
  /\ ~ (now (Fixture.at_time (1000 + 1440 * 60000)) < 1000 + 1440 * 60000)
  /\ response_of (login Fixture.cfg (Fixture.at_time (1000 + 1440 * 60000))
                    Fixture.alice Fixture.world)
     = Some (Result (PUser (readFilter Fixture.cfg "owner"
               (set_lastLogin (Some (1000 + 1440 * 60000)) Fixture.alice)))).
Proof.
  repeat split; try reflexivity. simpl. lia.
Qed.

(** ** Tokens *)

Lemma get_prop_other (token : json) (k k' : string) (v : jsval) :
  get_prop token k = Returned v ->
  exists v', get_prop token k' = Returned v'.
Proof. destruct token; simpl; intros H; try discriminate; eauto. Qed.

Section Decoded.
Context (host : Host) (cfg : Settings) (env : Env).

Lemma resetPassword_decoded (hex pw : string) (token : json) (v : jsval)
    (w : World) :
  decodeToken host (resetPasswordToken (authentication cfg)) hex
  = Returned token ->
  get_prop token "expiration" = Returned v ->
  resetPassword host cfg env hex pw w
  = if expired host env v then (Returned tt, bad_request w)
    else resetPassword_lookup env token pw w.
Proof.
  intros Hd Hp. unfold resetPassword. monad. rewrite Hd, Hp.
  destruct (expired host env v); reflexivity.
Qed.

Lemma confirmEmail_decoded (hex : string) (token : json) (v : jsval)
    (w : World) :
  decodeToken host (confirmEmailToken (authentication cfg)) hex
  = Returned token ->
  get_prop token "expiration" = Returned v ->
  confirmEmail host cfg env hex w
  = if expired host env v then (Returned tt, bad_request w)
    else confirmEmail_lookup env token w.
Proof.
  intros Hd Hp. unfold confirmEmail. monad. rewrite Hd, Hp.
  destruct (expired host env v); reflexivity.
Qed.

Lemma resetPassword_undecoded (hex pw : string) (e : Exn) (w : World) :
  decodeToken host (resetPasswordToken (authentication cfg)) hex = Threw e ->
  resetPassword host cfg env hex pw w = (Threw e, w).
Proof. intros Hd. unfold resetPassword. monad. rewrite Hd. reflexivity. Qed.

Lemma confirmEmail_undecoded (hex : string) (e : Exn) (w : World) :
  decodeToken host (confirmEmailToken (authentication cfg)) hex = Threw e ->
  confirmEmail host cfg env hex w = (Threw e, w).
Proof. intros Hd. unfold confirmEmail. monad. rewrite Hd. reflexivity. Qed.

Lemma expired_spec (v : jsval) (e : Z) :
  newDate host v = Some e ->
  expired host env v = (e <=? now env).
Proof. intros H. unfold expired. rewrite H. reflexivity. Qed.
End Decoded.

(** ** Relations that every step of a handler keeps

    For a preorder [R], [keeps R] goes through [ret], [throw], [lift] and
    [bind], so a handler keeps [R] as soon as the collaborator calls it
    makes do. *)

Section Keeps.
Context (R : World -> World -> Prop).
Hypothesis R_refl : forall w, R w w.
Hypothesis R_trans : forall a b c, R a b -> R b c -> R a c.

Lemma keeps_ret {A : Type} (a : A) : keeps R (ret a).
Proof. intros w. apply R_refl. Qed.

Lemma keeps_throw {A : Type} (e : Exn) : keeps R (@throw A e).
Proof. intros w. apply R_refl. Qed.

Lemma keeps_lift {A : Type} (o : Outcome A) : keeps R (lift o).
Proof. intros w. apply R_refl. Qed.

Lemma keeps_bind {A B : Type} (m : M A) (k : A -> M B) :
  keeps R m -> (forall a, keeps R (k a)) -> keeps R (bind m k).
Proof.
  intros Hm Hk w. unfold bind. specialize (Hm w).
  destruct (m w) as [[a|e] w']; simpl in *.
  - eapply R_trans; [exact Hm|apply Hk].
  - exact Hm.
Qed.

Lemma keeps_setPassword (env : Env) (u : User) (pw : string) :
  keeps R (setPassword env u pw).
Proof.
  intros w. unfold setPassword.
  destruct (String.eqb pw ""); [apply R_refl|].
  destruct (hashFault env); apply R_refl.
Qed.

Lemma keeps_authenticate (env : Env) (u : User) (pw : string) :
  keeps R (authenticate env u pw).
Proof.
  intros w. unfold authenticate.
  destruct (hashFault env); [apply R_refl|].
  destruct (String.eqb pw (credential u)); apply R_refl.
Qed.

(** With the events that are no writes kept by [R], so are the queries,
    the mail and the responses. *)
Hypothesis R_log : forall ev w, is_write ev = false -> R w (log ev w).

Lemma keeps_respond (r : Response) : keeps R (respond r).
Proof. intros w. apply R_log. reflexivity. Qed.

Lemma keeps_findById (env : Env) (id : jsval) : keeps R (findById env id).
Proof.
  intros w. unfold findById.
  destruct (findFault env); [apply R_log; reflexivity|].
  destruct id as [[]|]; apply R_log; reflexivity.
Qed.

Lemma keeps_findOne (env : Env) (address : string) :
  keeps R (findOne env address).
Proof.
  intros w. unfold findOne.
  destruct (findFault env); apply R_log; reflexivity.
Qed.

Lemma keeps_mail_send (env : Env) (m : MailMessage) :
  keeps R (mail_send env m).
Proof. intros w. apply R_log. reflexivity. Qed.
End Keeps.

(** One step of the proof that a handler keeps [R]: [refl], [trans] and
    [logs] are the three facts about [R], [tac] settles the calls that write
    to the store or the session. *)
Ltac keeps_with refl trans logs tac :=
  repeat first
    [ apply (keeps_ret _ refl)
    | apply (keeps_throw _ refl)
    | apply (keeps_lift _ refl)
    | apply (keeps_respond _ logs)
    | apply (keeps_findById _ logs)
    | apply (keeps_findOne _ logs)
    | apply (keeps_mail_send _ logs)
    | apply (keeps_setPassword _ refl)
    | apply (keeps_authenticate _ refl)
    | tac
    | apply (keeps_bind _ trans); [|intros ?]
    | match goal with
      | |- keeps _ (match ?x with _ => _ end) => destruct x
      end ].

(** *** The trace only grows *)

Lemma grows_refl (w : World) : grows w w.
Proof. exists []. symmetry. apply app_nil_r. Qed.

Lemma grows_trans (a b c : World) : grows a b -> grows b c -> grows a c.
Proof.
  intros [x Hx] [y Hy]. exists (x ++ y). rewrite Hy, Hx. apply eq_sym, app_assoc.
Qed.

Lemma grows_log (ev : Event) (w : World) :
  is_write ev = false -> grows w (log ev w).
Proof. intros _. exists [ev]. reflexivity. Qed.

Lemma grows_save (env : Env) (u : User) (delta : User -> User) :
  keeps grows (save env u delta).
Proof.
  intros w. unfold save. destruct (saveFault env); [apply grows_refl|].
  eexists. reflexivity.
Qed.

Lemma grows_logout_session : keeps grows logout_session.
Proof. intros w. eexists. reflexivity. Qed.

Ltac grows_tac :=
  keeps_with grows_refl grows_trans grows_log
    ltac:(first [ apply grows_save | apply grows_logout_session ]).

Lemma grows_resetPassword_lookup (env : Env) (token : json) (pw : string) :
  keeps grows (resetPassword_lookup env token pw).
Proof. unfold resetPassword_lookup. grows_tac. Qed.

Lemma grows_confirmEmail_lookup (env : Env) (token : json) :
  keeps grows (confirmEmail_lookup env token).
Proof. unfold confirmEmail_lookup. grows_tac. Qed.

Lemma findById_run (env : Env) (id : jsval) (w : World) :
  exists r, findById env id w = (Returned r, log (EvFindById id) w).
Proof.
  unfold findById. destruct (findFault env); [eauto|].
  destruct id as [[]|]; eauto.
Qed.

Lemma looks_up_bind {B : Type} (env : Env) (id : jsval)
    (k : Answer (option User) -> M B) (w : World) :
  (forall r, keeps grows (k r)) ->
  looks_up id (bind (findById env id) k) w.
Proof.
  intros Hk. unfold looks_up, bind.
  destruct (findById_run env id w) as [r ->].
  destruct (Hk r (log (EvFindById id) w)) as [evs ->].
  exists evs. simpl. rewrite <- app_assoc. reflexivity.
Qed.

Lemma resetPassword_lookup_starts (env : Env) (token : json) (pw : string)
    (id : jsval) (w : World) :
  get_prop token "_id" = Returned id ->
  looks_up id (resetPassword_lookup env token pw) w.
Proof.
  intros H. unfold looks_up, resetPassword_lookup.
  unfold bind at 1. unfold lift. rewrite H.
  refine (looks_up_bind env id _ w _). intros r. grows_tac.
Qed.

Lemma confirmEmail_lookup_starts (env : Env) (token : json) (id : jsval)
    (w : World) :
  get_prop token "_id" = Returned id ->
  looks_up id (confirmEmail_lookup env token) w.
Proof.
  intros H. unfold looks_up, confirmEmail_lookup.
  unfold bind at 1. unfold lift. rewrite H.
  refine (looks_up_bind env id _ w _). intros r. grows_tac.
Qed.

(** The expiry check of [resetPassword] on a decoded token whose
    expiration reads as the time [e]. *)
Lemma resetPassword_checked (host : Host) (cfg : Settings) (env : Env)
    (hex pw : string) (token : json) (v id : jsval) (e : Z) (w : World) :
  decodeToken host (resetPasswordToken (authentication cfg)) hex
  = Returned token ->
  get_prop token "expiration" = Returned v ->
  newDate host v = Some e ->
  get_prop token "_id" = Returned id ->
  (e <= now env ->
   resetPassword host cfg env hex pw w = (Returned tt, bad_request w)) /\
  (now env < e ->
   resetPassword host cfg env hex pw w = resetPassword_lookup env token pw w
   /\ looks_up id (resetPassword host cfg env hex pw) w).
Proof.
  intros Hd Hp He Hid.
  pose proof (resetPassword_decoded host cfg env hex pw token v w Hd Hp) as E.
  rewrite (expired_spec host env v e He) in E. split; intros Hn.
  - apply Z.leb_le in Hn. rewrite Hn in E. exact E.
  - apply Z.leb_gt in Hn. rewrite Hn in E. split; [exact E|].
    unfold looks_up. rewrite E. apply resetPassword_lookup_starts. exact Hid.
Qed.

(** The same check in [confirmEmail]. *)
Lemma confirmEmail_checked (host : Host) (cfg : Settings) (env : Env)
    (hex : string) (token : json) (v id : jsval) (e : Z) (w : World) :
  decodeToken host (confirmEmailToken (authentication cfg)) hex
  = Returned token ->
  get_prop token "expiration" = Returned v ->
  newDate host v = Some e ->
  get_prop token "_id" = Returned id ->
  (e <= now env ->
   confirmEmail host cfg env hex w = (Returned tt, bad_request w)) /\
  (now env < e ->
   confirmEmail host cfg env hex w = confirmEmail_lookup env token w
   /\ looks_up id (confirmEmail host cfg env hex) w).
Proof.
  intros Hd Hp He Hid.
  pose proof (confirmEmail_decoded host cfg env hex token v w Hd Hp) as E.
  rewrite (expired_spec host env v e He) in E. split; intros Hn.
  - apply Z.leb_le in Hn. rewrite Hn in E. exact E.
  - apply Z.leb_gt in Hn. rewrite Hn in E. split; [exact E|].
    unfold looks_up. rewrite E. apply confirmEmail_lookup_starts. exact Hid.
Qed.

(** A run that starts with a lookup has not just answered 400. *)
Lemma looks_up_not_bad_request {A : Type} (id : jsval) (m : M A) (w : World)
    (o : Outcome A) :
  looks_up id m w -> m w <> (o, bad_request w).
Proof.
  intros [rest H] E. rewrite E in H. unfold bad_request in H. simpl in H.
  apply app_inv_head in H. discriminate H.
Qed.

(** C5, as the code has it. For a token that decodes and whose expiration
    reads as a date, the time [e]: both handlers answer 400 exactly when
    [e <= now].  When [e <= now] nothing else happens (no lookup, no write:
    the accounts, their confirmation flags included, are as before); when
    [now < e] both go on to look the account of the token's [_id] up. *)
Theorem token_expiry_check (host : Host) (cfg : Settings) (env : Env)
    (hex : string) (token : json) (v : jsval) (e : Z) :
  get_prop token "expiration" = Returned v ->
  newDate host v = Some e ->
  exists id, get_prop token "_id" = Returned id /\
  (decodeToken host (resetPasswordToken (authentication cfg)) hex
   = Returned token ->
   forall pw w,
     (resetPassword host cfg env hex pw w = (Returned tt, bad_request w)
      <-> e <= now env) /\
     (e <= now env ->
      resetPassword host cfg env hex pw w = (Returned tt, bad_request w)
      /\ users (bad_request w) = users w
      /\ trace (bad_request w)
         = trace w ++ [EvRespond (Error "Bad Request" 400)]) /\
     (now env < e ->
      resetPassword host cfg env hex pw w
      = resetPassword_lookup env token pw w
      /\ looks_up id (resetPassword host cfg env hex pw) w)) /\
  (decodeToken host (confirmEmailToken (authentication cfg)) hex
   = Returned token ->
   forall w,
     (confirmEmail host cfg env hex w = (Returned tt, bad_request w)
      <-> e <= now env) /\
     (e <= now env ->
      confirmEmail host cfg env hex w = (Returned tt, bad_request w)
      /\ users (bad_request w) = users w
      /\ trace (bad_request w)
         = trace w ++ [EvRespond (Error "Bad Request" 400)]) /\
     (now env < e ->
      confirmEmail host cfg env hex w = confirmEmail_lookup env token w
      /\ looks_up id (confirmEmail host cfg env hex) w)).
Proof.
  intros Hp He.
  destruct (get_prop_other token "expiration" "_id" v Hp) as [id Hid].
  exists id. split; [exact Hid|]. split.
  - intros Hd pw w.
    destruct (resetPassword_checked host cfg env hex pw token v id e w
                Hd Hp He Hid) as [Hold Hnew].
    split; [|split].
    + split; [|exact Hold]. intros E.
      destruct (Z.le_gt_cases e (now env)) as [Hle|Hlt]; [exact Hle|].
      exfalso. destruct (Hnew Hlt) as [_ Hl].
      exact (looks_up_not_bad_request id _ w _ Hl E).
    + intros Hn. split; [apply Hold, Hn|split; reflexivity].
    + exact Hnew.
  - intros Hd w.
    destruct (confirmEmail_checked host cfg env hex token v id e w
                Hd Hp He Hid) as [Hold Hnew].
    split; [|split].
    + split; [|exact Hold]. intros E.
      destruct (Z.le_gt_cases e (now env)) as [Hle|Hlt]; [exact Hle|].
      exfalso. destruct (Hnew Hlt) as [_ Hl].
      exact (looks_up_not_bad_request id _ w _ Hl E).
    + intros Hn. split; [apply Hold, Hn|split; reflexivity].
    + exact Hnew.
Qed.

(** On the fixture, all four cases: alice's reset token (it expires at
    3605000) and her confirm token (it expires at 1805000), each presented
    at its expiry and one millisecond before. *)
Lemma token_expiry_check_witness :
  resetPassword RefHost.host Fixture.cfg (Fixture.at_time 3605000)
    Fixture.reset_token "new password" Fixture.world
  = (Returned tt, bad_request Fixture.world)
  /\ (resetPassword RefHost.host Fixture.cfg (Fixture.at_time 3604999)
        Fixture.reset_token "new password" Fixture.world
      = resetPassword_lookup (Fixture.at_time 3604999)
          (payload RefHost.host (_id Fixture.alice) (Some 3605000))
          "new password" Fixture.world
      /\ looks_up (Some (JStr (_id Fixture.alice)))
           (resetPassword RefHost.host Fixture.cfg (Fixture.at_time 3604999)
              Fixture.reset_token "new password") Fixture.world)
  /\ confirmEmail RefHost.host Fixture.cfg_timed (Fixture.at_time 1805000)
       Fixture.confirm_token_timed Fixture.world
     = (Returned tt, bad_request Fixture.world)
  /\ (confirmEmail RefHost.host Fixture.cfg_timed (Fixture.at_time 1804999)
        Fixture.confirm_token_timed Fixture.world
      = confirmEmail_lookup (Fixture.at_time 1804999)
          (payload RefHost.host (_id Fixture.alice) (Some 1805000))
          Fixture.world
      /\ looks_up (Some (JStr (_id Fixture.alice)))
           (confirmEmail RefHost.host Fixture.cfg_timed
              (Fixture.at_time 1804999) Fixture.confirm_token_timed)
           Fixture.world).
Proof.
  split; [|split; [|split]].
  - destruct (token_expiry_check RefHost.host Fixture.cfg
                (Fixture.at_time 3605000) Fixture.reset_token
                (payload RefHost.host (_id Fixture.alice) (Some 3605000))
                (Some (JStr "1970-01-01T01:00:05.000Z")) 3605000
                eq_refl ltac:(vm_compute; reflexivity))
      as (id & _ & H & _).
    apply (H ltac:(vm_compute; reflexivity) "new password" Fixture.world).
    vm_compute. discriminate.
  - destruct (token_expiry_check RefHost.host Fixture.cfg
                (Fixture.at_time 3604999) Fixture.reset_token
                (payload RefHost.host (_id Fixture.alice) (Some 3605000))
                (Some (JStr "1970-01-01T01:00:05.000Z")) 3605000
                eq_refl ltac:(vm_compute; reflexivity))
      as (id & Hid & H & _).
    injection Hid as <-.
    apply (H ltac:(vm_compute; reflexivity) "new password" Fixture.world).
    vm_compute. reflexivity.
  - destruct (token_expiry_check RefHost.host Fixture.cfg_timed
                (Fixture.at_time 1805000) Fixture.confirm_token_timed
                (payload RefHost.host (_id Fixture.alice) (Some 1805000))
                (Some (JStr "1970-01-01T00:30:05.000Z")) 1805000
                eq_refl ltac:(vm_compute; reflexivity))
      as (id & _ & _ & H).
    apply (H ltac:(vm_compute; reflexivity) Fixture.world).
    vm_compute. discriminate.
  - destruct (token_expiry_check RefHost.host Fixture.cfg_timed
                (Fixture.at_time 1804999) Fixture.confirm_token_timed
                (payload RefHost.host (_id Fixture.alice) (Some 1805000))
                (Some (JStr "1970-01-01T00:30:05.000Z")) 1805000
                eq_refl ltac:(vm_compute; reflexivity))
      as (id & Hid & _ & H).
    injection Hid as <-.
    apply (H ltac:(vm_compute; reflexivity) Fixture.world).
    vm_compute. reflexivity.
Defined.

(** C5, as stated, fails for a decoded token whose expiration does not
    read as a date.  The reset-class token that carries no expiration at
    all decodes, has no expiration in the future, and is nevertheless not
    answered 400: long after every minted token has expired it gives alice
    a new credential.  A confirm-class token whose expiration is the text
    "yesterday" likewise confirms her. *)
Lemma undated_token_passes_expiry_check :
  decodeToken RefHost.host (resetPasswordToken (authentication Fixture.cfg))
    Scenario.timeless_token
  = Returned (JObj [("_id", JStr (_id Fixture.alice))])
  /\ get_prop (JObj [("_id", JStr (_id Fixture.alice))]) "expiration"
     = Returned None
  /\ newDate RefHost.host None = None
  /\ resetPassword RefHost.host Fixture.cfg (Fixture.at_time 99999999999999)
       Scenario.timeless_token "chosen by the bearer" Fixture.world
     <> (Returned tt, bad_request Fixture.world)
  /\ response_of
       (resetPassword RefHost.host Fixture.cfg (Fixture.at_time 99999999999999)
          Scenario.timeless_token "chosen by the bearer" Fixture.world)
     = Some (Result (PBool true))
  /\ credential <$> users Fixture.world !! _id Fixture.alice
     = Some "correct horse"
  /\ credential <$>
       users (snd (resetPassword RefHost.host Fixture.cfg
                     (Fixture.at_time 99999999999999)
                     Scenario.timeless_token "chosen by the bearer"
                     Fixture.world))
       !! _id Fixture.alice
     = Some "chosen by the bearer"
  /\ decodeToken RefHost.host
       (confirmEmailToken (authentication Fixture.cfg_timed))
       Scenario.unreadable_token
     = Returned (JObj [("_id", JStr (_id Fixture.alice));
                       ("expiration", JStr "yesterday")])
  /\ newDate RefHost.host (Some (JStr "yesterday")) = None
  /\ response_of
       (confirmEmail RefHost.host Fixture.cfg_timed
          (Fixture.at_time 99999999999999) Scenario.unreadable_token
          Fixture.world)
     = Some (Result (PBool true))
  /\ isConfirmed <$> users Fixture.world !! _id Fixture.alice = Some false
  /\ isConfirmed <$>
       users (snd (confirmEmail RefHost.host Fixture.cfg_timed
                     (Fixture.at_time 99999999999999)
                     Scenario.unreadable_token Fixture.world))
       !! _id Fixture.alice
     = Some true.
Proof.
  repeat split; try (vm_compute; reflexivity).
  vm_compute. intros H. discriminate H.
Qed.

(** C2, as the code has it. When the token does not decode (the class has
    no settings, the decipher throws, or the text is not JSON), both
    handlers end with that exception: there is no response, no lookup and no
    write. *)
Theorem undecodable_token_throws (host : Host) (cfg : Settings) (env : Env)
    (hex : string) (e : Exn) :
  (decodeToken host (resetPasswordToken (authentication cfg)) hex = Threw e ->
   forall pw w, resetPassword host cfg env hex pw w = (Threw e, w)) /\
  (decodeToken host (confirmEmailToken (authentication cfg)) hex = Threw e ->
   forall w, confirmEmail host cfg env hex w = (Threw e, w)).
Proof.
  split.
  - intros Hd pw w. apply resetPassword_undecoded. exact Hd.
  - intros Hd w. apply confirmEmail_undecoded. exact Hd.
Qed.

Lemma undecodable_token_throws_witness :
  resetPassword RefHost.host Fixture.cfg (Fixture.at_time 6000)
    "not hex at all" "new password" Fixture.world
  = (Threw (CryptoError "createDecipher"), Fixture.world)
  /\ confirmEmail RefHost.host Fixture.cfg (Fixture.at_time 6000)
       Fixture.reset_token Fixture.world
     = (Threw (SyntaxError "JSON.parse"), Fixture.world).
Proof.
  split.
  - apply (proj1 (undecodable_token_throws RefHost.host Fixture.cfg
                    (Fixture.at_time 6000) "not hex at all"
                    (CryptoError "createDecipher"))).
    vm_compute. reflexivity.
  - apply (proj2 (undecodable_token_throws RefHost.host Fixture.cfg
                    (Fixture.at_time 6000) Fixture.reset_token
                    (SyntaxError "JSON.parse"))).
    vm_compute. reflexivity.
Defined.

(** C2, as stated, fails: a reset token presented to ConfirmEmail (the
    wrong class) does not decode, and the handler does not answer 400: it
    ends with the exception and answers nothing.  The same for text that is
    not hex presented to ResetPassword. *)
Lemma undecodable_token_not_answered :
  decodeToken RefHost.host (confirmEmailToken (authentication Fixture.cfg))
    Fixture.reset_token
  = Threw (SyntaxError "JSON.parse")
  /\ confirmEmail RefHost.host Fixture.cfg (Fixture.at_time 6000)
       Fixture.reset_token Fixture.world
     <> (Returned tt, bad_request Fixture.world)
  /\ response_of (confirmEmail RefHost.host Fixture.cfg (Fixture.at_time 6000)
                    Fixture.reset_token Fixture.world) = None
  /\ decodeToken RefHost.host (resetPasswordToken (authentication Fixture.cfg))
       "not hex at all"
     = Threw (CryptoError "createDecipher")
  /\ resetPassword RefHost.host Fixture.cfg (Fixture.at_time 6000)
       "not hex at all" "new password" Fixture.world
     <> (Returned tt, bad_request Fixture.world)
  /\ response_of (resetPassword RefHost.host Fixture.cfg (Fixture.at_time 6000)
                    "not hex at all" "new password" Fixture.world) = None.
Proof.
  repeat split; try (vm_compute; reflexivity);
    vm_compute; intros H; discriminate H.
Qed.

Lemma payload_id (host : Host) (id : string) (d : Date) :
  get_prop (payload host id d) "_id" = Returned (Some (JStr id)).
Proof. reflexivity. Qed.

Lemma payload_expiration (host : Host) (id : string) (d : Date) :
  get_prop (payload host id d) "expiration"
  = Returned (Some (date_toJSON host d)).
Proof. reflexivity. Qed.

(** What was minted is what is decoded, as soon as the host deciphers what
    it enciphered of this text and parses the text to the value that was
    printed. *)
Lemma decode_minted (host : Host) (env : Env) (ts : TokenSettings)
    (id hex : string) :
  mintToken host env ts id = Returned hex ->
  deciphers host ts
    (JSON_stringify host
       (payload host id (addMinutes (now env) (timeout ts)))) ->
  JSON_parse host
    (JSON_stringify host (payload host id (addMinutes (now env) (timeout ts))))
  = Some (payload host id (addMinutes (now env) (timeout ts))) ->
  decodeToken host (Some ts) hex
  = Returned (payload host id (addMinutes (now env) (timeout ts))).
Proof.
  intros Hmint Hdec Hparse. unfold mintToken in Hmint. fold (payload host id
    (addMinutes (now env) (timeout ts))) in Hmint.
  destruct (cipher_hex host (algorithm ts) (password ts) _) as [c|] eqn:Hc;
    [|discriminate]. injection Hmint as ->.
  unfold decodeToken. rewrite (Hdec hex Hc), Hparse. reflexivity.
Qed.

(** C1. A token minted for the account [id] with a positive time to live
    [ttl], presented before [ttl] minutes have passed, under the same
    algorithm and key, decodes to the same [_id], passes the expiry check,
    and the handler of its class goes on to look exactly that account up.
    The host is assumed to undo its own work on this token: the decipher
    gives back the enciphered text, the parser the printed value, and the
    date parser the printed time. *)
Theorem token_round_trip (host : Host) (cfg : Settings)
    (minting verifying : Env) (ts : TokenSettings) (id hex : string)
    (ttl : Z) :
  timeout ts = Some ttl ->
  0 < ttl ->
  mintToken host minting ts id = Returned hex ->
  deciphers host ts
    (JSON_stringify host
       (payload host id (Some (now minting + ttl * 60000)))) ->
  JSON_parse host
    (JSON_stringify host (payload host id (Some (now minting + ttl * 60000))))
  = Some (payload host id (Some (now minting + ttl * 60000))) ->
  Date_parse host (toISOString host (now minting + ttl * 60000))
  = Some (now minting + ttl * 60000) ->
  now verifying < now minting + ttl * 60000 ->
  exists token,
    decodeToken host (Some ts) hex = Returned token
    /\ get_prop token "_id" = Returned (Some (JStr id))
    /\ (resetPasswordToken (authentication cfg) = Some ts ->
        forall pw w,
          resetPassword host cfg verifying hex pw w
          = resetPassword_lookup verifying token pw w
          /\ looks_up (Some (JStr id))
               (resetPassword host cfg verifying hex pw) w)
    /\ (confirmEmailToken (authentication cfg) = Some ts ->
        forall w,
          confirmEmail host cfg verifying hex w
          = confirmEmail_lookup verifying token w
          /\ looks_up (Some (JStr id))
               (confirmEmail host cfg verifying hex) w).
Proof.
  intros Ht Hpos Hmint Hdec Hparse Hdate Hnow.
  set (e := now minting + ttl * 60000) in *.
  assert (Hd : decodeToken host (Some ts) hex
               = Returned (payload host id (Some e))).
  { pose proof (decode_minted host minting ts id hex Hmint) as D.
    unfold addMinutes in D. rewrite Ht in D. apply D; assumption. }
  exists (payload host id (Some e)).
  split; [exact Hd|]. split; [apply payload_id|].
  split.
  - intros Hc pw w. rewrite <- Hc in Hd.
    apply (resetPassword_checked host cfg verifying hex pw _ _ _ e w Hd
             (payload_expiration host id (Some e)) Hdate
             (payload_id host id (Some e))).
    exact Hnow.
  - intros Hc w. rewrite <- Hc in Hd.
    apply (confirmEmail_checked host cfg verifying hex _ _ _ e w Hd
             (payload_expiration host id (Some e)) Hdate
             (payload_id host id (Some e))).
    exact Hnow.
Qed.

Lemma token_round_trip_witness :
  exists token,
    decodeToken RefHost.host (Some Fixture.reset_class) Fixture.reset_token
    = Returned token
    /\ get_prop token "_id" = Returned (Some (JStr (_id Fixture.alice)))
    /\ (resetPasswordToken (authentication Fixture.cfg)
        = Some Fixture.reset_class ->
        forall pw w,
          resetPassword RefHost.host Fixture.cfg (Fixture.at_time 3604999)
            Fixture.reset_token pw w
          = resetPassword_lookup (Fixture.at_time 3604999) token pw w
          /\ looks_up (Some (JStr (_id Fixture.alice)))
               (resetPassword RefHost.host Fixture.cfg
                  (Fixture.at_time 3604999) Fixture.reset_token pw) w)
    /\ (confirmEmailToken (authentication Fixture.cfg)
        = Some Fixture.reset_class ->
        forall w,
          confirmEmail RefHost.host Fixture.cfg (Fixture.at_time 3604999)
            Fixture.reset_token w
          = confirmEmail_lookup (Fixture.at_time 3604999) token w
          /\ looks_up (Some (JStr (_id Fixture.alice)))
               (confirmEmail RefHost.host Fixture.cfg
                  (Fixture.at_time 3604999) Fixture.reset_token) w).
Proof.
  apply (token_round_trip RefHost.host Fixture.cfg (Fixture.at_time 5000)
           (Fixture.at_time 3604999) Fixture.reset_class (_id Fixture.alice)
           Fixture.reset_token 60).
  - reflexivity.
  - reflexivity.
  - vm_compute. reflexivity.
  - intros c H. vm_compute in H. injection H as <-. vm_compute. reflexivity.
  - vm_compute. reflexivity.
  - vm_compute. reflexivity.
  - vm_compute. reflexivity.
Defined.

(** The whole round trip on the fixture: alice's reset token, presented one
    millisecond before it expires, gives her the new password. *)
Example reset_round_trip_run :
  let w' := snd (resetPassword RefHost.host Fixture.cfg
                   (Fixture.at_time 3604999) Fixture.reset_token
                   "new password" Fixture.world) in
  credential <$> users w' !! _id Fixture.alice = Some "new password"
  /\ last (trace w') = Some (EvRespond (Result (PBool true)))
  /\ head (trace w') = Some (EvFindById (Some (JStr (_id Fixture.alice)))).
Proof. vm_compute. repeat split. Qed.

(** C7. A token minted under a class whose [timeout] is missing carries no
    date (the expiry is written as [null]); whenever it is presented, it is
    answered 400 by the expiry check, with no lookup and no write.  The
    host is assumed to undo its own work on this token, and the clock not
    to stand before 1970. *)
Theorem missing_ttl_fails_closed (host : Host) (cfg : Settings)
    (minting verifying : Env) (ts : TokenSettings) (id hex : string) :
  timeout ts = None ->
  mintToken host minting ts id = Returned hex ->
  deciphers host ts (JSON_stringify host (payload host id None)) ->
  JSON_parse host (JSON_stringify host (payload host id None))
  = Some (payload host id None) ->
  0 <= now verifying ->
  decodeToken host (Some ts) hex = Returned (payload host id None)
  /\ get_prop (payload host id None) "expiration" = Returned (Some JNull)
  /\ expired host verifying (Some JNull) = true
  /\ (resetPasswordToken (authentication cfg) = Some ts ->
      forall pw w,
        resetPassword host cfg verifying hex pw w
        = (Returned tt, bad_request w))
  /\ (confirmEmailToken (authentication cfg) = Some ts ->
      forall w,
        confirmEmail host cfg verifying hex w = (Returned tt, bad_request w)).
Proof.
  intros Ht Hmint Hdec Hparse Hnow.
  assert (Hd : decodeToken host (Some ts) hex
               = Returned (payload host id None)).
  { pose proof (decode_minted host minting ts id hex Hmint) as D.
    unfold addMinutes in D. rewrite Ht in D. apply D; assumption. }
  assert (Hx : expired host verifying (Some JNull) = true).
  { unfold expired. simpl. apply Z.leb_le. exact Hnow. }
  split; [exact Hd|]. split; [reflexivity|]. split; [exact Hx|]. split.
  - intros Hc pw w. rewrite <- Hc in Hd.
    rewrite (resetPassword_decoded host cfg verifying hex pw _ _ w Hd
               (payload_expiration host id None)).
    simpl date_toJSON. rewrite Hx. reflexivity.
  - intros Hc w. rewrite <- Hc in Hd.
    rewrite (confirmEmail_decoded host cfg verifying hex _ _ w Hd
               (payload_expiration host id None)).
    simpl date_toJSON. rewrite Hx. reflexivity.
Qed.

Lemma missing_ttl_fails_closed_witness :
  decodeToken RefHost.host (Some Fixture.confirm_class) Fixture.confirm_token
  = Returned (payload RefHost.host (_id Fixture.alice) None)
  /\ get_prop (payload RefHost.host (_id Fixture.alice) None) "expiration"
     = Returned (Some JNull)
  /\ expired RefHost.host (Fixture.at_time 5001) (Some JNull) = true
  /\ (resetPasswordToken (authentication Fixture.cfg)
      = Some Fixture.confirm_class ->
      forall pw w,
        resetPassword RefHost.host Fixture.cfg (Fixture.at_time 5001)
          Fixture.confirm_token pw w
        = (Returned tt, bad_request w))
  /\ (confirmEmailToken (authentication Fixture.cfg)
      = Some Fixture.confirm_class ->
      forall w,
        confirmEmail RefHost.host Fixture.cfg (Fixture.at_time 5001)
          Fixture.confirm_token w
        = (Returned tt, bad_request w)).
Proof.
  apply (missing_ttl_fails_closed RefHost.host Fixture.cfg
           (Fixture.at_time 5000) (Fixture.at_time 5001)
           Fixture.confirm_class (_id Fixture.alice) Fixture.confirm_token).
  - reflexivity.
  - vm_compute. reflexivity.
  - intros c H. vm_compute in H. injection H as <-. vm_compute. reflexivity.
  - vm_compute. reflexivity.
  - vm_compute. discriminate.
Defined.

(** ** Password reset requests *)

Lemma sendResetPassword_gated (host : Host) (cfg : Settings) (env : Env)
    (user : User) (w : World) :
  confirmEmailEnabled cfg = false ->
  sendResetPassword host cfg env user w
  = (Returned (Some "Password reset is not enabled."), w).
Proof. intros H. unfold sendResetPassword. rewrite H. reflexivity. Qed.

(** C4 on the code. With the password-reset template configured and
    enabled and the reset class configured, but no confirm-email template,
    [resetPasswordEnabled] holds, and yet the request for an existing
    account is answered 500 "Password reset is not enabled.": no token is
    minted and no mail is sent.  The handler tests the confirm-email flag. *)
Example reset_request_tests_confirm_flag :
  resetPasswordEnabled Fixture.cfg_reset_only = true
  /\ confirmEmailEnabled Fixture.cfg_reset_only = false
  /\ lookup_email "alice@example.org" (users Fixture.world)
     = Some Fixture.alice
  /\ resetPasswordRequest RefHost.host Fixture.cfg_reset_only
       (Fixture.at_time 5000) "alice@example.org" Fixture.world
     = (Returned tt,
        log (EvRespond (Error "Password reset is not enabled." 500))
          (log (EvFindOne "alice@example.org") Fixture.world)).
Proof. vm_compute. repeat split. Qed.

(** With the confirm-email feature enabled as well, the same request mints
    a token and sends the mail. *)
Example reset_request_with_confirm_flag :
  let w' := snd (resetPasswordRequest RefHost.host Fixture.cfg
                   (Fixture.at_time 5000) "alice@example.org" Fixture.world) in
  trace w'
  = [EvFindOne "alice@example.org";
     EvMailSend
       {| msg_enabled := true;
          msg_to := "Alice  <alice@example.org>";
          msg_text := "Hello Alice , reset: /reset/" +:+ Fixture.reset_token;
          msg_attachment :=
            Some [{| alternative := true;
                     data := "<a href=/reset/" +:+ Fixture.reset_token
                             +:+ ">" |}] |};
     EvRespond (Result (PBool true))].
Proof. vm_compute. reflexivity. Qed.

(** ** Password change *)

Lemma changePassword_auth_error (env : Env) (me : User)
    (oldPassword newPassword e : string) (w : World) :
  hashFault env = Some e ->
  changePassword env (Some me) oldPassword newPassword w
  = (Returned tt, log (EvRespond (Error e 500)) w).
Proof.
  intros H. unfold changePassword, authenticate. monad. rewrite H. reflexivity.
Qed.

Lemma changePassword_mismatch (env : Env) (me : User)
    (oldPassword newPassword : string) (w : World) :
  hashFault env = None ->
  oldPassword <> credential me ->
  changePassword env (Some me) oldPassword newPassword w
  = (Threw (TypeError "Object false has no method 'setPassword'"), w).
Proof.
  intros H Hne. unfold changePassword, authenticate. monad. rewrite H.
  destruct (String.eqb_spec oldPassword (credential me)) as [E|_];
    [contradiction|reflexivity].
Qed.

(** C6 on the code. Bob, logged in, asks for a password change with an old
    password that is not his: the credential check answers [(null, false)],
    the handler sees no error and calls [setPassword] on [false].  It ends
    with a TypeError and answers nothing; the store is untouched. *)
Example change_password_wrong_old_password :
  request_user Fixture.world = Some Fixture.bob
  /\ credential Fixture.bob <> "not my password"
  /\ changePassword (Fixture.at_time 5000) (request_user Fixture.world)
       "not my password" "new password" Fixture.world
     = (Threw (TypeError "Object false has no method 'setPassword'"),
        Fixture.world)
  /\ response_of (changePassword (Fixture.at_time 5000)
                    (request_user Fixture.world)
                    "not my password" "new password" Fixture.world) = None.
Proof.
  split; [vm_compute; reflexivity|]. split; [discriminate|].
  split; vm_compute; reflexivity.
Qed.

(** ** Registration *)

Lemma quiet_refl (w : World) : quiet w w.
Proof.
  split; [reflexivity|]. exists []. split; [|reflexivity].
  symmetry. apply app_nil_r.
Qed.

Lemma quiet_trans (a b c : World) : quiet a b -> quiet b c -> quiet a c.
Proof.
  intros [Hu (x & Hx & Hwx)] [Hu' (y & Hy & Hwy)]. split; [congruence|].
  exists (x ++ y). split.
  - rewrite Hy, Hx. symmetry. apply app_assoc.
  - rewrite existsb_app, Hwx, Hwy. reflexivity.
Qed.

Lemma quiet_log (ev : Event) (w : World) :
  is_write ev = false -> quiet w (log ev w).
Proof.
  intros H. split; [reflexivity|]. exists [ev]. split; [reflexivity|].
  simpl. rewrite H. reflexivity.
Qed.

Ltac quiet_tac := keeps_with quiet_refl quiet_trans quiet_log fail.

Lemma quiet_sendConfirmEmail (host : Host) (cfg : Settings) (env : Env)
    (user : User) :
  keeps quiet (sendConfirmEmail host cfg env user).
Proof. unfold sendConfirmEmail. quiet_tac. Qed.

Lemma quiet_sendResetPassword (host : Host) (cfg : Settings) (env : Env)
    (user : User) :
  keeps quiet (sendResetPassword host cfg env user).
Proof. unfold sendResetPassword. quiet_tac. Qed.

(** The document that [register] inserts for [a]. *)
Lemma register_run (env : Env) (a : User) (pw : string) (w : World) :
  let doc := set_modified (Some (now env))
               (set_created (Some (now env)) (set_credential pw a)) in
  (exists e, register env a pw w
             = (Returned (Err e), log (EvFindOne (email a)) w))
  \/ (users w !! _id a = None
      /\ register env a pw w
         = (Returned (Ans doc),
            log (EvInsert doc)
              (with_users (<[_id a := doc]> (users w))
                 (log (EvFindOne (email a)) w)))).
Proof.
  intros doc. unfold register, findOne, setPassword. monad.
  destruct (findFault env); [left; eauto|].
  destruct (lookup_email (email a) (users w)); [left; eauto|].
  destruct (String.eqb pw ""); [left; eauto|].
  destruct (hashFault env); [left; eauto|].
  destruct (saveFault env); [left; eauto|]. simpl.
  destruct (users w !! _id a) eqn:E; [left; eauto|].
  right. split; reflexivity.
Qed.

Lemma new_account_grants (env : Env) (body : Body) (pw : string)
    (t t' : option Z) :
  has_grants
    (set_modified t
       (set_created t'
          (set_credential pw
             (setAccess "role:admin" full_access
                (setAccess (subject_key (new_UserModel env body)) full_access
                   (new_UserModel env body)))))).
Proof.
  unfold has_grants, subject_key. simpl. split.
  - rewrite lookup_insert_ne by discriminate. apply lookup_insert_eq.
  - apply lookup_insert_eq.
Qed.

(** What [create] does once the account is registered (lines 193-215). *)
Lemma quiet_after_register (host : Host) (cfg : Settings) (env : Env)
    (user : User) :
  keeps quiet
    (if confirmEmailEnabled cfg then
       do error <- sendConfirmEmail host cfg env user;
       match error with
       | Some e => respond (Error e 500)
       | None => respond (Result (PUser user))
       end
     else respond (Result (PUser user))).
Proof.
  keeps_with quiet_refl quiet_trans quiet_log
    ltac:(apply quiet_sendConfirmEmail).
Qed.

Lemma existsb_is_write_false (evs : list Event) (u : User) :
  existsb is_write evs = false ->
  ~ (In (EvInsert u) evs \/ In (EvSave u) evs).
Proof.
  intros H [Hin|Hin];
    (assert (existsb is_write evs = true)
      by (apply existsb_exists; eexists; split; [exact Hin|reflexivity]));
    congruence.
Qed.

(** C8. Whatever a registration does, every document it writes is the new
    account carrying both grants (its own key and [role:admin], each with
    read, write and delete); the store changes at most by that one
    insertion; and when the registration is answered with a result, the
    account is in the store with both grants. *)
Theorem create_grants (host : Host) (cfg : Settings) (env : Env)
    (body : Body) (w : World) :
  exists evs,
    trace (snd (create host cfg env body w)) = trace w ++ evs
    /\ (forall u, In (EvInsert u) evs \/ In (EvSave u) evs ->
                  _id u = _id (new_UserModel env body) /\ has_grants u)
    /\ (forall k, k <> _id (new_UserModel env body) ->
                  users (snd (create host cfg env body w)) !! k
                  = users w !! k)
    /\ (users (snd (create host cfg env body w)) !! _id (new_UserModel env body)
        = users w !! _id (new_UserModel env body)
        \/ exists doc,
             users w !! _id (new_UserModel env body) = None
             /\ users (snd (create host cfg env body w))
                  !! _id (new_UserModel env body) = Some doc
             /\ has_grants doc)
    /\ (forall p,
          response_of (create host cfg env body w) = Some (Result p) ->
          exists doc,
            In (EvInsert doc) evs
            /\ users (snd (create host cfg env body w))
                 !! _id (new_UserModel env body) = Some doc
            /\ has_grants doc).
Proof.
  pose (a := setAccess "role:admin" full_access
               (setAccess (subject_key (new_UserModel env body)) full_access
                  (new_UserModel env body))).
  destruct (register_run env a (body_password body) w) as [[e E]|[Hnone E]].
  - assert (C : create host cfg env body w
                = (Returned tt,
                   log (EvRespond (Error e 500)) (log (EvFindOne (email a)) w))).
    { unfold create. fold a. unfold bind at 1. rewrite E. reflexivity. }
    rewrite C.
    exists [EvFindOne (email a); EvRespond (Error e 500)].
    split; [simpl; rewrite <- app_assoc; reflexivity|].
    split; [simpl; intros u [[H|[H|[]]]|[H|[H|[]]]]; discriminate|].
    split; [reflexivity|]. split; [left; reflexivity|].
    intros p. unfold response_of. simpl. rewrite last_snoc. discriminate.
  - set (doc := set_modified (Some (now env)) _) in *.
    set (w1 := log (EvInsert doc) _) in *.
    assert (Hg : has_grants doc) by apply new_account_grants.
    assert (Hw1 : users w1 = <[_id (new_UserModel env body) := doc]> (users w))
      by reflexivity.
    change (_id a) with (_id (new_UserModel env body)) in Hnone.
    destruct (quiet_after_register host cfg env (readFilter cfg "owner" doc) w1)
      as [Hu (ys & Hy & Hw)].
    match type of Hu with
    | users (snd ?r) = _ =>
        assert (C : create host cfg env body w = r)
          by (unfold create; fold a; unfold bind at 1; rewrite E; reflexivity)
    end.
    rewrite C, Hy, Hu, Hw1.
    exists ([EvFindOne (email a); EvInsert doc] ++ ys).
    split; [unfold w1; simpl; repeat rewrite <- app_assoc; reflexivity|].
    split.
    { intros u Hin.
      assert (Hu' : EvInsert u = EvInsert doc).
      { destruct Hin as [Hin|Hin]; simpl in Hin;
          destruct Hin as [Hin|[Hin|Hin]]; try discriminate; auto;
          exfalso; apply (existsb_is_write_false ys u Hw); auto. }
      injection Hu' as ->. split; [reflexivity|exact Hg]. }
    split; [intros k Hk; apply lookup_insert_ne; congruence|].
    split.
    { right. exists doc. split; [exact Hnone|].
      split; [apply lookup_insert_eq|exact Hg]. }
    intros p _. exists doc. split; [simpl; auto|].
    split; [apply lookup_insert_eq|exact Hg].
Qed.

(** On the fixture: Dave registers, the confirmation mail goes out, and his
    stored account carries both grants. *)
Lemma create_grants_witness :
  exists doc,
    users (snd (create RefHost.host Fixture.cfg (Fixture.at_time 5000)
                  Fixture.newcomer Fixture.world))
      !! "507f1f77bcf86cd799439099" = Some doc
    /\ _acl doc !! "user:507f1f77bcf86cd799439099" = Some [Read; Write; Delete]
    /\ _acl doc !! "role:admin" = Some [Read; Write; Delete].
Proof.
  destruct (create_grants RefHost.host Fixture.cfg (Fixture.at_time 5000)
              Fixture.newcomer Fixture.world) as (evs & _ & _ & _ & _ & H).
  destruct (H (PUser (readFilter Fixture.cfg "owner"
                 (set_modified (Some 5000) (set_created (Some 5000)
                    (set_credential "swordfish"
                       (setAccess "role:admin" full_access
                          (setAccess "user:507f1f77bcf86cd799439099" full_access
                             (new_UserModel (Fixture.at_time 5000)
                                Fixture.newcomer))))))))
              ltac:(vm_compute; reflexivity))
    as (doc & _ & Hdoc & Hg1 & Hg2).
  exists doc. split; [exact Hdoc|]. split.
  - change (_acl doc !! subject_key doc = Some full_access) in Hg1.
    revert Hg1. generalize Hdoc. vm_compute. intros E. injection E as <-.
    intros Hg1. exact Hg1.
  - exact Hg2.
Defined.

(** ** The confirmation flag *)

Lemma flag_kept_refl (w : World) : flag_kept w w.
Proof. intros id u H. eauto. Qed.

Lemma flag_kept_trans (a b c : World) :
  flag_kept a b -> flag_kept b c -> flag_kept a c.
Proof.
  intros Hab Hbc id u H.
  destruct (Hab id u H) as (u1 & H1 & E1).
  destruct (Hbc id u1 H1) as (u2 & H2 & E2).
  exists u2. split; [exact H2|congruence].
Qed.

Lemma flag_kept_log (ev : Event) (w : World) :
  is_write ev = false -> flag_kept w (log ev w).
Proof. intros _ id u H. eauto. Qed.

Lemma flag_kept_grows (w w' : World) : flag_kept w w' -> flag_grows w w'.
Proof.
  intros H id u Hu. destruct (H id u Hu) as (u' & Hu' & E).
  exists u'. split; [exact Hu'|congruence].
Qed.

Lemma flag_grows_refl (w : World) : flag_grows w w.
Proof. apply flag_kept_grows, flag_kept_refl. Qed.

Lemma flag_grows_trans (a b c : World) :
  flag_grows a b -> flag_grows b c -> flag_grows a c.
Proof.
  intros Hab Hbc id u H.
  destruct (Hab id u H) as (u1 & H1 & E1).
  destruct (Hbc id u1 H1) as (u2 & H2 & E2).
  exists u2. split; [exact H2|auto].
Qed.

Lemma flag_grows_log (ev : Event) (w : World) :
  is_write ev = false -> flag_grows w (log ev w).
Proof. intros H. apply flag_kept_grows, flag_kept_log, H. Qed.

(** A write of paths other than [isConfirmed] keeps every flag. *)
Lemma flag_kept_save (env : Env) (u : User) (delta : User -> User) :
  (forall d, isConfirmed (delta d) = isConfirmed d) ->
  keeps flag_kept (save env u delta).
Proof.
  intros Hd w. unfold save. destruct (saveFault env); [apply flag_kept_refl|].
  intros id d H. simpl.
  destruct (decide (_id u = id)) as [->|Hne].
  - rewrite lookup_alter_eq, H. simpl. eexists. split; [reflexivity|].
    simpl. apply Hd.
  - rewrite lookup_alter_ne by exact Hne. eauto.
Qed.

(** A write that sets [isConfirmed] keeps every confirmed account so. *)
Lemma flag_grows_confirm (env : Env) (u : User) :
  keeps flag_grows (save env u (set_isConfirmed true)).
Proof.
  intros w. unfold save. destruct (saveFault env); [apply flag_grows_refl|].
  intros id d H. simpl.
  destruct (decide (_id u = id)) as [->|Hne].
  - rewrite lookup_alter_eq, H. simpl. eexists. split; [reflexivity|].
    reflexivity.
  - rewrite lookup_alter_ne by exact Hne. eauto.
Qed.

Lemma flag_kept_logout_session : keeps flag_kept logout_session.
Proof. intros w id u H. eauto. Qed.

Lemma flag_kept_register (env : Env) (a : User) (pw : string) :
  keeps flag_kept (register env a pw).
Proof.
  intros w.
  destruct (register_run env a pw w) as [[e ->]|[Hnone ->]].
  - apply flag_kept_log. reflexivity.
  - intros id u H. simpl.
    destruct (decide (_id a = id)) as [<-|Hne]; [congruence|].
    rewrite lookup_insert_ne by exact Hne. eauto.
Qed.

Lemma flag_kept_passport_authenticate (address pw : string) :
  keeps flag_kept (passport_authenticate address pw).
Proof.
  intros w. unfold passport_authenticate.
  destruct (lookup_email address (users w)); [|apply flag_kept_refl].
  destruct (String.eqb pw (credential u)); [|apply flag_kept_refl].
  intros id d H. eauto.
Qed.

Ltac flag_kept_tac :=
  keeps_with flag_kept_refl flag_kept_trans flag_kept_log
    ltac:(first [ apply flag_kept_save; reflexivity
                | apply flag_kept_logout_session
                | apply flag_kept_register
                | apply flag_kept_passport_authenticate ]).

Section FlagKept.
Context (host : Host) (cfg : Settings) (env : Env).

Lemma flag_kept_sendConfirmEmail (user : User) :
  keeps flag_kept (sendConfirmEmail host cfg env user).
Proof. unfold sendConfirmEmail. flag_kept_tac. Qed.

Lemma flag_kept_sendResetPassword (user : User) :
  keeps flag_kept (sendResetPassword host cfg env user).
Proof. unfold sendResetPassword. flag_kept_tac. Qed.

Lemma flag_kept_login (user : User) : keeps flag_kept (login cfg env user).
Proof. unfold login. flag_kept_tac. Qed.

Lemma flag_kept_logout : keeps flag_kept logout.
Proof. unfold logout. flag_kept_tac. Qed.

Lemma flag_kept_create (body : Body) :
  keeps flag_kept (create host cfg env body).
Proof.
  unfold create. cbv zeta. flag_kept_tac;
    apply flag_kept_sendConfirmEmail.
Qed.

Lemma flag_kept_resetPassword (hex pw : string) :
  keeps flag_kept (resetPassword host cfg env hex pw).
Proof. unfold resetPassword, resetPassword_lookup. flag_kept_tac. Qed.

Lemma flag_kept_resetPasswordRequest (address : string) :
  keeps flag_kept (resetPasswordRequest host cfg env address).
Proof.
  unfold resetPasswordRequest. flag_kept_tac;
    apply flag_kept_sendResetPassword.
Qed.

Lemma flag_kept_confirmEmailRequest (address : string) :
  keeps flag_kept (confirmEmailRequest host cfg env address).
Proof.
  unfold confirmEmailRequest. flag_kept_tac;
    apply flag_kept_sendConfirmEmail.
Qed.

Lemma flag_kept_current (ru : option User) : keeps flag_kept (current cfg ru).
Proof. unfold current. flag_kept_tac. Qed.

Lemma flag_kept_currentIsInRole (ru : option User) (role : string) :
  keeps flag_kept (currentIsInRole ru role).
Proof. unfold currentIsInRole. flag_kept_tac. Qed.

Lemma flag_kept_changePassword (ru : option User) (old new : string) :
  keeps flag_kept (changePassword env ru old new).
Proof. unfold changePassword. flag_kept_tac. Qed.

Lemma flag_grows_confirmEmail (hex : string) :
  keeps flag_grows (confirmEmail host cfg env hex).
Proof.
  unfold confirmEmail, confirmEmail_lookup.
  keeps_with flag_grows_refl flag_grows_trans flag_grows_log
    ltac:(apply flag_grows_confirm).
Qed.

(** Every route but the confirmation keeps the flags. *)
Lemma flag_kept_route (r : Request) :
  (forall hex, r <> PostConfirmEmail hex) ->
  keeps flag_kept (route host cfg env r).
Proof.
  intros Hr. destruct r; simpl.
  - flag_kept_tac; apply flag_kept_login.
  - apply flag_kept_logout.
  - apply flag_kept_create.
  - apply flag_kept_resetPassword.
  - apply flag_kept_resetPasswordRequest.
  - exfalso. eapply Hr. reflexivity.
  - apply flag_kept_confirmEmailRequest.
  - intros w. apply flag_kept_current.
  - intros w. apply flag_kept_currentIsInRole.
  - intros w. apply flag_kept_changePassword.
Qed.

Lemma flag_grows_route (r : Request) :
  keeps flag_grows (route host cfg env r).
Proof.
  destruct r;
    try (intros w; apply flag_kept_grows;
         apply flag_kept_route; discriminate).
  apply flag_grows_confirmEmail.
Qed.
End FlagKept.

(** The one way a flag changes under [confirmEmail]: the token decodes, has
    not expired, names a stored account, and that account's document is the
    one written, with the flag set. *)
Lemma confirmEmail_changes (host : Host) (cfg : Settings) (env : Env)
    (hex : string) (w : World) (id : string) (u u' : User) :
  users w !! id = Some u ->
  users (snd (confirmEmail host cfg env hex w)) !! id = Some u' ->
  isConfirmed u' <> isConfirmed u ->
  isConfirmed u' = true
  /\ exists token v s account,
       decodeToken host (confirmEmailToken (authentication cfg)) hex
       = Returned token
       /\ get_prop token "expiration" = Returned v
       /\ expired host env v = false
       /\ get_prop token "_id" = Returned (Some (JStr s))
       /\ users w !! s = Some account
       /\ _id account = id.
Proof.
  intros Hu Hu' Hne.
  assert (Same : forall w0 : World, users w0 = users w ->
                 users w0 !! id = Some u' -> False).
  { intros w0 E H. rewrite E, Hu in H. injection H as <-. congruence. }
  destruct (decodeToken host (confirmEmailToken (authentication cfg)) hex)
    as [token|e] eqn:Hd.
  2: { rewrite (confirmEmail_undecoded host cfg env hex e w Hd) in Hu'.
       exfalso. eapply Same; [|exact Hu']. reflexivity. }
  destruct (get_prop token "expiration") as [v|e] eqn:Hp.
  2: { exfalso. eapply Same; [|exact Hu'].
       unfold confirmEmail. monad. rewrite Hd, Hp. reflexivity. }
  rewrite (confirmEmail_decoded host cfg env hex token v w Hd Hp) in Hu'.
  destruct (expired host env v) eqn:Hx.
  { exfalso. eapply Same; [|exact Hu']. reflexivity. }
  destruct (get_prop_other token "expiration" "_id" v Hp) as [i Hi].
  revert Hu'. unfold confirmEmail_lookup, findById, save. monad. rewrite Hi.
  destruct (findFault env).
  { intros Hu'. exfalso. eapply Same; [|exact Hu']. reflexivity. }
  assert (Nobody : users (snd (respond (Error "Not Found" 404)
                                 (log (EvFindById i) w))) !! id = Some u' ->
                   False).
  { intros H. eapply Same; [|exact H]. reflexivity. }
  destruct i as [[| | |s| |]|]; try (intros H; exfalso; exact (Nobody H)).
  destruct (users w !! s) as [account|] eqn:Hs;
    [|intros H; exfalso; exact (Nobody H)].
  destruct (saveFault env).
  { intros Hu'. exfalso. eapply Same; [|exact Hu']. reflexivity. }
  simpl. destruct (decide (_id account = id)) as [Hid|Hid].
  - rewrite Hid, lookup_alter_eq, Hu. simpl. intros E. injection E as <-.
    split; [reflexivity|]. exists token, v, s, account.
    repeat split; auto.
  - rewrite lookup_alter_ne by exact Hid. intros H. exfalso.
    eapply Same; [|exact H]. reflexivity.
Qed.

Lemma run_app (host : Host) (cfg : Settings) (rs : list (Env * Request))
    (er : Env * Request) (w : World) :
  run host cfg (rs ++ [er]) w = step host cfg (run host cfg rs w) er.
Proof. unfold run. apply fold_left_app. Qed.

Lemma flag_grows_run (host : Host) (cfg : Settings)
    (rs : list (Env * Request)) (w : World) :
  flag_grows w (run host cfg rs w).
Proof.
  revert w. induction rs as [|[env r] rs IH]; intros w.
  - apply flag_grows_refl.
  - simpl. eapply flag_grows_trans; [|apply IH].
    apply (flag_grows_route host cfg env r w).
Qed.

(** C9. Over every sequence of requests to the ten routes, an account that
    is confirmed stays in the store and stays confirmed.  And a single
    request changes the flag of an account only if it is a confirmation
    whose token decodes, has not expired and names that account; the flag
    is then true. *)
Theorem confirmation_monotone (host : Host) (cfg : Settings) :
  (forall (rs : list (Env * Request)) (w : World) (id : string),
     confirmed w id -> confirmed (run host cfg rs w) id)
  /\ (forall (env : Env) (r : Request) (w : World) (id : string)
             (u u' : User),
        users w !! id = Some u ->
        users (step host cfg w (env, r)) !! id = Some u' ->
        isConfirmed u' <> isConfirmed u ->
        isConfirmed u' = true
        /\ exists hex token v s account,
             r = PostConfirmEmail hex
             /\ decodeToken host (confirmEmailToken (authentication cfg)) hex
                = Returned token
             /\ get_prop token "expiration" = Returned v
             /\ expired host env v = false
             /\ get_prop token "_id" = Returned (Some (JStr s))
             /\ users w !! s = Some account
             /\ _id account = id).
Proof.
  split.
  - intros rs w id (u & Hu & Hc).
    destruct (flag_grows_run host cfg rs w id u Hu) as (u' & Hu' & Hc').
    exists u'. auto.
  - intros env r w id u u' Hu Hu' Hne.
    destruct r;
      try (exfalso;
           match type of Hu' with
           | users (step _ _ _ (_, ?r)) !! _ = _ =>
               destruct (flag_kept_route host cfg env r
                           ltac:(discriminate) w id u Hu) as (d & Hd & E)
           end;
           unfold step in Hu'; simpl fst in Hu'; simpl snd in Hu', Hd;
           rewrite Hd in Hu'; injection Hu' as <-; congruence).
    unfold step in Hu'. simpl in Hu'.
    destruct (confirmEmail_changes host cfg env token w id u u' Hu Hu' Hne)
      as (Ht & tk & v & s & account & H).
    split; [exact Ht|]. exists token, tk, v, s, account. split; [reflexivity|].
    exact H.
Qed.

Lemma confirmation_monotone_witness :
  confirmed (run RefHost.host Fixture.cfg_timed Fixture.visit Fixture.world)
    (_id Fixture.bob).
Proof.
  apply (proj1 (confirmation_monotone RefHost.host Fixture.cfg_timed)).
  exists Fixture.bob. split; vm_compute; reflexivity.
Defined.

(** The visit on the fixture: alice is confirmed by her token, and both she
    and bob are confirmed at the end. *)
Example visit_run :
  isConfirmed <$> users Fixture.world !! _id Fixture.alice = Some false
  /\ isConfirmed <$>
       users (run RefHost.host Fixture.cfg_timed (take 1 Fixture.visit)
                Fixture.world) !! _id Fixture.alice = Some true
  /\ isConfirmed <$>
       users (run RefHost.host Fixture.cfg_timed Fixture.visit Fixture.world)
       !! _id Fixture.alice = Some true
  /\ isConfirmed <$>
       users (run RefHost.host Fixture.cfg_timed Fixture.visit Fixture.world)
       !! _id Fixture.bob = Some true.
Proof. vm_compute. repeat split. Qed.

(** * Further properties of the handlers *)

(** ** What no request changes *)

Lemma same_identity_refl (u : User) : same_identity u u.
Proof. unfold same_identity. auto 10. Qed.

Lemma same_identity_trans (a b c : User) :
  same_identity a b -> same_identity b c -> same_identity a c.
Proof.
  unfold same_identity. intros (?&?&?&?&?&?&?) (?&?&?&?&?&?&?).
  repeat split; congruence.
Qed.

Lemma frozen_refl (w : World) : frozen w w.
Proof. intros id u H. exists u. split; [exact H|apply same_identity_refl]. Qed.

Lemma frozen_trans (a b c : World) : frozen a b -> frozen b c -> frozen a c.
Proof.
  intros Hab Hbc id u H.
  destruct (Hab id u H) as (u1 & H1 & E1).
  destruct (Hbc id u1 H1) as (u2 & H2 & E2).
  exists u2. split; [exact H2|]. eapply same_identity_trans; eassumption.
Qed.

Lemma frozen_same_users (w w' : World) : users w' = users w -> frozen w w'.
Proof.
  intros E id u H. exists u. rewrite E.
  split; [exact H|apply same_identity_refl].
Qed.

Lemma frozen_log (ev : Event) (w : World) :
  is_write ev = false -> frozen w (log ev w).
Proof. intros _. apply frozen_same_users. reflexivity. Qed.

Lemma frozen_save (env : Env) (u : User) (delta : User -> User) :
  (forall d, same_identity d (delta d)) ->
  keeps frozen (save env u delta).
Proof.
  intros Hd w. unfold save. destruct (saveFault env); [apply frozen_refl|].
  intros id d H. simpl.
  destruct (decide (_id u = id)) as [->|Hne].
  - rewrite lookup_alter_eq, H. simpl. eexists. split; [reflexivity|].
    eapply same_identity_trans; [apply Hd|]. unfold same_identity. auto 10.
  - rewrite lookup_alter_ne by exact Hne. exists d.
    split; [exact H|apply same_identity_refl].
Qed.

Lemma frozen_logout_session : keeps frozen logout_session.
Proof. intros w. apply frozen_same_users. reflexivity. Qed.

Lemma frozen_register (env : Env) (a : User) (pw : string) :
  keeps frozen (register env a pw).
Proof.
  intros w.
  destruct (register_run env a pw w) as [[e ->]|[Hnone ->]].
  - apply frozen_same_users. reflexivity.
  - intros id u H. simpl.
    destruct (decide (_id a = id)) as [<-|Hne]; [congruence|].
    rewrite lookup_insert_ne by exact Hne. exists u.
    split; [exact H|apply same_identity_refl].
Qed.

Lemma frozen_passport_authenticate (address pw : string) :
  keeps frozen (passport_authenticate address pw).
Proof.
  intros w. unfold passport_authenticate.
  destruct (lookup_email address (users w)); [|apply frozen_refl].
  destruct (String.eqb pw (credential u));
    apply frozen_same_users; reflexivity.
Qed.

Ltac frozen_tac :=
  keeps_with frozen_refl frozen_trans frozen_log
    ltac:(first [ apply frozen_save; intros ?; unfold same_identity;
                  simpl; auto 10
                | apply frozen_logout_session
                | apply frozen_register
                | apply frozen_passport_authenticate ]).

Lemma frozen_route (host : Host) (cfg : Settings) (env : Env) (r : Request) :
  keeps frozen (route host cfg env r).
Proof.
  destruct r; simpl.
  - unfold login. frozen_tac.
  - unfold logout. frozen_tac.
  - unfold create, sendConfirmEmail. cbv zeta. frozen_tac.
  - unfold resetPassword, resetPassword_lookup. frozen_tac.
  - unfold resetPasswordRequest, sendResetPassword. frozen_tac.
  - unfold confirmEmail, confirmEmail_lookup. frozen_tac.
  - unfold confirmEmailRequest, sendConfirmEmail. frozen_tac.
  - intros w. revert w.
    change (keeps frozen (fun w => current cfg (request_user w) w)).
    intros w. generalize (request_user w). intros ru. revert w.
    change (keeps frozen (current cfg ru)). unfold current. frozen_tac.
  - intros w. generalize (request_user w) at 1. intros ru. revert w.
    change (keeps frozen (currentIsInRole ru role)).
    unfold currentIsInRole. frozen_tac.
  - intros w. generalize (request_user w) at 1. intros ru. revert w.
    change (keeps frozen (changePassword env ru oldPassword newPassword)).
    unfold changePassword. frozen_tac.
Qed.

(** X1. Over every sequence of requests, an account that is in the store
    stays there with the same [_id], address, names, roles, creation stamp
    and grants: nothing is deleted, nothing is revoked, and [_created] is
    never set again. *)
Theorem accounts_frozen (host : Host) (cfg : Settings)
    (rs : list (Env * Request)) (w : World) (id : string) (u : User) :
  users w !! id = Some u ->
  exists u', users (run host cfg rs w) !! id = Some u' /\ same_identity u u'.
Proof.
  revert w u. induction rs as [|[env r] rs IH]; intros w u H.
  - exists u. split; [exact H|apply same_identity_refl].
  - simpl.
    destruct (frozen_route host cfg env r w id u H) as (u1 & H1 & E1).
    destruct (IH _ u1 H1) as (u2 & H2 & E2).
    exists u2. split; [exact H2|]. eapply same_identity_trans; eassumption.
Qed.

Lemma accounts_frozen_witness :
  exists u',
    users (run RefHost.host Fixture.cfg_timed Fixture.visit Fixture.world)
      !! _id Fixture.alice = Some u'
    /\ same_identity Fixture.alice u'.
Proof.
  apply (accounts_frozen RefHost.host Fixture.cfg_timed Fixture.visit
           Fixture.world (_id Fixture.alice) Fixture.alice).
  vm_compute. reflexivity.
Defined.

(** ** The store stays well keyed, with one account per address *)

Lemma lookup_email_Some (address : string) (m : gmap string User) (u : User) :
  lookup_email address m = Some u ->
  email u = address /\ exists k, m !! k = Some u.
Proof.
  unfold lookup_email. intros H.
  destruct (list_find (has_email address) (map_to_list m).*2)
    as [[i x]|] eqn:E; [|discriminate].
  simpl in H. injection H as ->.
  apply list_find_Some in E. destruct E as (Hi & He & _).
  split; [exact He|].
  apply list_elem_of_lookup_2 in Hi. apply list_elem_of_fmap in Hi.
  destruct Hi as ([k d] & -> & Hin). exists k.
  apply elem_of_map_to_list in Hin. exact Hin.
Qed.

Lemma lookup_email_None (address : string) (m : gmap string User) :
  lookup_email address m = None ->
  forall k u, m !! k = Some u -> email u <> address.
Proof.
  unfold lookup_email. intros H k u Hk.
  destruct (list_find (has_email address) (map_to_list m).*2) eqn:E;
    [discriminate|].
  apply list_find_None in E. rewrite Forall_forall in E.
  apply (E u). apply list_elem_of_fmap. exists (k, u).
  split; [reflexivity|]. apply elem_of_map_to_list. exact Hk.
Qed.

Lemma store_ok_backward (w w' : World) :
  (forall j u', users w' !! j = Some u' ->
     exists u, users w !! j = Some u /\ _id u' = _id u /\ email u' = email u) ->
  store_ok w -> store_ok w'.
Proof.
  intros B [Hk He]. split.
  - intros k u' H. destruct (B k u' H) as (u & Hu & Hi & _).
    rewrite Hi. apply (Hk k u Hu).
  - intros k1 k2 u1 u2 H1 H2 E.
    destruct (B k1 u1 H1) as (d1 & Hd1 & _ & E1).
    destruct (B k2 u2 H2) as (d2 & Hd2 & _ & E2).
    apply (He k1 k2 d1 d2 Hd1 Hd2). congruence.
Qed.

Lemma store_ok_insert (w w' : World) (doc : User) :
  users w' = <[_id doc := doc]> (users w) ->
  users w !! _id doc = None ->
  (forall k u, users w !! k = Some u -> email u <> email doc) ->
  store_ok w -> store_ok w'.
Proof.
  intros Hw Hnew Hfree [Hk He]. split.
  - intros k u. rewrite Hw. intros H.
    apply lookup_insert_Some in H. destruct H as [[<- <-]|[_ H]].
    + reflexivity.
    + apply (Hk k u H).
  - intros k1 k2 u1 u2. rewrite Hw. intros H1 H2 E.
    apply lookup_insert_Some in H1. apply lookup_insert_Some in H2.
    destruct H1 as [[<- <-]|[N1 H1]]; destruct H2 as [[<- <-]|[N2 H2]].
    + reflexivity.
    + exfalso. apply (Hfree k2 u2 H2). congruence.
    + exfalso. apply (Hfree k1 u1 H1). congruence.
    + apply (He k1 k2 u1 u2 H1 H2 E).
Qed.

Lemma store_stays_ok_refl (w : World) : store_stays_ok w w.
Proof. intros H. exact H. Qed.

Lemma store_stays_ok_trans (a b c : World) :
  store_stays_ok a b -> store_stays_ok b c -> store_stays_ok a c.
Proof. unfold store_stays_ok. auto. Qed.

Lemma store_stays_ok_same_users (w w' : World) :
  users w' = users w -> store_stays_ok w w'.
Proof.
  intros E. unfold store_stays_ok. apply store_ok_backward.
  intros j u' H. exists u'. rewrite <- E. auto.
Qed.

Lemma store_stays_ok_log (ev : Event) (w : World) :
  is_write ev = false -> store_stays_ok w (log ev w).
Proof. intros _. apply store_stays_ok_same_users. reflexivity. Qed.

Lemma store_stays_ok_save (env : Env) (u : User) (delta : User -> User) :
  (forall d, _id (delta d) = _id d /\ email (delta d) = email d) ->
  keeps store_stays_ok (save env u delta).
Proof.
  intros Hd w. unfold save.
  destruct (saveFault env); [apply store_stays_ok_refl|].
  unfold store_stays_ok. apply store_ok_backward. intros j u'. simpl.
  destruct (decide (_id u = j)) as [->|Hne].
  - rewrite lookup_alter_eq. destruct (users w !! j) as [d|]; [|discriminate].
    simpl. intros E. injection E as <-. exists d.
    split; [reflexivity|]. simpl. apply Hd.
  - rewrite lookup_alter_ne by exact Hne. intros H. exists u'. auto.
Qed.

(** What [register] does to the store: nothing, or the insertion of a
    document for a free address under a free [_id]. *)
Lemma register_inserts (env : Env) (a : User) (pw : string) (w : World) :
  users (snd (register env a pw w)) = users w
  \/ (lookup_email (email a) (users w) = None
      /\ users w !! _id a = None
      /\ exists doc,
           users (snd (register env a pw w)) = <[_id doc := doc]> (users w)
           /\ _id doc = _id a /\ email doc = email a).
Proof.
  unfold register, findOne, setPassword. monad.
  destruct (findFault env); [left; reflexivity|].
  destruct (lookup_email (email a) (users w)) eqn:El; [left; reflexivity|].
  destruct (String.eqb pw ""); [left; reflexivity|].
  destruct (hashFault env); [left; reflexivity|].
  destruct (saveFault env); [left; reflexivity|]. simpl.
  destruct (users w !! _id a) eqn:E; [left; reflexivity|].
  right. split; [reflexivity|]. split; [reflexivity|].
  exists (set_modified (Some (now env))
            (set_created (Some (now env)) (set_credential pw a))).
  split; [reflexivity|]. split; reflexivity.
Qed.

Lemma store_stays_ok_register (env : Env) (a : User) (pw : string) :
  keeps store_stays_ok (register env a pw).
Proof.
  intros w.
  destruct (register_inserts env a pw w)
    as [E|(Hfree & Hnew & doc & E & Hi & He)].
  - apply store_stays_ok_same_users. exact E.
  - unfold store_stays_ok. apply (store_ok_insert w _ doc E).
    + rewrite Hi. exact Hnew.
    + rewrite He. apply lookup_email_None. exact Hfree.
Qed.

Lemma store_stays_ok_logout_session : keeps store_stays_ok logout_session.
Proof. intros w. apply store_stays_ok_same_users. reflexivity. Qed.

Lemma store_stays_ok_passport_authenticate (address pw : string) :
  keeps store_stays_ok (passport_authenticate address pw).
Proof.
  intros w. unfold passport_authenticate.
  destruct (lookup_email address (users w)); [|apply store_stays_ok_refl].
  destruct (String.eqb pw (credential u));
    apply store_stays_ok_same_users; reflexivity.
Qed.

Ltac store_ok_tac :=
  keeps_with store_stays_ok_refl store_stays_ok_trans store_stays_ok_log
    ltac:(first [ apply store_stays_ok_save; intros ?; split; reflexivity
                | apply store_stays_ok_logout_session
                | apply store_stays_ok_register
                | apply store_stays_ok_passport_authenticate ]).

Lemma store_stays_ok_route (host : Host) (cfg : Settings) (env : Env)
    (r : Request) :
  keeps store_stays_ok (route host cfg env r).
Proof.
  destruct r; simpl.
  - unfold login. store_ok_tac.
  - unfold logout. store_ok_tac.
  - unfold create, sendConfirmEmail. cbv zeta. store_ok_tac.
  - unfold resetPassword, resetPassword_lookup. store_ok_tac.
  - unfold resetPasswordRequest, sendResetPassword. store_ok_tac.
  - unfold confirmEmail, confirmEmail_lookup. store_ok_tac.
  - unfold confirmEmailRequest, sendConfirmEmail. store_ok_tac.
  - intros w. generalize (request_user w) at 1. intros ru. revert w.
    change (keeps store_stays_ok (current cfg ru)).
    unfold current. store_ok_tac.
  - intros w. generalize (request_user w) at 1. intros ru. revert w.
    change (keeps store_stays_ok (currentIsInRole ru role)).
    unfold currentIsInRole. store_ok_tac.
  - intros w. generalize (request_user w) at 1. intros ru. revert w.
    change (keeps store_stays_ok
              (changePassword env ru oldPassword newPassword)).
    unfold changePassword. store_ok_tac.
Qed.

(** X2. A store that is keyed by the documents' own [_id] and holds at most
    one account per address stays so over every sequence of requests: a
    registration never adds a second account for an address in use, and no
    handler changes an [_id] or an address. *)
Theorem store_ok_run (host : Host) (cfg : Settings)
    (rs : list (Env * Request)) (w : World) :
  store_ok w -> store_ok (run host cfg rs w).
Proof.
  revert w. induction rs as [|[env r] rs IH]; intros w H.
  - exact H.
  - simpl. apply IH. apply (store_stays_ok_route host cfg env r w H).
Qed.

Lemma fixture_store_ok : store_ok Fixture.world.
Proof.
  pose (w0 := {| users := ∅; session := None; trace := [] |}).
  pose (w1 := with_users (<[_id Fixture.carol := Fixture.carol]> (users w0)) w0).
  pose (w2 := with_users (<[_id Fixture.bob := Fixture.bob]> (users w1)) w1).
  assert (H0 : store_ok w0).
  { split; simpl; intros *; rewrite lookup_empty; discriminate. }
  assert (H1 : store_ok w1).
  { apply (store_ok_insert w0 w1 Fixture.carol eq_refl); [reflexivity| |exact H0].
    simpl. intros k u. rewrite lookup_empty. discriminate. }
  assert (H2 : store_ok w2).
  { apply (store_ok_insert w1 w2 Fixture.bob eq_refl); [reflexivity| |exact H1].
    simpl. intros k u H. apply lookup_insert_Some in H.
    destruct H as [[_ <-]|[_ H]]; [discriminate|].
    rewrite lookup_empty in H. discriminate. }
  apply (store_ok_insert w2 Fixture.world Fixture.alice eq_refl);
    [reflexivity| |exact H2].
  simpl. intros k u H. apply lookup_insert_Some in H.
  destruct H as [[_ <-]|[_ H]]; [discriminate|].
  apply lookup_insert_Some in H.
  destruct H as [[_ <-]|[_ H]]; [discriminate|].
  rewrite lookup_empty in H. discriminate.
Qed.

Lemma store_ok_run_witness :
  store_ok (run RefHost.host Fixture.cfg_timed Fixture.visit Fixture.world).
Proof.
  apply (store_ok_run RefHost.host Fixture.cfg_timed Fixture.visit
           Fixture.world).
  exact fixture_store_ok.
Defined.

(** ** One response for each request *)

Lemma unanswered_refl (w : World) : unanswered w w.
Proof. exists []. split; [symmetry; apply app_nil_r|reflexivity]. Qed.

Lemma unanswered_trans (a b c : World) :
  unanswered a b -> unanswered b c -> unanswered a c.
Proof.
  intros (x & Hx & Nx) (y & Hy & Ny). exists (x ++ y). split.
  - rewrite Hy, Hx. symmetry. apply app_assoc.
  - rewrite existsb_app, Nx, Ny. reflexivity.
Qed.

Lemma unanswered_log (ev : Event) (w : World) :
  is_response ev = false -> unanswered w (log ev w).
Proof.
  intros H. exists [ev]. split; [reflexivity|]. simpl. rewrite H. reflexivity.
Qed.

Lemma unanswered_same_trace (w w' : World) :
  trace w' = trace w -> unanswered w w'.
Proof.
  intros E. exists []. split; [rewrite E; symmetry; apply app_nil_r|].
  reflexivity.
Qed.

Lemma unanswered_findById (env : Env) (id : jsval) :
  keeps unanswered (findById env id).
Proof.
  intros w. unfold findById.
  destruct (findFault env); [apply unanswered_log; reflexivity|].
  destruct id as [[]|]; apply unanswered_log; reflexivity.
Qed.

Lemma unanswered_findOne (env : Env) (address : string) :
  keeps unanswered (findOne env address).
Proof.
  intros w. unfold findOne.
  destruct (findFault env); apply unanswered_log; reflexivity.
Qed.

Lemma unanswered_save (env : Env) (u : User) (delta : User -> User) :
  keeps unanswered (save env u delta).
Proof.
  intros w. unfold save. destruct (saveFault env); [apply unanswered_refl|].
  eexists. split; reflexivity.
Qed.

Lemma unanswered_mail_send (env : Env) (m : MailMessage) :
  keeps unanswered (mail_send env m).
Proof. intros w. apply unanswered_log. reflexivity. Qed.

Lemma unanswered_logout_session : keeps unanswered logout_session.
Proof. intros w. eexists. split; reflexivity. Qed.

Lemma unanswered_register (env : Env) (a : User) (pw : string) :
  keeps unanswered (register env a pw).
Proof.
  intros w.
  destruct (register_run env a pw w) as [[e ->]|[_ ->]].
  - apply unanswered_log. reflexivity.
  - exists [EvFindOne (email a);
            EvInsert (set_modified (Some (now env))
                        (set_created (Some (now env)) (set_credential pw a)))].
    split; [|reflexivity]. simpl. rewrite <- app_assoc. reflexivity.
Qed.

Lemma unanswered_passport_authenticate (address pw : string) :
  keeps unanswered (passport_authenticate address pw).
Proof.
  intros w. unfold passport_authenticate.
  destruct (lookup_email address (users w)); [|apply unanswered_refl].
  destruct (String.eqb pw (credential u));
    apply unanswered_same_trace; reflexivity.
Qed.

Ltac unanswered_tac :=
  repeat first
    [ apply (keeps_ret _ unanswered_refl)
    | apply (keeps_throw _ unanswered_refl)
    | apply (keeps_lift _ unanswered_refl)
    | apply (keeps_setPassword _ unanswered_refl)
    | apply (keeps_authenticate _ unanswered_refl)
    | apply unanswered_findById
    | apply unanswered_findOne
    | apply unanswered_save
    | apply unanswered_mail_send
    | apply unanswered_logout_session
    | apply unanswered_register
    | apply unanswered_passport_authenticate
    | apply (keeps_bind _ unanswered_trans); [|intros ?]
    | match goal with
      | |- keeps _ (match ?x with _ => _ end) => destruct x
      end ].

Lemma unanswered_sendConfirmEmail (host : Host) (cfg : Settings) (env : Env)
    (user : User) :
  keeps unanswered (sendConfirmEmail host cfg env user).
Proof. unfold sendConfirmEmail. unanswered_tac. Qed.

Lemma unanswered_sendResetPassword (host : Host) (cfg : Settings) (env : Env)
    (user : User) :
  keeps unanswered (sendResetPassword host cfg env user).
Proof. unfold sendResetPassword. unanswered_tac. Qed.

Lemma answers_once_respond (r : Response) : answers_once (respond r).
Proof.
  intros w. exists [EvRespond r]. split; [reflexivity|]. simpl.
  exists [], r. split; reflexivity.
Qed.

Lemma answers_once_throw (e : Exn) : answers_once (@throw unit e).
Proof.
  intros w. exists []. split; [symmetry; apply app_nil_r|reflexivity].
Qed.

Lemma answers_once_bind {A B : Type} (m : M A) (k : A -> M B) :
  keeps unanswered m -> (forall a, answers_once (k a)) ->
  answers_once (bind m k).
Proof.
  intros Hm Hk w. unfold bind. specialize (Hm w).
  destruct (m w) as [[a|e] w1]; simpl in Hm.
  - destruct Hm as (x & Hx & Nx). destruct (Hk a w1) as (y & Hy & Hlast).
    exists (x ++ y). split; [rewrite Hy, Hx; symmetry; apply app_assoc|].
    destruct (fst (k a w1)).
    + destruct Hlast as (before & r & -> & Nb). exists (x ++ before), r.
      split; [apply app_assoc|]. rewrite existsb_app, Nx, Nb. reflexivity.
    + rewrite existsb_app, Nx, Hlast. reflexivity.
  - simpl. destruct Hm as (x & Hx & Nx). exists x. auto.
Qed.

Ltac answers_tac :=
  repeat first
    [ apply answers_once_respond
    | apply answers_once_throw
    | apply answers_once_bind;
      [ first [ apply unanswered_sendConfirmEmail
              | apply unanswered_sendResetPassword
              | solve [unanswered_tac] ]
      | intros ? ]
    | match goal with
      | |- answers_once (match ?x with _ => _ end) => destruct x
      end ].

Lemma answers_once_route (host : Host) (cfg : Settings) (env : Env)
    (r : Request) :
  answers_once (route host cfg env r).
Proof.
  destruct r; simpl.
  - unfold login. answers_tac.
  - unfold logout. answers_tac.
  - unfold create. cbv zeta. answers_tac.
  - unfold resetPassword, resetPassword_lookup. answers_tac.
  - unfold resetPasswordRequest. answers_tac.
  - unfold confirmEmail, confirmEmail_lookup. answers_tac.
  - unfold confirmEmailRequest. answers_tac.
  - intros w. generalize (request_user w) at 1 2. intros ru. revert w.
    change (answers_once (current cfg ru)). unfold current. answers_tac.
  - intros w. generalize (request_user w) at 1 2. intros ru. revert w.
    change (answers_once (currentIsInRole ru role)).
    unfold currentIsInRole. answers_tac.
  - intros w. generalize (request_user w) at 1 2. intros ru. revert w.
    change (answers_once (changePassword env ru oldPassword newPassword)).
    unfold changePassword. answers_tac.
Qed.

(** X3. Every request to every route is answered at most once: when the
    handler returns, the events it added end with a response and hold no
    other one; when it throws, they hold none. *)
Theorem one_response_per_request (host : Host) (cfg : Settings) (env : Env)
    (r : Request) (w : World) :
  exists evs,
    trace (snd (route host cfg env r w)) = trace w ++ evs
    /\ match fst (route host cfg env r w) with
       | Returned _ =>
           exists before resp,
             evs = before ++ [EvRespond resp]
             /\ existsb is_response before = false
       | Threw _ => existsb is_response evs = false
       end.
Proof. apply answers_once_route. Qed.

(** ** Tokens that are not what the handlers mint *)

(** X4. A token that decodes but whose expiration is missing, or does not
    read as a date, is not taken as expired: at any time both handlers go
    on to look the account of its [_id] up. *)
Theorem token_without_date_never_expires (host : Host) (cfg : Settings)
    (env : Env) (hex : string) (token : json) (v id : jsval) :
  get_prop token "expiration" = Returned v ->
  newDate host v = None ->
  get_prop token "_id" = Returned id ->
  (decodeToken host (resetPasswordToken (authentication cfg)) hex
   = Returned token ->
   forall pw w,
     resetPassword host cfg env hex pw w = resetPassword_lookup env token pw w
     /\ looks_up id (resetPassword host cfg env hex pw) w) /\
  (decodeToken host (confirmEmailToken (authentication cfg)) hex
   = Returned token ->
   forall w,
     confirmEmail host cfg env hex w = confirmEmail_lookup env token w
     /\ looks_up id (confirmEmail host cfg env hex) w).
Proof.
  intros Hp Hn Hid.
  assert (Hx : expired host env v = false).
  { unfold expired. rewrite Hn. reflexivity. }
  split.
  - intros Hd pw w.
    pose proof (resetPassword_decoded host cfg env hex pw token v w Hd Hp) as E.
    rewrite Hx in E. split; [exact E|]. unfold looks_up. rewrite E.
    apply resetPassword_lookup_starts. exact Hid.
  - intros Hd w.
    pose proof (confirmEmail_decoded host cfg env hex token v w Hd Hp) as E.
    rewrite Hx in E. split; [exact E|]. unfold looks_up. rewrite E.
    apply confirmEmail_lookup_starts. exact Hid.
Qed.

(** On the fixture: the token without expiration resets alice's password
    long after every minted token has expired. *)
Lemma token_without_date_never_expires_witness :
  resetPassword RefHost.host Fixture.cfg (Fixture.at_time 99999999999999)
    Scenario.timeless_token "chosen by the bearer" Fixture.world
  = resetPassword_lookup (Fixture.at_time 99999999999999)
      (JObj [("_id", JStr (_id Fixture.alice))]) "chosen by the bearer"
      Fixture.world
  /\ looks_up (Some (JStr (_id Fixture.alice)))
       (resetPassword RefHost.host Fixture.cfg
          (Fixture.at_time 99999999999999) Scenario.timeless_token
          "chosen by the bearer") Fixture.world.
Proof.
  apply (proj1 (token_without_date_never_expires RefHost.host Fixture.cfg
                  (Fixture.at_time 99999999999999) Scenario.timeless_token
                  (JObj [("_id", JStr (_id Fixture.alice))]) None
                  (Some (JStr (_id Fixture.alice)))
                  eq_refl eq_refl eq_refl)).
  vm_compute. reflexivity.
Defined.

(** ** Resetting a password and confirming an address *)

Lemma resetPassword_lookup_found (env : Env) (token : json) (pw id : string)
    (account : User) (w : World) :
  get_prop token "_id" = Returned (Some (JStr id)) ->
  users w !! id = Some account ->
  no_fault env ->
  pw <> "" ->
  resetPassword_lookup env token pw w
  = (Returned tt, found_and_saved env id account (set_credential pw) w).
Proof.
  intros Hid Hu (Hf & Hs & Hh & _) Hpw.
  unfold resetPassword_lookup, findById, setPassword, save. monad.
  rewrite Hid, Hf, Hu.
  destruct (String.eqb_spec pw "") as [E|_]; [contradiction|].
  rewrite Hh, Hs. reflexivity.
Qed.

Lemma confirmEmail_lookup_found (env : Env) (token : json) (id : string)
    (account : User) (w : World) :
  get_prop token "_id" = Returned (Some (JStr id)) ->
  users w !! id = Some account ->
  no_fault env ->
  confirmEmail_lookup env token w
  = (Returned tt, found_and_saved env id account (set_isConfirmed true) w).
Proof.
  intros Hid Hu (Hf & Hs & _ & _).
  unfold confirmEmail_lookup, findById, save. monad.
  rewrite Hid, Hf, Hu, Hs. reflexivity.
Qed.

Lemma found_and_saved_account (env : Env) (id : string) (account : User)
    (delta : User -> User) (w : World) :
  users w !! id = Some account ->
  _id account = id ->
  users (found_and_saved env id account delta w) !! id
  = Some (set_modified (Some (now env)) (delta account))
  /\ (forall k, k <> id ->
        users (found_and_saved env id account delta w) !! k = users w !! k)
  /\ session (found_and_saved env id account delta w) = session w.
Proof.
  intros Hu Hid. unfold found_and_saved. simpl. rewrite Hid.
  split; [rewrite lookup_alter_eq, Hu; reflexivity|].
  split; [|reflexivity].
  intros k Hk. apply lookup_alter_ne. congruence.
Qed.

Lemma found_and_saved_response (env : Env) (id : string) (account : User)
    (delta : User -> User) (w : World) :
  last (trace (found_and_saved env id account delta w))
  = Some (EvRespond (Result (PBool true))).
Proof. unfold found_and_saved. simpl. apply last_snoc. Qed.

(** A reset with a token that decodes, has not expired and names a stored
    account, with no collaborator failing. *)
Lemma resetPassword_succeeds (host : Host) (cfg : Settings) (env : Env)
    (hex pw id : string) (token : json) (v : jsval) (e : Z) (account : User)
    (w : World) :
  decodeToken host (resetPasswordToken (authentication cfg)) hex
  = Returned token ->
  get_prop token "expiration" = Returned v ->
  newDate host v = Some e ->
  now env < e ->
  get_prop token "_id" = Returned (Some (JStr id)) ->
  users w !! id = Some account ->
  no_fault env ->
  pw <> "" ->
  resetPassword host cfg env hex pw w
  = (Returned tt, found_and_saved env id account (set_credential pw) w).
Proof.
  intros Hd Hp He Hn Hid Hu Hf Hpw.
  rewrite (resetPassword_decoded host cfg env hex pw token v w Hd Hp).
  rewrite (expired_spec host env v e He).
  apply Z.leb_gt in Hn. rewrite Hn.
  apply resetPassword_lookup_found; assumption.
Qed.

Lemma confirmEmail_succeeds (host : Host) (cfg : Settings) (env : Env)
    (hex id : string) (token : json) (v : jsval) (e : Z) (account : User)
    (w : World) :
  decodeToken host (confirmEmailToken (authentication cfg)) hex
  = Returned token ->
  get_prop token "expiration" = Returned v ->
  newDate host v = Some e ->
  now env < e ->
  get_prop token "_id" = Returned (Some (JStr id)) ->
  users w !! id = Some account ->
  no_fault env ->
  confirmEmail host cfg env hex w
  = (Returned tt, found_and_saved env id account (set_isConfirmed true) w).
Proof.
  intros Hd Hp He Hn Hid Hu Hf.
  rewrite (confirmEmail_decoded host cfg env hex token v w Hd Hp).
  rewrite (expired_spec host env v e He).
  apply Z.leb_gt in Hn. rewrite Hn.
  apply confirmEmail_lookup_found; assumption.
Qed.

Lemma authenticate_answer (env : Env) (d : User) (guess : string)
    (w : World) :
  hashFault env = None ->
  authenticate env d guess w
  = (Returned (None, if String.eqb guess (credential d) then Some d else None),
     w).
Proof.
  intros H. unfold authenticate. rewrite H.
  destruct (String.eqb guess (credential d)); reflexivity.
Qed.

(** X5. A reset with an unexpired token for a stored account, no
    collaborator failing and the new password not empty, is answered
    [true]; the account then carries the new credential and is otherwise
    as it was (its confirmation flag included), every other account is
    untouched, the session stays, and from then on the credential check
    accepts the new password and no other. *)
Theorem reset_password_takes_effect (host : Host) (cfg : Settings)
    (env : Env) (hex pw id : string) (token : json) (v : jsval) (e : Z)
    (account : User) (w : World) :
  decodeToken host (resetPasswordToken (authentication cfg)) hex
  = Returned token ->
  get_prop token "expiration" = Returned v ->
  newDate host v = Some e ->
  now env < e ->
  get_prop token "_id" = Returned (Some (JStr id)) ->
  users w !! id = Some account ->
  _id account = id ->
  no_fault env ->
  pw <> "" ->
  response_of (resetPassword host cfg env hex pw w)
  = Some (Result (PBool true))
  /\ session (snd (resetPassword host cfg env hex pw w)) = session w
  /\ (forall k, k <> id ->
        users (snd (resetPassword host cfg env hex pw w)) !! k
        = users w !! k)
  /\ exists d,
       users (snd (resetPassword host cfg env hex pw w)) !! id = Some d
       /\ credential d = pw
       /\ isConfirmed d = isConfirmed account
       /\ same_identity account d
       /\ forall env' guess w',
            hashFault env' = None ->
            (authenticate env' d guess w' = (Returned (None, Some d), w')
             <-> guess = pw).
Proof.
  intros Hd Hp He Hn Hid Hu Hi Hf Hpw.
  rewrite (resetPassword_succeeds host cfg env hex pw id token v e account w
             Hd Hp He Hn Hid Hu Hf Hpw).
  destruct (found_and_saved_account env id account (set_credential pw) w Hu Hi)
    as (Hacc & Hother & Hsess).
  split.
  { unfold response_of. cbn [fst snd].
    rewrite found_and_saved_response. reflexivity. }
  split; [exact Hsess|]. split; [exact Hother|].
  eexists. split; [exact Hacc|]. split; [reflexivity|].
  split; [reflexivity|]. split; [unfold same_identity; simpl; auto 10|].
  intros env' guess w' Hh. rewrite (authenticate_answer env' _ guess w' Hh).
  simpl. destruct (String.eqb_spec guess pw) as [->|Hne].
  - split; reflexivity.
  - split; [intros E; discriminate E|intros E; contradiction].
Qed.

Lemma fixture_no_fault (t : Z) : no_fault (Fixture.at_time t).
Proof. repeat split. Qed.

Lemma reset_password_takes_effect_witness :
  response_of (resetPassword RefHost.host Fixture.cfg (Fixture.at_time 6000)
                 Fixture.reset_token "new password" Fixture.world)
  = Some (Result (PBool true)).
Proof.
  apply (reset_password_takes_effect RefHost.host Fixture.cfg
           (Fixture.at_time 6000) Fixture.reset_token "new password"
           (_id Fixture.alice)
           (payload RefHost.host (_id Fixture.alice) (Some 3605000))
           (Some (JStr "1970-01-01T01:00:05.000Z")) 3605000
           Fixture.alice Fixture.world).
  - vm_compute. reflexivity.
  - reflexivity.
  - vm_compute. reflexivity.
  - vm_compute. reflexivity.
  - reflexivity.
  - vm_compute. reflexivity.
  - reflexivity.
  - apply fixture_no_fault.
  - discriminate.
Defined.

(** X6. A token is not used up: after a reset that succeeded, the same
    token, presented again before it expires, resets the password once
    more. *)
Theorem reset_token_reusable (host : Host) (cfg : Settings)
    (first second : Env) (hex pw1 pw2 id : string) (token : json)
    (v : jsval) (e : Z) (account : User) (w : World) :
  decodeToken host (resetPasswordToken (authentication cfg)) hex
  = Returned token ->
  get_prop token "expiration" = Returned v ->
  newDate host v = Some e ->
  now first < e ->
  now second < e ->
  get_prop token "_id" = Returned (Some (JStr id)) ->
  users w !! id = Some account ->
  _id account = id ->
  no_fault first ->
  no_fault second ->
  pw1 <> "" ->
  pw2 <> "" ->
  response_of (resetPassword host cfg first hex pw1 w)
  = Some (Result (PBool true))
  /\ response_of
       (resetPassword host cfg second hex pw2
          (snd (resetPassword host cfg first hex pw1 w)))
     = Some (Result (PBool true))
  /\ credential <$>
       users (snd (resetPassword host cfg second hex pw2
                     (snd (resetPassword host cfg first hex pw1 w)))) !! id
     = Some pw2.
Proof.
  intros Hd Hp He Hn1 Hn2 Hid Hu Hi Hf1 Hf2 Hpw1 Hpw2.
  rewrite (resetPassword_succeeds host cfg first hex pw1 id token v e account w
             Hd Hp He Hn1 Hid Hu Hf1 Hpw1).
  cbn [snd].
  destruct (found_and_saved_account first id account (set_credential pw1) w
              Hu Hi) as (Hacc & _ & _).
  set (w1 := found_and_saved first id account (set_credential pw1) w) in *.
  set (d1 := set_modified (Some (now first)) (set_credential pw1 account))
    in *.
  rewrite (resetPassword_succeeds host cfg second hex pw2 id token v e d1 w1
             Hd Hp He Hn2 Hid Hacc Hf2 Hpw2).
  destruct (found_and_saved_account second id d1 (set_credential pw2) w1
              Hacc Hi) as (Hacc2 & _ & _).
  unfold response_of. cbn [fst snd].
  split; [unfold w1; rewrite found_and_saved_response; reflexivity|].
  split; [rewrite found_and_saved_response; reflexivity|].
  rewrite Hacc2. reflexivity.
Qed.

Lemma reset_token_reusable_witness :
  credential <$>
    users (snd (resetPassword RefHost.host Fixture.cfg (Fixture.at_time 7000)
                  Fixture.reset_token "second password"
                  (snd (resetPassword RefHost.host Fixture.cfg
                          (Fixture.at_time 6000) Fixture.reset_token
                          "first password" Fixture.world))))
    !! _id Fixture.alice
  = Some "second password".
Proof.
  apply (reset_token_reusable RefHost.host Fixture.cfg
           (Fixture.at_time 6000) (Fixture.at_time 7000)
           Fixture.reset_token "first password" "second password"
           (_id Fixture.alice)
           (payload RefHost.host (_id Fixture.alice) (Some 3605000))
           (Some (JStr "1970-01-01T01:00:05.000Z")) 3605000
           Fixture.alice Fixture.world).
  - vm_compute. reflexivity.
  - reflexivity.
  - vm_compute. reflexivity.
  - vm_compute. reflexivity.
  - vm_compute. reflexivity.
  - reflexivity.
  - vm_compute. reflexivity.
  - reflexivity.
  - apply fixture_no_fault.
  - apply fixture_no_fault.
  - discriminate.
  - discriminate.
Defined.

(** ** The login gate, open *)

Lemma login_open (cfg : Settings) (env : Env) (user : User) (w : World) :
  confirmEmailEnabled cfg = false \/ isConfirmed user = true ->
  login cfg env user w = (Returned tt, logged_in cfg env user w).
Proof.
  intros H. apply login_passes. unfold emailConfirmed.
  destruct H as [-> | ->]; [reflexivity|].
  destruct (confirmEmailEnabled cfg); [|reflexivity].
  destruct (_created user); reflexivity.
Qed.

(** X7. The gate of login is open, at any time after the creation, when
    email confirmation is not enabled or the account is confirmed: the
    login is answered with the owner-filtered, stamped account and the
    session is kept. *)
Theorem login_gate_open (cfg : Settings) (env : Env) (user : User)
    (w : World) :
  confirmEmailEnabled cfg = false \/ isConfirmed user = true ->
  login cfg env user w = (Returned tt, logged_in cfg env user w)
  /\ response_of (login cfg env user w)
     = Some (Result (PUser (readFilter cfg "owner"
               (set_lastLogin (Some (now env)) user))))
  /\ session (snd (login cfg env user w)) = session w.
Proof.
  intros H. rewrite (login_open cfg env user w H).
  destruct (logged_in_spec cfg env user w) as (Hr & Hs & _).
  split; [reflexivity|]. unfold response_of. cbn [fst snd]. rewrite Hr. auto.
Qed.

Lemma login_gate_open_witness :
  login Scenario.cfg_plain (Fixture.at_time 999999999999) Fixture.alice
    Fixture.world
  = (Returned tt,
     logged_in Scenario.cfg_plain (Fixture.at_time 999999999999)
       Fixture.alice Fixture.world).
Proof.
  apply (login_gate_open Scenario.cfg_plain (Fixture.at_time 999999999999)
           Fixture.alice Fixture.world).
  left. reflexivity.
Defined.

(** X8. After a confirmation with an unexpired token for a stored account,
    no collaborator failing, the account is confirmed and nothing else about
    it or about any other account changes; from then on its login passes
    the gate under every configuration and at every time. *)
Theorem confirm_then_login (host : Host) (cfg : Settings) (env : Env)
    (hex id : string) (token : json) (v : jsval) (e : Z) (account : User)
    (w : World) :
  decodeToken host (confirmEmailToken (authentication cfg)) hex
  = Returned token ->
  get_prop token "expiration" = Returned v ->
  newDate host v = Some e ->
  now env < e ->
  get_prop token "_id" = Returned (Some (JStr id)) ->
  users w !! id = Some account ->
  _id account = id ->
  no_fault env ->
  response_of (confirmEmail host cfg env hex w) = Some (Result (PBool true))
  /\ (forall k, k <> id ->
        users (snd (confirmEmail host cfg env hex w)) !! k = users w !! k)
  /\ exists d,
       users (snd (confirmEmail host cfg env hex w)) !! id = Some d
       /\ isConfirmed d = true
       /\ credential d = credential account
       /\ same_identity account d
       /\ forall cfg' env' w',
            login cfg' env' d w' = (Returned tt, logged_in cfg' env' d w').
Proof.
  intros Hd Hp He Hn Hid Hu Hi Hf.
  rewrite (confirmEmail_succeeds host cfg env hex id token v e account w
             Hd Hp He Hn Hid Hu Hf).
  destruct (found_and_saved_account env id account (set_isConfirmed true) w
              Hu Hi) as (Hacc & Hother & _).
  split.
  { unfold response_of. cbn [fst snd].
    rewrite found_and_saved_response. reflexivity. }
  split; [exact Hother|].
  eexists. split; [exact Hacc|]. split; [reflexivity|].
  split; [reflexivity|]. split; [unfold same_identity; simpl; auto 10|].
  intros cfg' env' w'. apply login_open. right. reflexivity.
Qed.

Lemma confirm_then_login_witness :
  response_of (confirmEmail RefHost.host Fixture.cfg_timed
                 (Fixture.at_time 6000) Fixture.confirm_token_timed
                 Fixture.world)
  = Some (Result (PBool true)).
Proof.
  apply (confirm_then_login RefHost.host Fixture.cfg_timed
           (Fixture.at_time 6000) Fixture.confirm_token_timed
           (_id Fixture.alice)
           (payload RefHost.host (_id Fixture.alice) (Some 1805000))
           (Some (JStr "1970-01-01T00:30:05.000Z")) 1805000
           Fixture.alice Fixture.world).
  - vm_compute. reflexivity.
  - reflexivity.
  - vm_compute. reflexivity.
  - vm_compute. reflexivity.
  - reflexivity.
  - vm_compute. reflexivity.
  - reflexivity.
  - apply fixture_no_fault.
Defined.

(** ** Sessions *)

(** X9. A logout is answered [true], ends the session and leaves the
    accounts alone; without a session [current] answers [undefined],
    [currentIsInRole] answers [false] for every role, and [changePassword]
    throws a TypeError without answering. *)
Theorem without_session (host : Host) (cfg : Settings) (env : Env)
    (w : World) :
  route host cfg env GetLogout w
  = (Returned tt,
     log (EvRespond (Result (PBool true))) (log EvLogout (with_session None w)))
  /\ session (snd (route host cfg env GetLogout w)) = None
  /\ users (snd (route host cfg env GetLogout w)) = users w
  /\ forall (env' : Env) (w1 : World),
       session w1 = None ->
       route host cfg env' GetCurrent w1
       = (Returned tt, log (EvRespond (Result PUndefined)) w1)
       /\ (forall role,
             route host cfg env' (PostCurrentIsInRole role) w1
             = (Returned tt, log (EvRespond (Result (PBool false))) w1))
       /\ (forall old new,
             exists msg,
               route host cfg env' (PostChangePassword old new) w1
               = (Threw (TypeError msg), w1)).
Proof.
  split; [reflexivity|]. split; [reflexivity|]. split; [reflexivity|].
  intros env' w1 Hs. simpl. unfold request_user. rewrite Hs.
  split; [reflexivity|]. split; [reflexivity|].
  intros old new. eexists. reflexivity.
Qed.

Lemma without_session_witness :
  route RefHost.host Fixture.cfg (Fixture.at_time 6000) GetCurrent
    (snd (route RefHost.host Fixture.cfg (Fixture.at_time 5000) GetLogout
            Fixture.world))
  = (Returned tt,
     log (EvRespond (Result PUndefined))
       (snd (route RefHost.host Fixture.cfg (Fixture.at_time 5000) GetLogout
               Fixture.world))).
Proof.
  destruct (without_session RefHost.host Fixture.cfg (Fixture.at_time 5000)
              Fixture.world) as (_ & Hs & _ & H).
  exact (proj1 (H (Fixture.at_time 6000) _ Hs)).
Defined.

(** X10. With a session, [currentIsInRole] answers whether the role is one
    of the account's roles ([false] when the account has no roles field),
    and neither it nor [current] touches the store or the session. *)
Theorem current_is_in_role (cfg : Settings) (ru : option User)
    (role : string) (w : World) :
  exists b,
    currentIsInRole ru role w
    = (Returned tt, log (EvRespond (Result (PBool b))) w)
    /\ (b = true <->
        exists u rs, ru = Some u /\ roles u = Some rs /\ In role rs)
    /\ exists p, current cfg ru w = (Returned tt, log (EvRespond (Result p)) w)
                 /\ (p = PUndefined <-> ru = None).
Proof.
  destruct ru as [u|].
  - exists (match roles u with
            | Some rs => existsb (String.eqb role) rs
            | None => false
            end).
    split; [reflexivity|]. split.
    + destruct (roles u) as [rs|] eqn:Hr.
      * rewrite existsb_exists. split.
        -- intros (x & Hin & E). apply String.eqb_eq in E. subst x.
           exists u, rs. auto.
        -- intros (u' & rs' & E1 & E2 & Hin). injection E1 as <-.
           rewrite Hr in E2. injection E2 as <-.
           exists role. split; [exact Hin|]. apply String.eqb_refl.
      * split; [discriminate|].
        intros (u' & rs' & E1 & E2 & _). injection E1 as <-.
        rewrite Hr in E2. discriminate E2.
    + eexists. split; [reflexivity|]. split; discriminate.
  - exists false. split; [reflexivity|]. split.
    + split; [discriminate|]. intros (u & rs & E & _). discriminate E.
    + exists PUndefined. split; [reflexivity|]. split; reflexivity.
Qed.

(** ** Changing a password *)

(** X11. With a session whose account is stored, the right old password, a
    new password that is not empty and no collaborator failing, the change
    is answered [true]; the stored account carries the new credential and
    is otherwise as it was, no other account changes, and from then on the
    credential check accepts the new password and no other. *)
Theorem change_password_takes_effect (host : Host) (cfg : Settings)
    (env : Env) (id old new : string) (me : User) (w : World) :
  session w = Some id ->
  users w !! id = Some me ->
  _id me = id ->
  old = credential me ->
  new <> "" ->
  no_fault env ->
  response_of (route host cfg env (PostChangePassword old new) w)
  = Some (Result (PBool true))
  /\ (forall k, k <> id ->
        users (snd (route host cfg env (PostChangePassword old new) w)) !! k
        = users w !! k)
  /\ exists d,
       users (snd (route host cfg env (PostChangePassword old new) w)) !! id
       = Some d
       /\ credential d = new
       /\ isConfirmed d = isConfirmed me
       /\ same_identity me d
       /\ forall env' guess w',
            hashFault env' = None ->
            (authenticate env' d guess w' = (Returned (None, Some d), w')
             <-> guess = new).
Proof.
  intros Hs Hu Hi Hold Hnew (Hf & Hsv & Hh & _).
  assert (E : route host cfg env (PostChangePassword old new) w
              = (Returned tt,
                 log (EvRespond (Result (PBool true)))
                   (log (EvSave (set_modified (Some (now env))
                                   (set_credential new (set_credential new me))))
                      (with_users
                         (alter (fun d => set_modified (Some (now env))
                                            (set_credential new d))
                            id (users w)) w)))).
  { simpl. unfold request_user. rewrite Hs, Hu.
    unfold changePassword, authenticate, setPassword, save. monad.
    rewrite Hh, Hold, String.eqb_refl.
    destruct (String.eqb_spec new "") as [E|_]; [contradiction|].
    rewrite Hsv. change (_id (set_credential new me)) with (_id me).
    rewrite Hi. reflexivity. }
  rewrite E. split.
  { unfold response_of. simpl. rewrite last_snoc. reflexivity. }
  split.
  { intros k Hk. simpl. apply lookup_alter_ne. congruence. }
  eexists. split.
  { simpl. rewrite lookup_alter_eq, Hu. reflexivity. }
  split; [reflexivity|]. split; [reflexivity|].
  split; [unfold same_identity; simpl; auto 10|].
  intros env' guess w' Hh'. rewrite (authenticate_answer env' _ guess w' Hh').
  simpl. destruct (String.eqb_spec guess new) as [->|Hne].
  - split; reflexivity.
  - split; [intros X; discriminate X|intros X; contradiction].
Qed.

Lemma change_password_takes_effect_witness :
  response_of (route RefHost.host Fixture.cfg (Fixture.at_time 6000)
                 (PostChangePassword "battery staple" "tr0ub4dor")
                 Fixture.world)
  = Some (Result (PBool true)).
Proof.
  apply (change_password_takes_effect RefHost.host Fixture.cfg
           (Fixture.at_time 6000) (_id Fixture.bob)
           "battery staple" "tr0ub4dor" Fixture.bob Fixture.world).
  - reflexivity.
  - vm_compute. reflexivity.
  - reflexivity.
  - reflexivity.
  - discriminate.
  - apply fixture_no_fault.
Defined.

(** ** Accounts that are not there *)

(** X12. A token that decodes and has not expired but names, by a string
    [_id], no stored account is answered 404 after the lookup, "Not Found."
    by [resetPassword] and "Not Found" by [confirmEmail]; no account is
    written. *)
Theorem token_for_nobody (host : Host) (cfg : Settings) (env : Env)
    (hex id : string) (token : json) (v : jsval) (e : Z) (w : World) :
  get_prop token "expiration" = Returned v ->
  newDate host v = Some e ->
  now env < e ->
  get_prop token "_id" = Returned (Some (JStr id)) ->
  findFault env = None ->
  users w !! id = None ->
  (decodeToken host (resetPasswordToken (authentication cfg)) hex
   = Returned token ->
   forall pw,
     resetPassword host cfg env hex pw w
     = (Returned tt,
        log (EvRespond (Error "Not Found." 404))
          (log (EvFindById (Some (JStr id))) w)))
  /\ (decodeToken host (confirmEmailToken (authentication cfg)) hex
      = Returned token ->
      confirmEmail host cfg env hex w
      = (Returned tt,
         log (EvRespond (Error "Not Found" 404))
           (log (EvFindById (Some (JStr id))) w))).
Proof.
  intros Hp He Hn Hid Hf Hnone.
  assert (Hx : expired host env v = false).
  { rewrite (expired_spec host env v e He). apply Z.leb_gt. exact Hn. }
  split.
  - intros Hd pw.
    rewrite (resetPassword_decoded host cfg env hex pw token v w Hd Hp), Hx.
    unfold resetPassword_lookup, findById. monad.
    rewrite Hid, Hf, Hnone. reflexivity.
  - intros Hd.
    rewrite (confirmEmail_decoded host cfg env hex token v w Hd Hp), Hx.
    unfold confirmEmail_lookup, findById. monad.
    rewrite Hid, Hf, Hnone. reflexivity.
Qed.

Lemma token_for_nobody_witness :
  resetPassword RefHost.host Fixture.cfg (Fixture.at_time 6000)
    Scenario.stranger_token "new password" Fixture.world
  = (Returned tt,
     log (EvRespond (Error "Not Found." 404))
       (log (EvFindById (Some (JStr "000000000000000000000000")))
          Fixture.world)).
Proof.
  apply (proj1 (token_for_nobody RefHost.host Fixture.cfg
                  (Fixture.at_time 6000) Scenario.stranger_token
                  "000000000000000000000000"
                  (payload RefHost.host "000000000000000000000000"
                     (Some 3605000))
                  (Some (JStr "1970-01-01T01:00:05.000Z")) 3605000
                  Fixture.world
                  eq_refl ltac:(vm_compute; reflexivity)
                  ltac:(vm_compute; reflexivity) eq_refl eq_refl
                  ltac:(vm_compute; reflexivity))).
  vm_compute. reflexivity.
Defined.

(** X13. A reset-password request or a confirm-email request for an
    address that no stored account has is answered 404 "Not Found" right
    after the query: nothing is minted, mailed or written. *)
Theorem request_for_unknown_address (host : Host) (cfg : Settings)
    (env : Env) (address : string) (w : World) :
  findFault env = None ->
  (forall k u, users w !! k = Some u -> email u <> address) ->
  resetPasswordRequest host cfg env address w
  = (Returned tt,
     log (EvRespond (Error "Not Found" 404)) (log (EvFindOne address) w))
  /\ confirmEmailRequest host cfg env address w
     = (Returned tt,
        log (EvRespond (Error "Not Found" 404)) (log (EvFindOne address) w)).
Proof.
  intros Hf Hnone.
  assert (E : lookup_email address (users w) = None).
  { destruct (lookup_email address (users w)) as [u|] eqn:E; [|reflexivity].
    destruct (lookup_email_Some address (users w) u E) as (He & k & Hk).
    exfalso. exact (Hnone k u Hk He). }
  unfold resetPasswordRequest, confirmEmailRequest, findOne. monad.
  rewrite Hf, E. split; reflexivity.
Qed.

Lemma request_for_unknown_address_witness :
  resetPasswordRequest RefHost.host Fixture.cfg (Fixture.at_time 6000)
    "nobody@example.org"
    {| users := ∅; session := None; trace := [] |}
  = (Returned tt,
     log (EvRespond (Error "Not Found" 404))
       (log (EvFindOne "nobody@example.org")
          {| users := ∅; session := None; trace := [] |})).
Proof.
  apply (request_for_unknown_address RefHost.host Fixture.cfg
           (Fixture.at_time 6000) "nobody@example.org"
           {| users := ∅; session := None; trace := [] |}).
  - reflexivity.
  - simpl. intros k u H. rewrite lookup_empty in H. discriminate H.
Defined.

(** ** Registration, step by step *)

Lemma confirmEmailEnabled_inv (cfg : Settings) :
  confirmEmailEnabled cfg = true ->
  exists ts t,
    confirmEmailToken (authentication cfg) = Some ts
    /\ template cfg confirmEmail_message = Returned t.
Proof.
  unfold confirmEmailEnabled, template. intros H.
  destruct (mail cfg) as [m|]; [|discriminate].
  destruct (messages m) as [msgs|]; [|discriminate].
  destruct (confirmEmailToken (authentication cfg)) as [ts|]; [|discriminate].
  destruct (confirmEmail_message msgs) as [t|]; [|discriminate].
  eauto.
Qed.

Lemma register_stores (env : Env) (body : Body) (w : World) :
  findFault env = None -> hashFault env = None -> saveFault env = None ->
  body_password body <> "" ->
  (forall k u, users w !! k = Some u -> email u <> body_email body) ->
  users w !! _id (new_UserModel env body) = None ->
  register env
    (setAccess "role:admin" full_access
       (setAccess (subject_key (new_UserModel env body)) full_access
          (new_UserModel env body)))
    (body_password body) w
  = (Returned (Ans (new_account env body)), registered env body w).
Proof.
  intros Hf Hh Hs Hpw Hfree Hnew.
  assert (E : lookup_email (body_email body) (users w) = None).
  { destruct (lookup_email (body_email body) (users w)) as [u|] eqn:E;
      [|reflexivity].
    destruct (lookup_email_Some _ _ u E) as (He & k & Hk).
    exfalso. exact (Hfree k u Hk He). }
  unfold register, findOne, setPassword. monad. rewrite Hf, E.
  destruct (String.eqb_spec (body_password body) "") as [X|_];
    [contradiction|].
  rewrite Hh, Hs. simpl. simpl in Hnew. rewrite Hnew. reflexivity.
Qed.

(** X14. When the registration itself goes through (the address and the
    [_id] are free, the password is not empty, the store does not fail),
    the account is stored with its creation stamp, its credential and both
    grants, whatever becomes of the confirmation mail.  With confirmation
    not enabled the answer is the owner-filtered account and nothing is
    mailed.  With confirmation enabled the filtered account is mailed a
    token and the answer is the account, or 500 with the transport's error;
    and when the filtered account is confirmed already the answer is 500
    "Email already confirmed.": in both 500 cases the account stays
    stored. *)
Theorem registration_outcomes (host : Host) (cfg : Settings) (env : Env)
    (body : Body) (w : World) :
  findFault env = None -> hashFault env = None -> saveFault env = None ->
  body_password body <> "" ->
  (forall k u, users w !! k = Some u -> email u <> body_email body) ->
  users w !! _id (new_UserModel env body) = None ->
  users (snd (create host cfg env body w))
  = <[_id (new_UserModel env body) := new_account env body]> (users w)
  /\ _created (new_account env body) = Some (now env)
  /\ credential (new_account env body) = body_password body
  /\ has_grants (new_account env body)
  /\ (confirmEmailEnabled cfg = false ->
      create host cfg env body w
      = (Returned tt,
         log (EvRespond (Result (PUser (readFilter cfg "owner"
                                          (new_account env body)))))
           (registered env body w)))
  /\ (confirmEmailEnabled cfg = true ->
      isConfirmed (readFilter cfg "owner" (new_account env body)) = true ->
      create host cfg env body w
      = (Returned tt,
         log (EvRespond (Error "Email already confirmed." 500))
           (registered env body w)))
  /\ (forall ts t hex,
        confirmEmailEnabled cfg = true ->
        isConfirmed (readFilter cfg "owner" (new_account env body)) = false ->
        confirmEmailToken (authentication cfg) = Some ts ->
        template cfg confirmEmail_message = Returned t ->
        mintToken host env ts
          (_id (readFilter cfg "owner" (new_account env body)))
        = Returned hex ->
        create host cfg env body w
        = (Returned tt,
           log (EvRespond
                  match mailFault env with
                  | Some e => Error e 500
                  | None => Result (PUser (readFilter cfg "owner"
                                             (new_account env body)))
                  end)
             (log (EvMailSend
                     (formatMessage host t
                        (readFilter cfg "owner" (new_account env body)) hex))
                (registered env body w)))).
Proof.
  intros Hf Hh Hs Hpw Hfree Hnew.
  pose proof (register_stores env body w Hf Hh Hs Hpw Hfree Hnew) as R.
  assert (C : create host cfg env body w
              = (if confirmEmailEnabled cfg then
                   do error <- sendConfirmEmail host cfg env
                                 (readFilter cfg "owner" (new_account env body));
                   match error with
                   | Some e => respond (Error e 500)
                   | None => respond (Result (PUser (readFilter cfg "owner"
                                                       (new_account env body))))
                   end
                 else respond (Result (PUser (readFilter cfg "owner"
                                                (new_account env body)))))
                  (registered env body w)).
  { unfold create. cbv zeta. unfold bind at 1. rewrite R. reflexivity. }
  split.
  { rewrite C.
    destruct (quiet_after_register host cfg env
                (readFilter cfg "owner" (new_account env body))
                (registered env body w)) as [Hu _].
    rewrite Hu. reflexivity. }
  split; [reflexivity|]. split; [reflexivity|].
  split; [apply new_account_grants|].
  split; [|split].
  - intros He. rewrite C, He. reflexivity.
  - intros He Hc. rewrite C, He. unfold sendConfirmEmail. rewrite He, Hc.
    reflexivity.
  - intros ts t hex He Hc Hts Ht Hm. rewrite C, He.
    unfold sendConfirmEmail. rewrite He, Hc, Hts. monad. rewrite Hm, Ht.
    unfold mail_send. destruct (mailFault env); reflexivity.
Qed.

(** On the fixture: with the transport down, Dave's registration is
    answered 500 and Dave is stored all the same. *)
Lemma registration_outcomes_witness :
  users (snd (create RefHost.host Fixture.cfg_timed (Scenario.mail_down 5000)
                Fixture.newcomer Fixture.world))
  = <[_id (new_UserModel (Scenario.mail_down 5000) Fixture.newcomer)
      := new_account (Scenario.mail_down 5000) Fixture.newcomer]>
      (users Fixture.world).
Proof.
  apply (registration_outcomes RefHost.host Fixture.cfg_timed
           (Scenario.mail_down 5000) Fixture.newcomer Fixture.world).
  - reflexivity.
  - reflexivity.
  - reflexivity.
  - discriminate.
  - apply lookup_email_None. vm_compute. reflexivity.
  - vm_compute. reflexivity.
Defined.

Example registration_with_mail_down :
  response_of (create RefHost.host Fixture.cfg_timed (Scenario.mail_down 5000)
                 Fixture.newcomer Fixture.world)
  = Some (Error "connection refused" 500)
  /\ email <$>
       users (snd (create RefHost.host Fixture.cfg_timed
                     (Scenario.mail_down 5000) Fixture.newcomer Fixture.world))
       !! "507f1f77bcf86cd799439099"
     = Some "dave@example.org".
Proof. vm_compute. split; reflexivity. Qed.

(** X15. A registration for an address that a stored account has is
    answered 500 right after the query: nothing is stored, nothing is
    mailed. *)
Theorem registration_refused (host : Host) (cfg : Settings) (env : Env)
    (body : Body) (w : World) (k : string) (u : User) :
  findFault env = None ->
  users w !! k = Some u ->
  email u = body_email body ->
  exists msg,
    create host cfg env body w
    = (Returned tt,
       log (EvRespond (Error msg 500)) (log (EvFindOne (body_email body)) w)).
Proof.
  intros Hf Hu He.
  destruct (lookup_email (body_email body) (users w)) as [d|] eqn:E.
  - eexists. unfold create. cbv zeta.
    unfold register, findOne. monad. rewrite Hf, E. reflexivity.
  - exfalso. exact (lookup_email_None _ _ E k u Hu He).
Qed.

Lemma registration_refused_witness :
  exists msg,
    create RefHost.host Fixture.cfg (Fixture.at_time 5000)
      Scenario.alice_again Fixture.world
    = (Returned tt,
       log (EvRespond (Error msg 500))
         (log (EvFindOne (body_email Scenario.alice_again)) Fixture.world)).
Proof.
  apply (registration_refused RefHost.host Fixture.cfg (Fixture.at_time 5000)
           Scenario.alice_again Fixture.world (_id Fixture.alice)
           Fixture.alice).
  - reflexivity.
  - vm_compute. reflexivity.
  - reflexivity.
Defined.

(** ** From the request to the mailed token and back *)

Lemma resetPasswordTemplate_sent (host : Host) (cfg : Settings) (env : Env)
    (address hex : string) (account : User) (ts : TokenSettings)
    (t : MailTemplate) (w : World) :
  confirmEmailEnabled cfg = true ->
  resetPasswordToken (authentication cfg) = Some ts ->
  template cfg passwordResetRequest = Returned t ->
  findFault env = None ->
  lookup_email address (users w) = Some account ->
  mintToken host env ts (_id account) = Returned hex ->
  resetPasswordRequest host cfg env address w
  = (Returned tt,
     log (EvRespond match mailFault env with
                    | Some e => Error e 500
                    | None => Result (PBool true)
                    end)
       (log (EvMailSend (formatMessage host t account hex))
          (log (EvFindOne address) w))).
Proof.
  intros He Hts Ht Hf Hl Hm.
  unfold resetPasswordRequest, findOne, sendResetPassword. monad.
  rewrite Hf, Hl, He, Hts. simpl. rewrite Hm, Ht. unfold mail_send.
  destruct (mailFault env); reflexivity.
Qed.

(** X16. The reset flow end to end.  With the mail feature on (the flag the
    handler tests), a reset class with a time to live and a reset template
    configured, a request for the address of a stored account mails that
    account one token and is answered [true]; that very token, presented
    before the time to live has passed, with a new password that is not
    empty, is answered [true] and gives the account the new credential.
    No collaborator fails, and the host undoes its own work on the
    token. *)
Theorem reset_flow (host : Host) (cfg : Settings) (first second : Env)
    (address hex pw : string) (account : User) (ts : TokenSettings)
    (t : MailTemplate) (ttl : Z) (w : World) :
  confirmEmailEnabled cfg = true ->
  resetPasswordToken (authentication cfg) = Some ts ->
  template cfg passwordResetRequest = Returned t ->
  timeout ts = Some ttl ->
  lookup_email address (users w) = Some account ->
  users w !! _id account = Some account ->
  no_fault first ->
  no_fault second ->
  mintToken host first ts (_id account) = Returned hex ->
  deciphers host ts
    (JSON_stringify host
       (payload host (_id account) (Some (now first + ttl * 60000)))) ->
  JSON_parse host
    (JSON_stringify host
       (payload host (_id account) (Some (now first + ttl * 60000))))
  = Some (payload host (_id account) (Some (now first + ttl * 60000))) ->
  Date_parse host (toISOString host (now first + ttl * 60000))
  = Some (now first + ttl * 60000) ->
  now second < now first + ttl * 60000 ->
  pw <> "" ->
  resetPasswordRequest host cfg first address w
  = (Returned tt,
     log (EvRespond (Result (PBool true)))
       (log (EvMailSend (formatMessage host t account hex))
          (log (EvFindOne address) w)))
  /\ response_of
       (resetPassword host cfg second hex pw
          (snd (resetPasswordRequest host cfg first address w)))
     = Some (Result (PBool true))
  /\ credential <$>
       users (snd (resetPassword host cfg second hex pw
                     (snd (resetPasswordRequest host cfg first address w))))
       !! _id account
     = Some pw.
Proof.
  intros He Hts Ht Httl Hl Hu Hf1 Hf2 Hm Hdec Hparse Hdate Hn Hpw.
  pose proof (resetPasswordTemplate_sent host cfg first address hex account
                ts t w He Hts Ht (proj1 Hf1) Hl Hm) as R.
  destruct Hf1 as (_ & _ & _ & Hmail). rewrite Hmail in R.
  rewrite R. cbn [snd]. split; [reflexivity|].
  assert (Hd : decodeToken host (resetPasswordToken (authentication cfg)) hex
               = Returned (payload host (_id account)
                             (Some (now first + ttl * 60000)))).
  { rewrite Hts.
    pose proof (decode_minted host first ts (_id account) hex Hm) as D.
    unfold addMinutes in D. rewrite Httl in D. apply D; assumption. }
  match goal with
  | |- context [resetPassword host cfg second hex pw ?w1] =>
      pose proof (resetPassword_succeeds host cfg second hex pw (_id account)
                    _ _ _ account w1 Hd (payload_expiration _ _ _) Hdate Hn
                    (payload_id _ _ _) Hu Hf2 Hpw) as S;
      destruct (found_and_saved_account second (_id account) account
                  (set_credential pw) w1 Hu eq_refl) as (Hacc & _ & _)
  end.
  rewrite S. unfold response_of. cbn [fst snd].
  rewrite found_and_saved_response, Hacc. split; reflexivity.
Qed.

Lemma reset_flow_witness :
  credential <$>
    users (snd (resetPassword RefHost.host Fixture.cfg (Fixture.at_time 6000)
                  Fixture.reset_token "new password"
                  (snd (resetPasswordRequest RefHost.host Fixture.cfg
                          (Fixture.at_time 5000) "alice@example.org"
                          Fixture.world))))
    !! _id Fixture.alice
  = Some "new password".
Proof.
  apply (reset_flow RefHost.host Fixture.cfg (Fixture.at_time 5000)
           (Fixture.at_time 6000) "alice@example.org" Fixture.reset_token
           "new password" Fixture.alice Fixture.reset_class
           Fixture.reset_template 60 Fixture.world).
  - reflexivity.
  - reflexivity.
  - reflexivity.
  - reflexivity.
  - vm_compute. reflexivity.
  - vm_compute. reflexivity.
  - apply fixture_no_fault.
  - apply fixture_no_fault.
  - vm_compute. reflexivity.
  - intros c H. vm_compute in H. injection H as <-. vm_compute. reflexivity.
  - vm_compute. reflexivity.
  - vm_compute. reflexivity.
  - vm_compute. reflexivity.
  - discriminate.
Defined.

Lemma create_mailed (host : Host) (cfg : Settings) (env : Env) (body : Body)
    (ts : TokenSettings) (t : MailTemplate) (hex : string) (w : World) :
  findFault env = None -> hashFault env = None -> saveFault env = None ->
  body_password body <> "" ->
  (forall k u, users w !! k = Some u -> email u <> body_email body) ->
  users w !! _id (new_UserModel env body) = None ->
  confirmEmailEnabled cfg = true ->
  isConfirmed (readFilter cfg "owner" (new_account env body)) = false ->
  confirmEmailToken (authentication cfg) = Some ts ->
  template cfg confirmEmail_message = Returned t ->
  mintToken host env ts (_id (readFilter cfg "owner" (new_account env body)))
  = Returned hex ->
  create host cfg env body w
  = (Returned tt,
     log (EvRespond
            match mailFault env with
            | Some e => Error e 500
            | None => Result (PUser (readFilter cfg "owner"
                                       (new_account env body)))
            end)
       (log (EvMailSend
               (formatMessage host t
                  (readFilter cfg "owner" (new_account env body)) hex))
          (registered env body w))).
Proof.
  intros Hf Hh Hs Hpw Hfree Hnew He Hc Hts Ht Hm.
  pose proof (register_stores env body w Hf Hh Hs Hpw Hfree Hnew) as R.
  unfold create. cbv zeta. unfold bind at 1. rewrite R. rewrite He.
  unfold sendConfirmEmail. rewrite He, Hc, Hts. monad. rewrite Hm, Ht.
  unfold mail_send. destruct (mailFault env); reflexivity.
Qed.

(** X17. The registration flow end to end.  With confirmation enabled and
    a confirm class with a time to live, a registration that goes through
    mails the new account one token and is answered with the filtered
    account; that very token, presented before the time to live has
    passed, is answered [true] and leaves the new account confirmed.  The
    owner filter is assumed to keep the [_id] and to show the account as
    unconfirmed; no collaborator fails, and the host undoes its own work on
    the token. *)
Theorem registration_flow (host : Host) (cfg : Settings)
    (first second : Env) (body : Body) (ts : TokenSettings)
    (t : MailTemplate) (ttl : Z) (hex : string) (w : World) :
  no_fault first ->
  no_fault second ->
  body_password body <> "" ->
  (forall k u, users w !! k = Some u -> email u <> body_email body) ->
  users w !! _id (new_UserModel first body) = None ->
  confirmEmailEnabled cfg = true ->
  confirmEmailToken (authentication cfg) = Some ts ->
  template cfg confirmEmail_message = Returned t ->
  timeout ts = Some ttl ->
  _id (readFilter cfg "owner" (new_account first body))
  = _id (new_UserModel first body) ->
  isConfirmed (readFilter cfg "owner" (new_account first body)) = false ->
  mintToken host first ts (_id (new_UserModel first body)) = Returned hex ->
  deciphers host ts
    (JSON_stringify host
       (payload host (_id (new_UserModel first body))
          (Some (now first + ttl * 60000)))) ->
  JSON_parse host
    (JSON_stringify host
       (payload host (_id (new_UserModel first body))
          (Some (now first + ttl * 60000))))
  = Some (payload host (_id (new_UserModel first body))
            (Some (now first + ttl * 60000))) ->
  Date_parse host (toISOString host (now first + ttl * 60000))
  = Some (now first + ttl * 60000) ->
  now second < now first + ttl * 60000 ->
  create host cfg first body w
  = (Returned tt,
     log (EvRespond (Result (PUser (readFilter cfg "owner"
                                      (new_account first body)))))
       (log (EvMailSend
               (formatMessage host t
                  (readFilter cfg "owner" (new_account first body)) hex))
          (registered first body w)))
  /\ response_of (confirmEmail host cfg second hex
                    (snd (create host cfg first body w)))
     = Some (Result (PBool true))
  /\ isConfirmed <$>
       users (snd (confirmEmail host cfg second hex
                     (snd (create host cfg first body w))))
       !! _id (new_UserModel first body)
     = Some true.
Proof.
  intros (Hf & Hs & Hh & Hmail) Hf2 Hpw Hfree Hnew He Hts Ht Httl Hkeep Hc
         Hm Hdec Hparse Hdate Hn.
  rewrite <- Hkeep in Hm.
  pose proof (create_mailed host cfg first body ts t hex w Hf Hh Hs Hpw Hfree
                Hnew He Hc Hts Ht Hm) as C.
  rewrite Hmail in C. rewrite C. cbn [snd]. split; [reflexivity|].
  rewrite Hkeep in Hm.
  assert (Hd : decodeToken host (confirmEmailToken (authentication cfg)) hex
               = Returned (payload host (_id (new_UserModel first body))
                             (Some (now first + ttl * 60000)))).
  { rewrite Hts.
    pose proof (decode_minted host first ts _ hex Hm) as D.
    unfold addMinutes in D. rewrite Httl in D. apply D; assumption. }
  match goal with
  | |- context [confirmEmail host cfg second hex ?w1] =>
      assert (Hu : users w1 !! _id (new_UserModel first body)
                   = Some (new_account first body))
        by (simpl; apply lookup_insert_eq);
      pose proof (confirmEmail_succeeds host cfg second hex
                    (_id (new_UserModel first body)) _ _ _
                    (new_account first body) w1 Hd
                    (payload_expiration _ _ _) Hdate Hn (payload_id _ _ _)
                    Hu Hf2) as S;
      destruct (found_and_saved_account second
                  (_id (new_UserModel first body)) (new_account first body)
                  (set_isConfirmed true) w1 Hu eq_refl) as (Hacc & _ & _)
  end.
  rewrite S. unfold response_of. cbn [fst snd].
  rewrite found_and_saved_response, Hacc. split; reflexivity.
Qed.

Lemma registration_flow_witness :
  isConfirmed <$>
    users (snd (confirmEmail RefHost.host Fixture.cfg_timed
                  (Fixture.at_time 6000)
                  (default ""
                     (RefHost.cipher "xor" "confirm-secret"
                        (RefHost.print
                           (payload RefHost.host "507f1f77bcf86cd799439099"
                              (Some 1805000)))))
                  (snd (create RefHost.host Fixture.cfg_timed
                          (Fixture.at_time 5000) Fixture.newcomer
                          Fixture.world))))
    !! _id (new_UserModel (Fixture.at_time 5000) Fixture.newcomer)
  = Some true.
Proof.
  apply (registration_flow RefHost.host Fixture.cfg_timed
           (Fixture.at_time 5000) (Fixture.at_time 6000) Fixture.newcomer
           Fixture.confirm_class_timed Fixture.confirm_template 30
           _ Fixture.world).
  - apply fixture_no_fault.
  - apply fixture_no_fault.
  - discriminate.
  - apply lookup_email_None. vm_compute. reflexivity.
  - vm_compute. reflexivity.
  - reflexivity.
  - reflexivity.
  - reflexivity.
  - reflexivity.
  - reflexivity.
  - reflexivity.
  - vm_compute. reflexivity.
  - intros c H. vm_compute in H. injection H as <-. vm_compute. reflexivity.
  - vm_compute. reflexivity.
  - vm_compute. reflexivity.
  - vm_compute. reflexivity.
Defined.

(** ** Requests that send nothing *)

(** X18. A confirm-email request for a stored account is answered 500, and
    nothing is mailed, when confirmation is not enabled ("Email
    confirmation is not enabled.") and when the account is confirmed
    already ("Email already confirmed."). *)
Theorem confirm_request_not_sent (host : Host) (cfg : Settings) (env : Env)
    (address : string) (account : User) (w : World) :
  findFault env = None ->
  lookup_email address (users w) = Some account ->
  (confirmEmailEnabled cfg = false ->
   confirmEmailRequest host cfg env address w
   = (Returned tt,
      log (EvRespond (Error "Email confirmation is not enabled." 500))
        (log (EvFindOne address) w)))
  /\ (confirmEmailEnabled cfg = true ->
      isConfirmed account = true ->
      confirmEmailRequest host cfg env address w
      = (Returned tt,
         log (EvRespond (Error "Email already confirmed." 500))
           (log (EvFindOne address) w))).
Proof.
  intros Hf Hl. unfold confirmEmailRequest, findOne, sendConfirmEmail. monad.
  rewrite Hf, Hl. split.
  - intros ->. reflexivity.
  - intros -> ->. reflexivity.
Qed.

Lemma confirm_request_not_sent_witness :
  confirmEmailRequest RefHost.host Fixture.cfg (Fixture.at_time 6000)
    "bob@example.org" Fixture.world
  = (Returned tt,
     log (EvRespond (Error "Email already confirmed." 500))
       (log (EvFindOne "bob@example.org") Fixture.world)).
Proof.
  apply (proj2 (confirm_request_not_sent RefHost.host Fixture.cfg
                  (Fixture.at_time 6000) "bob@example.org" Fixture.bob
                  Fixture.world eq_refl ltac:(vm_compute; reflexivity))).
  - reflexivity.
  - reflexivity.
Defined.

(** ** Mail *)

Lemma mails_app (a b : list Event) : mails (a ++ b) = (mails a + mails b)%nat.
Proof. unfold mails. rewrite List.filter_app, length_app. reflexivity. Qed.

Lemma mails_at_most_refl (n : nat) (w : World) : mails_at_most n w w.
Proof.
  exists []. split; [symmetry; apply app_nil_r|]. unfold mails. simpl. lia.
Qed.

Lemma mails_at_most_add (a b : nat) (x y z : World) :
  mails_at_most a x y -> mails_at_most b y z -> mails_at_most (a + b) x z.
Proof.
  intros (p & Hp & Np) (q & Hq & Nq). exists (p ++ q). split.
  - rewrite Hq, Hp. symmetry. apply app_assoc.
  - rewrite mails_app. lia.
Qed.

Lemma mailless_trans (x y z : World) :
  mails_at_most 0 x y -> mails_at_most 0 y z -> mails_at_most 0 x z.
Proof. apply (mails_at_most_add 0 0). Qed.

Lemma mails_at_most_log (ev : Event) (w : World) :
  mails_at_most (if is_mail ev then 1 else 0) w (log ev w).
Proof.
  exists [ev]. split; [reflexivity|]. unfold mails. simpl.
  destruct (is_mail ev); simpl; lia.
Qed.

Lemma mails_at_most_same_trace (w w' : World) :
  trace w' = trace w -> mails_at_most 0 w w'.
Proof.
  intros E. exists []. split; [rewrite E; symmetry; apply app_nil_r|].
  unfold mails. simpl. lia.
Qed.

Lemma mailless_more (n : nat) {A : Type} (m : M A) :
  keeps (mails_at_most 0) m -> keeps (mails_at_most n) m.
Proof.
  intros H w. destruct (H w) as (evs & E & N). exists evs.
  split; [exact E|lia].
Qed.

Lemma mails_bind_first {A B : Type} (n : nat) (m : M A) (k : A -> M B) :
  keeps (mails_at_most 0) m -> (forall a, keeps (mails_at_most n) (k a)) ->
  keeps (mails_at_most n) (bind m k).
Proof.
  intros Hm Hk w. unfold bind. specialize (Hm w).
  destruct (m w) as [[a|e] w1]; simpl in *.
  - apply (mails_at_most_add 0 n w w1 _ Hm (Hk a w1)).
  - destruct Hm as (evs & E & N). exists evs. split; [exact E|lia].
Qed.

Lemma mails_bind_last {A B : Type} (n : nat) (m : M A) (k : A -> M B) :
  keeps (mails_at_most n) m -> (forall a, keeps (mails_at_most 0) (k a)) ->
  keeps (mails_at_most n) (bind m k).
Proof.
  intros Hm Hk w. unfold bind. specialize (Hm w).
  destruct (m w) as [[a|e] w1]; simpl in *.
  - replace n with (n + 0)%nat by lia.
    apply (mails_at_most_add n 0 w w1 _ Hm (Hk a w1)).
  - exact Hm.
Qed.

Lemma mailless_respond (r : Response) : keeps (mails_at_most 0) (respond r).
Proof. intros w. apply (mails_at_most_log (EvRespond r)). Qed.

Lemma mailless_findById (env : Env) (id : jsval) :
  keeps (mails_at_most 0) (findById env id).
Proof.
  intros w. unfold findById.
  destruct (findFault env); [apply (mails_at_most_log (EvFindById id))|].
  destruct id as [[]|]; apply (mails_at_most_log (EvFindById _)).
Qed.

Lemma mailless_findOne (env : Env) (address : string) :
  keeps (mails_at_most 0) (findOne env address).
Proof.
  intros w. unfold findOne.
  destruct (findFault env); apply (mails_at_most_log (EvFindOne address)).
Qed.

Lemma mailless_save (env : Env) (u : User) (delta : User -> User) :
  keeps (mails_at_most 0) (save env u delta).
Proof.
  intros w. unfold save.
  destruct (saveFault env); [apply mails_at_most_refl|].
  exists [EvSave (set_modified (Some (now env)) (delta u))].
  split; [reflexivity|]. unfold mails. simpl. lia.
Qed.

Lemma mailless_logout_session : keeps (mails_at_most 0) logout_session.
Proof.
  intros w. exists [EvLogout]. split; [reflexivity|]. unfold mails. simpl. lia.
Qed.

Lemma mailless_register (env : Env) (a : User) (pw : string) :
  keeps (mails_at_most 0) (register env a pw).
Proof.
  intros w.
  destruct (register_run env a pw w) as [[e ->]|[_ ->]].
  - apply (mails_at_most_log (EvFindOne (email a))).
  - exists [EvFindOne (email a);
            EvInsert (set_modified (Some (now env))
                        (set_created (Some (now env)) (set_credential pw a)))].
    split; [simpl; rewrite <- app_assoc; reflexivity|].
    unfold mails. simpl. lia.
Qed.

Lemma mailless_passport_authenticate (address pw : string) :
  keeps (mails_at_most 0) (passport_authenticate address pw).
Proof.
  intros w. unfold passport_authenticate.
  destruct (lookup_email address (users w)); [|apply mails_at_most_refl].
  destruct (String.eqb pw (credential u));
    apply mails_at_most_same_trace; reflexivity.
Qed.

Lemma one_mail_send (env : Env) (m : MailMessage) :
  keeps (mails_at_most 1) (mail_send env m).
Proof. intros w. apply (mails_at_most_log (EvMailSend m)). Qed.

Ltac mailless_tac :=
  repeat first
    [ apply (keeps_ret _ (mails_at_most_refl 0))
    | apply (keeps_throw _ (mails_at_most_refl 0))
    | apply (keeps_lift _ (mails_at_most_refl 0))
    | apply (keeps_setPassword _ (mails_at_most_refl 0))
    | apply (keeps_authenticate _ (mails_at_most_refl 0))
    | apply mailless_respond
    | apply mailless_findById
    | apply mailless_findOne
    | apply mailless_save
    | apply mailless_logout_session
    | apply mailless_register
    | apply mailless_passport_authenticate
    | apply (keeps_bind _ mailless_trans); [|intros ?]
    | match goal with
      | |- keeps _ (match ?x with _ => _ end) => destruct x
      end ].

Ltac one_mail_tac :=
  repeat first
    [ apply one_mail_send
    | apply mailless_more; solve [mailless_tac]
    | apply mails_bind_first; [solve [mailless_tac]|intros ?]
    | match goal with
      | |- keeps _ (match ?x with _ => _ end) => destruct x
      end ].

Lemma one_mail_sendConfirmEmail (host : Host) (cfg : Settings) (env : Env)
    (user : User) :
  keeps (mails_at_most 1) (sendConfirmEmail host cfg env user).
Proof. unfold sendConfirmEmail. one_mail_tac. Qed.

Lemma one_mail_sendResetPassword (host : Host) (cfg : Settings) (env : Env)
    (user : User) :
  keeps (mails_at_most 1) (sendResetPassword host cfg env user).
Proof. unfold sendResetPassword. one_mail_tac. Qed.

Ltac mailing_route_tac :=
  repeat first
    [ apply mailless_more; solve [mailless_tac]
    | apply mails_bind_last;
      [ first [ apply one_mail_sendConfirmEmail
              | apply one_mail_sendResetPassword ]
      | intros ?; solve [mailless_tac] ]
    | apply mails_bind_first; [solve [mailless_tac]|intros ?]
    | match goal with
      | |- keeps _ (match ?x with _ => _ end) => destruct x
      end ].

(** X19. A request mails at most once, and only a registration, a
    reset-password request or a confirm-email request mails at all: the
    seven other routes never call the mail transport. *)
Theorem mail_budget (host : Host) (cfg : Settings) (env : Env) (r : Request)
    (w : World) :
  exists evs,
    trace (snd (route host cfg env r w)) = trace w ++ evs
    /\ (mails evs <= if may_mail r then 1 else 0)%nat.
Proof.
  revert w.
  change (keeps (mails_at_most (if may_mail r then 1 else 0))
            (route host cfg env r)).
  destruct r; simpl.
  - unfold login. mailless_tac.
  - unfold logout. mailless_tac.
  - unfold create. cbv zeta. mailing_route_tac.
  - unfold resetPassword, resetPassword_lookup. mailless_tac.
  - unfold resetPasswordRequest. mailing_route_tac.
  - unfold confirmEmail, confirmEmail_lookup. mailless_tac.
  - unfold confirmEmailRequest. mailing_route_tac.
  - intros w. generalize (request_user w) at 1. intros ru. revert w.
    change (keeps (mails_at_most 0) (current cfg ru)).
    unfold current. mailless_tac.
  - intros w. generalize (request_user w) at 1. intros ru. revert w.
    change (keeps (mails_at_most 0) (currentIsInRole ru role)).
    unfold currentIsInRole. mailless_tac.
  - intros w. generalize (request_user w) at 1. intros ru. revert w.
    change (keeps (mails_at_most 0)
              (changePassword env ru oldPassword newPassword)).
    unfold changePassword. mailless_tac.
Qed.

(** ** What the flag guards *)

(** X20. With settings that carry an [authentication] block, [login]
    never throws: the settings it reads are read only under the flag that
    says they are there.  It ends either in the answer of a
    passed gate or in the answer 403.  And [sendConfirmEmail] throws only
    when the cipher does. *)
Theorem flag_guards_settings (host : Host) (cfg : Settings) (env : Env)
    (user : User) (w : World) :
  (login cfg env user w = (Returned tt, logged_in cfg env user w)
   \/ login cfg env user w = (Returned tt, refused w))
  /\ (forall e,
        fst (sendConfirmEmail host cfg env user w) = Threw e ->
        exists ts,
          confirmEmailToken (authentication cfg) = Some ts
          /\ mintToken host env ts (_id user) = Threw e).
Proof.
  split.
  - assert (E : exists b, emailConfirmed cfg env user = Returned b).
    { unfold emailConfirmed.
      destruct (confirmEmailEnabled cfg) eqn:He; [|eauto].
      destruct (confirmEmailEnabled_inv cfg He) as (ts & t & -> & _).
      destruct (_created user); [|eauto].
      destruct (negb (isConfirmed user)); eauto. }
    destruct E as [[|] E].
    + left. apply login_passes. exact E.
    + right. apply login_refuses. exact E.
  - intros e. unfold sendConfirmEmail.
    destruct (confirmEmailEnabled cfg) eqn:He; [|discriminate].
    destruct (confirmEmailEnabled_inv cfg He) as (ts & t & Hts & Ht).
    destruct (negb (isConfirmed user)); [|discriminate].
    rewrite Hts. monad.
    destruct (mintToken host env ts (_id user)) as [hex|e'] eqn:Hm.
    + rewrite Ht. simpl. discriminate.
    + simpl. intros X. injection X as <-. exists ts. auto.
Qed.

(** ** Mail messages *)

(** X21. Formatting a message keeps the attachments in number and order;
    an attachment that is not marked [alternative] goes out untouched, one
    that is marked keeps its mark and has its placeholders filled. *)
Theorem attachments_kept (host : Host) (t : MailTemplate) (u : User)
    (token : string) :
  match attachment t, msg_attachment (formatMessage host t u token) with
  | Some l, Some l' =>
      length l' = length l
      /\ forall (i : nat) (a : Attachment),
           l !! i = Some a ->
           exists a',
             l' !! i = Some a'
             /\ alternative a' = alternative a
             /\ (alternative a = false -> a' = a)
             /\ (alternative a = true ->
                 data a' = replace_g host "{token}" ""
                             (fill host u token (data a)))
  | None, None => True
  | _, _ => False
  end.
Proof.
  unfold formatMessage. simpl. destruct (attachment t) as [l|]; simpl; [|exact I].
  split; [apply length_map|].
  intros i a Hi. exists (fill_attachment host u token a). split.
  - change (List.map (fill_attachment host u token) l)
      with (fill_attachment host u token <$> l).
    rewrite list_lookup_fmap, Hi. reflexivity.
  - unfold fill_attachment. destruct (alternative a) eqn:Ha; simpl.
    + split; [reflexivity|]. split; [discriminate|reflexivity].
    + split; [exact Ha|]. split; [reflexivity|discriminate].
Qed.

(** * Properties of the mail utilities *)

(** X22. Once the SMTP connection exists, [send] hands every message over
    and resolves with the server's answer, whatever the enable switch and
    the server settings say: they are consulted only before the first
    connection.  Before it, with the switch off, [send] resolves with the
    message itself, sends nothing and does not connect. *)
Theorem send_switch_only_before_connecting (s s' : Email.Surroundings)
    (m : MailMessage) (st : Email.Mailer) :
  (Email.connected st = true ->
   Email.transport s = Email.transport s' ->
   Email.send s m st = Email.send s' m st
   /\ Email.outbox (snd (Email.send s m st)) = Email.outbox st ++ [m]
   /\ fst (Email.send s m st) = Email.Fulfilled (Email.handed_over s))
  /\ (Email.connected st = false ->
      Email.email_enabled s = Some false ->
      Email.send s m st = (Email.Fulfilled (Email.VMessage m), st)).
Proof.
  split.
  - intros Hc Ht. unfold Email.send, Email.hand_over, Email.handed_over.
    rewrite Hc, Ht. auto.
  - intros Hc He. unfold Email.send. rewrite Hc, He. reflexivity.
Qed.

Lemma send_switch_only_before_connecting_witness :
  Email.outbox (snd (Email.send Email.surroundings
                       (formatMessage RefHost.host Email.quiet_template
                          Fixture.alice "t")
                       Email.online))
  = Email.outbox Email.online
    ++ [formatMessage RefHost.host Email.quiet_template Fixture.alice "t"].
Proof.
  apply (proj1 (send_switch_only_before_connecting Email.surroundings
                  Email.surroundings
                  (formatMessage RefHost.host Email.quiet_template
                     Fixture.alice "t")
                  Email.online) eq_refl eq_refl).
Defined.

Lemma email_send_outbox (s : Email.Surroundings) (m : MailMessage)
    (st : Email.Mailer) :
  Email.outbox (snd (Email.send s m st)) = Email.outbox st
  \/ Email.outbox (snd (Email.send s m st)) = Email.outbox st ++ [m].
Proof.
  unfold Email.send, Email.hand_over.
  destruct (Email.connected st); [right; reflexivity|].
  destruct (Email.email_enabled s) as [[|]|]; [|left; reflexivity..].
  destruct (Email.server_settings s); [right|left]; reflexivity.
Qed.

(** X23. A template that is switched off does not stop the mail: with its
    [enabled] false, the promise of [sendResetPassword] and of
    [sendConfirmEmail] resolves at once with [undefined], and the message
    is formatted and handed to [send] all the same; on a connected mailer
    it goes out. *)
Theorem disabled_template_is_sent (host : Host) (s : Email.Surroundings)
    (user : User) (st : Email.Mailer) (t : MailTemplate) (token : string) :
  enabled t = false ->
  (Email.emails s "passwordResetRequest" = Some (Some t) ->
   Email.token_for s "resetPasswordToken" (_id user) = Some token ->
   fst (Email.sendResetPassword host s user st)
   = Email.Fulfilled Email.VUndefined
   /\ snd (Email.sendResetPassword host s user st)
      = snd (Email.send s (formatMessage host t user token) st)
   /\ (Email.connected st = true ->
       Email.outbox (snd (Email.sendResetPassword host s user st))
       = Email.outbox st ++ [formatMessage host t user token]))
  /\ (Email.emails s "confirmEmail" = Some (Some t) ->
      Email.token_for s "confirmEmailToken" (_id user) = Some token ->
      isConfirmed user = false ->
      fst (Email.sendConfirmEmail host s user st)
      = Email.Fulfilled Email.VUndefined
      /\ snd (Email.sendConfirmEmail host s user st)
         = snd (Email.send s (Email.formatConfirmation host t user token) st)
      /\ (Email.connected st = true ->
          Email.outbox (snd (Email.sendConfirmEmail host s user st))
          = Email.outbox st
            ++ [Email.formatConfirmation host t user token])).
Proof.
  intros Hoff. split.
  - intros He Ht. unfold Email.sendResetPassword. rewrite He, Ht, Hoff.
    cbn [fst snd Email.first_of]. split; [reflexivity|].
    split; [reflexivity|].
    intros Hc. unfold Email.send. rewrite Hc. reflexivity.
  - intros He Ht Hu. unfold Email.sendConfirmEmail. rewrite Hu, He, Ht, Hoff.
    cbn [fst snd Email.first_of]. split; [reflexivity|].
    split; [reflexivity|].
    intros Hc. unfold Email.send. rewrite Hc. reflexivity.
Qed.

Lemma disabled_template_is_sent_witness :
  fst (Email.sendResetPassword RefHost.host Email.surroundings Fixture.alice
         Email.online)
  = Email.Fulfilled Email.VUndefined
  /\ snd (Email.sendResetPassword RefHost.host Email.surroundings
            Fixture.alice Email.online)
     = snd (Email.send Email.surroundings
              (formatMessage RefHost.host Email.quiet_template Fixture.alice
                 ("token-for-" +:+ _id Fixture.alice))
              Email.online)
  /\ (Email.connected Email.online = true ->
      Email.outbox (snd (Email.sendResetPassword RefHost.host
                           Email.surroundings Fixture.alice Email.online))
      = Email.outbox Email.online
        ++ [formatMessage RefHost.host Email.quiet_template Fixture.alice
              ("token-for-" +:+ _id Fixture.alice)]).
Proof.
  apply (proj1 (disabled_template_is_sent RefHost.host Email.surroundings
                  Fixture.alice Email.online Email.quiet_template
                  ("token-for-" +:+ _id Fixture.alice) eq_refl)).
  - reflexivity.
  - reflexivity.
Defined.

(** X24. Either utility hands at most one message to the SMTP server.
    [sendConfirmEmail] for a confirmed account hands none, asks for no
    template and resolves with "Email already confirmed."; and where the
    template document is missing, or its query fails, both promises stay
    pending and nothing is sent. *)
Theorem mail_utilities_send_at_most_once (host : Host)
    (s : Email.Surroundings) (user : User) (st : Email.Mailer) :
  (exists sent,
     Email.outbox (snd (Email.sendResetPassword host s user st))
     = Email.outbox st ++ sent /\ (length sent <= 1)%nat)
  /\ (exists sent,
        Email.outbox (snd (Email.sendConfirmEmail host s user st))
        = Email.outbox st ++ sent /\ (length sent <= 1)%nat)
  /\ (isConfirmed user = true ->
      Email.sendConfirmEmail host s user st
      = (Email.Fulfilled (Email.VText "Email already confirmed."), st))
  /\ ((Email.emails s "passwordResetRequest" = None
       \/ Email.emails s "passwordResetRequest" = Some None) ->
      Email.sendResetPassword host s user st = (Email.Pending, st))
  /\ (isConfirmed user = false ->
      (Email.emails s "confirmEmail" = None
       \/ Email.emails s "confirmEmail" = Some None) ->
      Email.sendConfirmEmail host s user st = (Email.Pending, st)).
Proof.
  assert (Nothing : exists sent,
            Email.outbox st = Email.outbox st ++ sent /\ (length sent <= 1)%nat).
  { exists []. split; [symmetry; apply app_nil_r|simpl; lia]. }
  assert (One : forall m,
            exists sent,
              Email.outbox (snd (Email.send s m st)) = Email.outbox st ++ sent
              /\ (length sent <= 1)%nat).
  { intros m. destruct (email_send_outbox s m st) as [-> | ->].
    - exact Nothing.
    - exists [m]. split; [reflexivity|simpl; lia]. }
  split; [|split; [|split; [|split]]].
  - unfold Email.sendResetPassword.
    destruct (Email.emails s "passwordResetRequest") as [[t|]|];
      try exact Nothing.
    destruct (Email.token_for s "resetPasswordToken" (_id user));
      [apply One|exact Nothing].
  - unfold Email.sendConfirmEmail.
    destruct (isConfirmed user); [exact Nothing|].
    destruct (Email.emails s "confirmEmail") as [[t|]|]; try exact Nothing.
    destruct (Email.token_for s "confirmEmailToken" (_id user));
      [apply One|exact Nothing].
  - intros Hc. unfold Email.sendConfirmEmail. rewrite Hc. reflexivity.
  - intros [E|E]; unfold Email.sendResetPassword; rewrite E; reflexivity.
  - intros Hc [E|E]; unfold Email.sendConfirmEmail; rewrite Hc, E;
      reflexivity.
Qed.

(** X25. The confirmation message is the reset-style message as long as
    the template has at most one attachment: the repeated pass over the
    attachments of [sendConfirmEmail] shows only from two attachments on. *)
Theorem confirmation_format_agrees (host : Host) (t : MailTemplate)
    (u : User) (token : string) :
  match attachment t with
  | Some l => (length l <= 1)%nat
  | None => True
  end ->
  Email.formatConfirmation host t u token = formatMessage host t u token.
Proof.
  intros H. unfold Email.formatConfirmation. unfold formatMessage at 4.
  simpl. f_equal.
  destruct (attachment t) as [l|]; [|reflexivity]. simpl. f_equal.
  destruct l as [|a [|b l]]; [reflexivity|reflexivity|simpl in H; lia].
Qed.

Lemma confirmation_format_agrees_witness :
  Email.formatConfirmation RefHost.host Fixture.reset_template Fixture.alice
    "t"
  = formatMessage RefHost.host Fixture.reset_template Fixture.alice "t".
Proof.
  apply (confirmation_format_agrees RefHost.host Fixture.reset_template
           Fixture.alice "t").
  simpl. lia.
Defined.
